(** * Walk-forward backtest driver of LMP_Forecasting ([run.py])

    A shallow embedding of [run.py] and a verification of its day loop:
    the data window handed to the forecasting model, the forecast frame
    filled one row per test day, the running metrics and the error path
    of [main].

    Conventions of the embedding.
    - A timestamp is an integer number of hours ([Z]); [pd.Timedelta(hours=23)]
      is the integer 23.
    - numpy floats are an abstract carrier with a distinguished [NaN]
      (class [Numpy]); no floating-point arithmetic is interpreted.
    - The collaborators imported from [epftoolbox] ([read_data], [LEAR],
      [MAE], [sMAPE]) are the fields of class [Epftoolbox].
    - Python objects live in a heap addressed by references, so that the
      aliasing between [main] and [process_date] is explicit.
    - Exceptions derived from [Exception] are values of [exn]; every
      operation runs in a state-and-exception monad [M] over [world].
    - Log and console lines are kept as structured messages; the text
      formatting of dates and floats is not interpreted.
    - [log] is the sequence of records handed to [logging.info] and
      [logging.error], in call order. The configuration of the logger,
      and so which of these records a handler emits or a file receives,
      is not interpreted. *)

From Stdlib Require Import ZArith Lia String DecimalString.
From Stdlib Require DecimalZ.
From stdpp Require Import base list strings.

Local Open Scope Z_scope.
Local Open Scope nat_scope.

(** ** numpy values *)

Class Numpy := {
  float : Type;
  NaN : float;
  float_of_int : Z -> float;
  float_mul : float -> float -> float;
  np_mean : float -> float
}.

(** ** Exceptions and results *)

Inductive exn :=
| ValueError (origin : string)
| KeyError (label : Z)
| TypeError (origin : string)
| OtherError (name : string).

Inductive result (A : Type) :=
| Ok (a : A)
| Raise (e : exn).
Arguments Ok {A} a.
Arguments Raise {A} e.

#[global] Instance result_ret : MRet result := fun A a => Ok a.

#[global] Instance result_bind : MBind result := fun A B f r =>
  match r with
  | Ok a => f a
  | Raise e => Raise e
  end.

(** Command-line arguments, the namespace returned by [parse_arguments]. *)
Record Args := {
  dataset : string;
  years_test : Z;
  calibration_window : Z;
  begin_test_date : option string;
  end_test_date : option string
}.

(** The defaults declared in [parse_arguments]. *)
Definition default_args : Args :=
  {| dataset := "PJM"; years_test := 2; calibration_window := 4 * 364;
     begin_test_date := None; end_test_date := None |}.

(** ** pandas indexes: label lookup and label slices *)

Inductive side := Left | Right.

(** Positions of a label in an index, counted from [i]. *)
Fixpoint positions_from (i : nat) (label : Z) (idx : list Z) : list nat :=
  match idx with
  | [] => []
  | x :: rest =>
      if (x =? label)%Z then i :: positions_from (S i) label rest
      else positions_from (S i) label rest
  end.

(** [Index.get_loc]: all positions that carry the label. *)
Definition get_loc (idx : list Z) (label : Z) : list nat :=
  positions_from 0 label idx.

Fixpoint is_monotonic_increasing (idx : list Z) : bool :=
  match idx with
  | x :: (y :: _) as rest => (x <=? y)%Z && is_monotonic_increasing rest
  | _ => true
  end.

Fixpoint is_monotonic_decreasing (idx : list Z) : bool :=
  match idx with
  | x :: (y :: _) as rest => (y <=? x)%Z && is_monotonic_decreasing rest
  | _ => true
  end.

(** [searchsorted] on an increasing index: the insertion point that keeps
    the order, before ([Left]) or after ([Right]) equal labels. *)
Fixpoint searchsorted (idx : list Z) (label : Z) (s : side) : nat :=
  match idx with
  | [] => 0
  | x :: rest =>
      if (match s with Left => x <? label | Right => x <=? label end)%Z
      then S (searchsorted rest label s)
      else 0
  end.

Definition flip_side (s : side) : side :=
  match s with Left => Right | Right => Left end.

(** [Index.get_slice_bound]: the label is looked up first; an absent label
    falls back on [searchsorted] when the index is monotonic and is a
    [KeyError] otherwise; a label met at scattered positions is a
    [KeyError] too. *)
Definition get_slice_bound (idx : list Z) (label : Z) (s : side) : result nat :=
  match get_loc idx label with
  | [] =>
      if is_monotonic_increasing idx then Ok (searchsorted idx label s)
      else if is_monotonic_decreasing idx
      then Ok (length idx - searchsorted (rev idx) label (flip_side s))
      else Raise (KeyError label)
  | p :: ps =>
      if bool_decide (p :: ps = seq p (length (p :: ps)))
      then Ok (match s with Left => p | Right => S (List.last ps p) end)
      else Raise (KeyError label)
  end.

(** [Index.slice_locs]: the positional bounds of the label slice
    [start:stop], both ends included; a missing bound is the frame's end. *)
Definition slice_locs (idx : list Z) (start stop : option Z) : result (nat * nat) :=
  match (match start with
         | Some a => get_slice_bound idx a Left
         | None => Ok 0
         end) with
  | Raise e => Raise e
  | Ok lo =>
      match (match stop with
             | Some b => get_slice_bound idx b Right
             | None => Ok (length idx)
             end) with
      | Raise e => Raise e
      | Ok hi => Ok (lo, hi)
      end
  end.

(** The positional slice [l[lo:hi]]. *)
Definition islice {A} (lo hi : nat) (l : list A) : list A :=
  take (hi - lo) (drop lo l).

(** [index[::24]]: every 24th label, starting with the first. *)
Fixpoint step_from {A} (skip : nat) (l : list A) : list A :=
  match l with
  | [] => []
  | x :: rest =>
      match skip with
      | 0 => x :: step_from 23 rest
      | S k => step_from k rest
      end
  end.

Definition every_24th {A} (l : list A) : list A := step_from 0 l.

(** [values.reshape(-1, 24)]. *)
Definition reshape_24 {A} (l : list A) : result (list (list A)) :=
  if (length l mod 24 =? 0)
  then Ok (map (fun i => take 24 (drop (24 * i) l)) (seq 0 (length l / 24)))
  else Raise (ValueError "reshape").

(** [str] of a Python integer. *)
Definition str_int (z : Z) : string := NilZero.string_of_int (Z.to_int z).

(** ** Frames *)

(** One hourly record of an observation frame: the index label, the
    ['Price'] column and the remaining (exogenous) columns. *)
Record Row `{Numpy} := { ts : Z; Price : float; Exog : list float }.

(** An observation frame ([df_train], [df_test], [data_available]), row by
    row in storage order. *)
Abbreviation DataFrame := (list Row).

Section Frames.
Context `{Numpy}.

(** A frame indexed by day ([forecast], [real_values]). *)
Record DayFrame := {
  d_index : list Z;
  d_columns : list string;
  d_values : list (list float)
}.

(** The arrays given to the metrics: [.values] is two-dimensional and
    [squeeze] drops the row axis when it has length one (the column axis
    has length 24). *)
Inductive ndarray :=
| Arr1 (v : list float)
| Arr2 (rows : list (list float)).

Definition squeeze (a : ndarray) : ndarray :=
  match a with
  | Arr2 [r] => Arr1 r
  | _ => a
  end.

(** [pd.concat([a, b], axis=0)] of two frames with the same columns. *)
Definition pd_concat (a b : DataFrame) : DataFrame := a ++ b.

(** [df.loc[:stop, :]]. *)
Definition loc_upto (d : DataFrame) (stop : Z) : result DataFrame :=
  match slice_locs (map ts d) None (Some stop) with
  | Ok (lo, hi) => Ok (islice lo hi d)
  | Raise e => Raise e
  end.

Definition set_price (v : float) (r : Row) : Row :=
  {| ts := ts r; Price := v; Exog := Exog r |}.

(** Assignment of [v] to the ['Price'] cell of the rows at positions
    [lo .. hi-1]. *)
Fixpoint set_price_slice (lo hi : nat) (v : float) (d : DataFrame) : DataFrame :=
  match d with
  | [] => []
  | r :: rest =>
      match lo, hi with
      | 0, 0 => r :: rest
      | 0, S h => set_price v r :: set_price_slice 0 h v rest
      | S l, _ => r :: set_price_slice l (pred hi) v rest
      end
  end.

(** [d.loc[start:stop, 'Price'] = v] on the value of a frame. *)
Definition loc_assign_price (d : DataFrame) (start stop : Z) (v : float)
  : result DataFrame :=
  match slice_locs (map ts d) (Some start) (Some stop) with
  | Ok (lo, hi) => Ok (set_price_slice lo hi v d)
  | Raise e => Raise e
  end.

(** numpy broadcasting of a flat value into a row of [n] cells: [n] values
    are stored as they are, a single value is repeated, any other count is
    refused. *)
Definition broadcast_row (n : nat) (v : list float) : result (list float) :=
  if length v =? n then Ok v
  else match v with
       | [x] => Ok (replicate n x)
       | _ => Raise (ValueError "setitem")
       end.

(** Overwrite the rows at the given positions. *)
Definition set_rows (ps : list nat) (row : list float) (rows : list (list float))
  : list (list float) :=
  foldr (fun p acc => <[p := row]> acc) rows ps.

(** [f.loc[label, :] = v] on the value of a day frame, with the positions
    of the rows assigned: every row carrying the label receives the
    broadcast value; an absent label appends a row (setting with
    enlargement), which takes no broadcasting. *)
Definition loc_assign_row (f : DayFrame) (label : Z) (v : list float)
  : result (DayFrame * list nat) :=
  match get_loc (d_index f) label with
  | [] =>
      if length v =? length (d_columns f)
      then Ok ({| d_index := d_index f ++ [label]; d_columns := d_columns f;
                  d_values := d_values f ++ [v] |}, [length (d_values f)])
      else Raise (ValueError "setitem")
  | p :: ps =>
      row ← broadcast_row (length (d_columns f)) v;
      Ok ({| d_index := d_index f; d_columns := d_columns f;
             d_values := set_rows (p :: ps) row (d_values f) |}, p :: ps)
  end.

(** [f.loc[:stop].values]. *)
Definition loc_upto_values (f : DayFrame) (stop : Z) : result (list (list float)) :=
  match slice_locs (d_index f) None (Some stop) with
  | Ok (lo, hi) => Ok (islice lo hi (d_values f))
  | Raise e => Raise e
  end.

(** [[f'h{k}' for k in range(24)]]. *)
Definition hour_columns : list string :=
  map (fun k => ("h" ++ str_int (Z.of_nat k))%string) (seq 0 24).

(** [pd.DataFrame(index=index, columns=hour_columns)]: every cell is NaN. *)
Definition empty_days (index : list Z) : DayFrame :=
  {| d_index := index; d_columns := hour_columns;
     d_values := map (fun _ => replicate 24 NaN) index |}.

(** [pd.DataFrame(values, index=index, columns=columns)] on rows of 24
    values: the number of rows must be that of the index. *)
Definition days_of_values (values : list (list float)) (index : list Z)
    (columns : list string) : result DayFrame :=
  if length values =? length index
  then Ok {| d_index := index; d_columns := columns; d_values := values |}
  else Raise (ValueError "DataFrame").

End Frames.

(** ** The collaborators imported from epftoolbox

    [Model] is the state of a [LEAR] object and [LEAR] its constructor.
    [recalibrate_and_forecast_next_day m df next_day_date calibration_window]
    returns the state the call leaves the model in and either the values
    it forecasts, flattened, or the exception it raises. [read_data dataset
    years_test path begin_test_date end_test_date] returns the train and
    test frames. The metrics, called as in [process_date], may raise. *)

Class Epftoolbox `{Numpy} := {
  Model : Type;
  LEAR : Z -> Model;
  recalibrate_and_forecast_next_day :
    Model -> DataFrame -> Z -> Z -> Model * result (list float);
  read_data :
    string -> Z -> string -> option string -> option string ->
    result (DataFrame * DataFrame);
  MAE : ndarray -> ndarray -> result float;
  sMAPE : ndarray -> ndarray -> result float
}.

(** ** The interpreter state *)

Section Engine.
Context `{Epftoolbox}.

(** Python objects reachable from [main]. *)
Inductive object :=
| PyFrame (d : DataFrame)
| PyDays (f : DayFrame)
| PyModel (m : Model).

(** The lines given to [logging] and [print]. *)
Inductive message :=
| SystemInfo (field : string)
| LibraryScriptName (lib_script : string)
| LibraryScriptPath (lib_script : string)
| FuncStart (func_name : string)
| FuncEnd (func_name : string)
| StartingScript (dataset : string)
| TestYears (n : Z)
| CalibrationWindow (n : Z)
| ProcessingDate (date : Z)
| Progress (date : Z) (smape mae : float)
| Completed
| ErrorOccurred (e : exn)
| Traceback (e : exn).

Inductive record :=
| Info (m : message)
| Error (m : message).

(** One invocation of the model: what it received and what it answered. *)
Record Call := {
  c_df : DataFrame;
  c_next_day_date : Z;
  c_calibration_window : Z;
  c_result : result (list float)
}.

(** [heap]: the objects, addressed by position. [calls]: the model
    invocations so far. [writes]: the (frame, row) positions assigned by
    [.loc[date, :] = ...] so far, in order. [log]: the records handed to [logging].
    [stdout]: the printed lines. [files]: the files written, the log
    file apart. *)
Record world := {
  heap : list object;
  calls : list Call;
  writes : list (nat * nat);
  log : list record;
  stdout : list message;
  files : list (string * DayFrame)
}.

Definition init_world : world :=
  {| heap := []; calls := []; writes := []; log := []; stdout := []; files := [] |}.

Definition set_heap (h : list object) (w : world) : world :=
  {| heap := h; calls := calls w; writes := writes w; log := log w;
     stdout := stdout w; files := files w |}.

Definition add_call (c : Call) (w : world) : world :=
  {| heap := heap w; calls := calls w ++ [c]; writes := writes w; log := log w;
     stdout := stdout w; files := files w |}.

Definition add_writes (ws : list (nat * nat)) (w : world) : world :=
  {| heap := heap w; calls := calls w; writes := writes w ++ ws; log := log w;
     stdout := stdout w; files := files w |}.

Definition add_log (r : record) (w : world) : world :=
  {| heap := heap w; calls := calls w; writes := writes w; log := log w ++ [r];
     stdout := stdout w; files := files w |}.

Definition add_stdout (m : message) (w : world) : world :=
  {| heap := heap w; calls := calls w; writes := writes w; log := log w;
     stdout := stdout w ++ [m]; files := files w |}.

(** ** The state-and-exception monad *)

Definition M (A : Type) : Type := world -> result A * world.

#[global] Instance M_ret : MRet M := fun A a w => (Ok a, w).

#[global] Instance M_bind : MBind M := fun A B f m w =>
  match m w with
  | (Ok a, w') => f a w'
  | (Raise e, w') => (Raise e, w')
  end.

(** A pure computation that may raise. *)
Definition lift {A} (r : result A) : M A := fun w => (r, w).

(** [try: body except Exception as e: handler(e)]. *)
Definition try_except {A} (body : M A) (handler : exn -> M A) : M A := fun w =>
  match body w with
  | (Ok a, w') => (Ok a, w')
  | (Raise e, w') => handler e w'
  end.

(** [for x in l: body(x)]. *)
Fixpoint for_each {A} (l : list A) (body : A -> M unit) : M unit :=
  match l with
  | [] => mret ()
  | x :: rest => body x ;; for_each rest body
  end.

Definition alloc (o : object) : M nat := fun w =>
  (Ok (length (heap w)), set_heap (heap w ++ [o]) w).

Definition store (r : nat) (o : object) : M unit := fun w =>
  (Ok (), set_heap (<[r := o]> (heap w)) w).

Definition read_frame (r : nat) : M DataFrame := fun w =>
  match heap w !! r with
  | Some (PyFrame d) => (Ok d, w)
  | _ => (Raise (TypeError "DataFrame"), w)
  end.

Definition read_days (r : nat) : M DayFrame := fun w =>
  match heap w !! r with
  | Some (PyDays f) => (Ok f, w)
  | _ => (Raise (TypeError "DataFrame"), w)
  end.

Definition read_model (r : nat) : M Model := fun w =>
  match heap w !! r with
  | Some (PyModel m) => (Ok m, w)
  | _ => (Raise (TypeError "LEAR"), w)
  end.

Definition logging_info (m : message) : M unit := fun w => (Ok (), add_log (Info m) w).
Definition logging_error (m : message) : M unit := fun w => (Ok (), add_log (Error m) w).
Definition print (m : message) : M unit := fun w => (Ok (), add_stdout m w).
Definition note_call (c : Call) : M unit := fun w => (Ok (), add_call c w).
Definition note_writes (ws : list (nat * nat)) : M unit := fun w => (Ok (), add_writes ws w).

(** [obj.loc[start:stop, 'Price'] = v] on the frame object at [r]. *)
Definition loc_set_price (r : nat) (start stop : Z) (v : float) : M unit :=
  d ← read_frame r;
  d' ← lift (loc_assign_price d start stop v);
  store r (PyFrame d').

(** [obj.loc[label, :] = v] on the day frame at [r]. *)
Definition loc_set_row (r : nat) (label : Z) (v : list float) : M unit :=
  f ← read_days r;
  '(f', ps) ← lift (loc_assign_row f label v);
  store r (PyDays f') ;;
  note_writes (map (pair r) ps).

(** [model.recalibrate_and_forecast_next_day(df=..., next_day_date=...,
    calibration_window=...)] on the objects at [model] and [df]. *)
Definition call_model (model df : nat) (date cw : Z) : M (list float) :=
  m ← read_model model;
  d ← read_frame df;
  let '(m', out) := recalibrate_and_forecast_next_day m d date cw in
  note_call {| c_df := d; c_next_day_date := date; c_calibration_window := cw;
               c_result := out |} ;;
  store model (PyModel m') ;;
  lift out.

(** ** run.py *)

(** [setup_logging] calls [logging.basicConfig] and hands no record to
    [logging]. What the call configures is not interpreted: [log] keeps
    every record handed to [logging], whatever its level. In [run.py] the
    decorator of [main] calls [logging.info] before [setup_logging] runs;
    that first call gives the root logger its default handler and the
    level WARNING, [basicConfig] then finds a handler and changes
    nothing, so that of the records of [log] the handler emits those
    handed to [logging.error] only. *)
Definition setup_logging : M unit := mret ().

(** [log_system_info]: five records about the interpreter and the script,
    then two per library script; their values depend on the machine and
    are not kept. *)
Definition log_system_info : M unit :=
  logging_info (SystemInfo "Python Version") ;;
  logging_info (SystemInfo "Platform") ;;
  logging_info (SystemInfo "Operating System") ;;
  logging_info (SystemInfo "Script Path") ;;
  logging_info (SystemInfo "Execution Script Name") ;;
  let library_scripts :=
    ["epftoolbox.data"; "epftoolbox.evaluation"; "epftoolbox.models"]%string in
  for_each library_scripts (fun lib_script =>
    logging_info (LibraryScriptName lib_script) ;;
    logging_info (LibraryScriptPath lib_script)).

(** The decorator [log_function_info]. *)
Definition log_function_info {A} (func_name : string) (func : M A) : M A :=
  logging_info (FuncStart func_name) ;;
  result ← func;
  logging_info (FuncEnd func_name) ;;
  mret result.

(** The call of [read_data] made by [load_data]. *)
Definition read_args (args : Args) : result (DataFrame * DataFrame) :=
  let path_datasets_folder := "./datasets"%string in
  read_data (dataset args) (years_test args) path_datasets_folder
    (begin_test_date args) (end_test_date args).

(** [load_data]: the two frames returned by [read_data] are new objects. *)
Definition load_data (args : Args) : M (nat * nat) :=
  log_function_info "load_data" (
    '(train, test) ← lift (read_args args);
    df_train ← alloc (PyFrame train);
    df_test ← alloc (PyFrame test);
    mret (df_train, df_test)).

Definition create_forecast_file_name (args : Args) : M string :=
  log_function_info "create_forecast_file_name" (
    mret ("fc_nl_dat" ++ dataset args ++ "_YT" ++ str_int (years_test args)
          ++ "_CW" ++ str_int (calibration_window args) ++ ".csv")%string).

Definition create_forecast_file_path (args : Args) : M string :=
  log_function_info "create_forecast_file_path" (
    let path_recalibration_folder := "./experimental_files"%string in
    name ← create_forecast_file_name args;
    mret (path_recalibration_folder ++ "/" ++ name)%string).

Definition process_date (args : Args)
    (df_train df_test forecast real_values model : nat) (date : Z) : M unit :=
  log_function_info "process_date" (
    logging_info (ProcessingDate date) ;;
    train ← read_frame df_train;
    test ← read_frame df_test;
    upto ← lift (loc_upto test (date + 23));
    data_available ← alloc (PyFrame (pd_concat train upto));
    loc_set_price data_available date (date + 23) NaN ;;
    Yp ← call_model model data_available date (calibration_window args);
    loc_set_row forecast date Yp ;;
    f ← read_days forecast;
    fv ← lift (loc_upto_values f date);
    rv ← read_days real_values;
    rvv ← lift (loc_upto_values rv date);
    m ← lift (MAE (squeeze (Arr2 fv)) (Arr2 rvv));
    let mae := np_mean m in
    f ← read_days forecast;
    fv ← lift (loc_upto_values f date);
    rv ← read_days real_values;
    rvv ← lift (loc_upto_values rv date);
    s ← lift (sMAPE (squeeze (Arr2 fv)) (Arr2 rvv));
    let smape := float_mul (np_mean s) (float_of_int 100) in
    let log_message := Progress date smape mae in
    print log_message ;;
    logging_info log_message).

Definition handle_error (e : exn) : M unit :=
  log_function_info "handle_error" (
    let error_message := ErrorOccurred e in
    print error_message ;;
    logging_error error_message ;;
    logging_error (Traceback e)).

(** The local variables of [main] when the loop starts. *)
Record locals := {
  df_train : nat;
  df_test : nat;
  forecast_file_path : string;
  forecast : nat;
  real_values : nat;
  forecast_dates : list Z;
  model : nat
}.

(** [main], lines 113 to 129: everything before the loop. The namespace
    returned by [parse_arguments] is the parameter [args]. *)
Definition main_setup (args : Args) : M locals :=
  setup_logging ;;
  log_system_info ;;
  logging_info (StartingScript (dataset args)) ;;
  logging_info (TestYears (years_test args)) ;;
  logging_info (CalibrationWindow (calibration_window args)) ;;
  '(df_train, df_test) ← load_data args;
  forecast_file_path ← create_forecast_file_path args;
  test ← read_frame df_test;
  forecast ← alloc (PyDays (empty_days (every_24th (map ts test))));
  test ← read_frame df_test;
  values ← lift (reshape_24 (map Price test));
  f ← read_days forecast;
  rv ← lift (days_of_values values (d_index f) (d_columns f));
  real_values ← alloc (PyDays rv);
  f ← read_days forecast;
  let forecast_dates := d_index f in
  model ← alloc (PyModel (LEAR (calibration_window args)));
  mret {| df_train := df_train; df_test := df_test;
          forecast_file_path := forecast_file_path;
          forecast := forecast; real_values := real_values;
          forecast_dates := forecast_dates; model := model |}.

(** [main], lines 131 and 132: the loop, over any list of dates. *)
Definition main_loop (args : Args) (l : locals) (dates : list Z) : M unit :=
  for_each dates (fun date =>
    process_date args (df_train l) (df_test l) (forecast l) (real_values l)
      (model l) date).

(** The [try] block of [main]. *)
Definition main_body (args : Args) : M unit :=
  l ← main_setup args;
  main_loop args l (forecast_dates l) ;;
  logging_info Completed.

Definition main (args : Args) : M unit :=
  log_function_info "main" (try_except (main_body args) handle_error).

(** The run observed after at most [k] iterations of the loop. *)
Definition main_upto (args : Args) (k : nat) : M unit :=
  l ← main_setup args;
  main_loop args l (take k (forecast_dates l)).

End Engine.

(** ** Value-level readings of [process_date]

    The same computations as in [process_date], on the values of the
    objects instead of on the heap. *)

Section Outcome.
Context `{Epftoolbox}.

(** Lines 96 and 97: the frame built for the model. *)
Definition window_value (train test : DataFrame) (date : Z) : result DataFrame :=
  upto ← loc_upto test (date + 23);
  loc_assign_price (pd_concat train upto) date (date + 23) NaN.

(** Lines 104 to 106: the progress line of a day. *)
Definition progress_value (f rv : DayFrame) (date : Z) : result message :=
  fv ← loc_upto_values f date;
  rvv ← loc_upto_values rv date;
  m ← MAE (squeeze (Arr2 fv)) (Arr2 rvv);
  fv' ← loc_upto_values f date;
  rvv' ← loc_upto_values rv date;
  s ← sMAPE (squeeze (Arr2 fv')) (Arr2 rvv');
  Ok (Progress date (float_mul (np_mean s) (float_of_int 100)) (np_mean m)).

(** The outcome of [process_date] when its five object arguments hold the
    values [train], [test], [f], [rv] and [m]. *)
Definition day_outcome (args : Args) (fc mo : nat) (train test : DataFrame)
    (f rv : DayFrame) (m : Model) (date : Z) (w : world) : result unit * world :=
  let w1 := add_log (Info (ProcessingDate date))
              (add_log (Info (FuncStart "process_date")) w) in
  match loc_upto test (date + 23) with
  | Raise e => (Raise e, w1)
  | Ok upto =>
      match loc_assign_price (pd_concat train upto) date (date + 23) NaN with
      | Raise e =>
          (Raise e, set_heap (heap w ++ [PyFrame (pd_concat train upto)]) w1)
      | Ok win =>
          let '(m', out) :=
            recalibrate_and_forecast_next_day m win date (calibration_window args) in
          let w2 :=
            set_heap (<[mo := PyModel m']> (heap w ++ [PyFrame win]))
              (add_call {| c_df := win; c_next_day_date := date;
                           c_calibration_window := calibration_window args;
                           c_result := out |} w1) in
          match out with
          | Raise e => (Raise e, w2)
          | Ok yp =>
              match loc_assign_row f date yp with
              | Raise e => (Raise e, w2)
              | Ok (f', ps) =>
                  let w3 := add_writes (map (pair fc) ps)
                              (set_heap (<[fc := PyDays f']> (heap w2)) w2) in
                  match progress_value f' rv date with
                  | Raise e => (Raise e, w3)
                  | Ok msg =>
                      (Ok (), add_log (Info (FuncEnd "process_date"))
                                (add_log (Info msg) (add_stdout msg w3)))
                  end
              end
          end
      end
  end.

End Outcome.

(** ** Specification-level definitions *)

Section Specification.
Context `{Epftoolbox}.

(** The hours of the day that starts at [date]. *)
Definition in_day (date : Z) (r : Row) : bool :=
  (date <=? ts r)%Z && (ts r <=? date + 23)%Z.

(** The Available Data Window in the words of the specification: the
    train observations followed by the test observations whose timestamp
    is at most the last hour of the day, the price of the day's own hours
    being unknown. *)
Definition available_window (train test : DataFrame) (date : Z) : DataFrame :=
  map (fun r => if in_day date r then set_price NaN r else r)
      (train ++ filter (fun r => (ts r <= date + 23)%Z) test).

(** A model answer that a row of 24 cells cannot take. *)
Definition wrong_count (c : Call) : Prop :=
  exists yp, c_result c = Ok yp /\ length yp <> 24 /\ length yp <> 1.

(** The records handed to [logging.info] by the lines of [main] before
    the loop, the start of [main] included. *)
Definition setup_log (args : Args) : list record :=
  [Info (FuncStart "main");
   Info (SystemInfo "Python Version"); Info (SystemInfo "Platform");
   Info (SystemInfo "Operating System"); Info (SystemInfo "Script Path");
   Info (SystemInfo "Execution Script Name");
   Info (LibraryScriptName "epftoolbox.data");
   Info (LibraryScriptPath "epftoolbox.data");
   Info (LibraryScriptName "epftoolbox.evaluation");
   Info (LibraryScriptPath "epftoolbox.evaluation");
   Info (LibraryScriptName "epftoolbox.models");
   Info (LibraryScriptPath "epftoolbox.models");
   Info (StartingScript (dataset args));
   Info (TestYears (years_test args));
   Info (CalibrationWindow (calibration_window args));
   Info (FuncStart "load_data"); Info (FuncEnd "load_data");
   Info (FuncStart "create_forecast_file_path");
   Info (FuncStart "create_forecast_file_name");
   Info (FuncEnd "create_forecast_file_name");
   Info (FuncEnd "create_forecast_file_path")].

(** The state in which the [try] block of [main] starts: the decorator has
    handed the start of [main] to [logging.info]. *)
Definition entry : world := add_log (Info (FuncStart "main")) init_world.

(** The local variables of [main] at the start of the loop, and the state
    in which the loop starts. *)
Definition main_locals (args : Args) : result locals :=
  (main_setup args entry).1.

Definition main_start (args : Args) : world :=
  (main_setup args entry).2.

(** The objects named by the local variables of [main] hold what the loop
    expects of them: the two observation frames, the real values, a
    forecast frame over the test days with 24 columns, the model. *)
Record day_inv (l : locals) (train test : DataFrame) (rv : DayFrame) (w : world)
  : Prop := {
  inv_train : heap w !! df_train l = Some (PyFrame train);
  inv_test : heap w !! df_test l = Some (PyFrame test);
  inv_real : heap w !! real_values l = Some (PyDays rv);
  inv_real_index : d_index rv = forecast_dates l;
  inv_forecast : exists f,
    heap w !! forecast l = Some (PyDays f) /\
    d_index f = forecast_dates l /\
    length (d_columns f) = 24 /\
    length (d_values f) = length (forecast_dates l);
  inv_model : exists m, heap w !! model l = Some (PyModel m);
  inv_distinct : forecast l <> real_values l
}.

(** The rows of the forecast frame from position [j] on still hold the
    NaN they were created with. *)
Definition unwritten_from (l : locals) (j : nat) (w : world) : Prop :=
  exists f, heap w !! forecast l = Some (PyDays f) /\
    forall i, j <= i -> i < length (forecast_dates l) ->
      d_values f !! i = Some (replicate 24 NaN).

End Specification.

(** ** A concrete instance

    Prices and covariates are integers ([None] is NaN); the metrics are
    integer means. The data source returns one day of history followed by
    [test_hours] hours of test data; the model answers [answer]. *)

Module Demo.

Definition numpy : Numpy :=
  {| float := option Z;
     NaN := None;
     float_of_int := fun z => Some z;
     float_mul := fun a b =>
       match a, b with Some x, Some y => Some (x * y)%Z | _, _ => None end;
     np_mean := fun x => x |}.

Definition hours (start : Z) (n : nat) : list (@Row numpy) :=
  map (fun k => {| ts := (start + Z.of_nat k)%Z;
                   Price := Some (20 + Z.of_nat k mod 5)%Z : @float numpy;
                   Exog := [Some (Z.of_nat k) : @float numpy] |})
      (seq 0 n).

Definition cells (a : @ndarray numpy) : list (option Z) :=
  match a with
  | Arr1 v => v
  | Arr2 rows => concat rows
  end.

Definition total (l : list (option Z)) : option Z :=
  foldr (fun x acc =>
           match x, acc with Some a, Some b => Some (a + b)%Z | _, _ => None end)
        (Some 0%Z) l.

Definition mean_by (f : Z -> Z -> Z) (a b : @ndarray numpy)
  : result (@float numpy) :=
  if length (cells a) =? length (cells b)
  then Ok (match total (zip_with (fun p q =>
                          match p, q with
                          | Some x, Some y => Some (f x y)
                          | _, _ => None
                          end) (cells a) (cells b)) with
           | Some s => Some (s / Z.of_nat (length (cells a)))%Z
           | None => None
           end)
  else Raise (ValueError "metric").

Definition toolbox (test_hours : nat)
    (answer : Z -> result (list (@float numpy))) : @Epftoolbox numpy :=
  {| Model := nat;
     LEAR := fun _ => 0;
     recalibrate_and_forecast_next_day := fun m _ date _ => (S m, answer date);
     read_data := fun _ _ _ _ _ => Ok (hours 0 24, hours 24 test_hours);
     MAE := mean_by (fun x y => Z.abs (x - y));
     sMAPE := mean_by (fun x y => 2 * Z.abs (x - y) / (Z.abs x + Z.abs y))%Z |}.

(** Two whole test days and a model that answers 24 values. *)
Definition sound : @Epftoolbox numpy :=
  toolbox 48 (fun _ => Ok (replicate 24 (Some 21%Z))).

(** Two whole test days and a model that answers 23 values. *)
Definition short_answer : @Epftoolbox numpy :=
  toolbox 48 (fun _ => Ok (replicate 23 (Some 21%Z))).

(** Two whole test days and a model whose second answer has 23 values. *)
Definition short_second : @Epftoolbox numpy :=
  toolbox 48 (fun date =>
    if (date =? 24)%Z then Ok (replicate 24 (Some 21%Z))
    else Ok (replicate 23 (Some 21%Z))).

(** A test range that lacks its last hour. *)
Definition missing_hour : @Epftoolbox numpy :=
  toolbox 47 (fun _ => Ok (replicate 24 (Some 21%Z))).

(** A test range of 48 rows that lacks hour 47: its rows run from hour 24
    to hour 46 and from hour 48 to hour 72. *)
Definition skipped_hour : @Epftoolbox numpy :=
  {| Model := nat;
     LEAR := fun _ => 0;
     recalibrate_and_forecast_next_day := fun m _ _ _ =>
       (S m, Ok (replicate 24 (Some 21%Z : @float numpy)));
     read_data := fun _ _ _ _ _ =>
       Ok (hours 0 24, hours 24 23 ++ hours 48 25);
     MAE := mean_by (fun x y => Z.abs (x - y));
     sMAPE := mean_by (fun x y => 2 * Z.abs (x - y) / (Z.abs x + Z.abs y))%Z |}.

Definition zero_window : Args :=
  {| dataset := "PJM"; years_test := 2; calibration_window := 0;
     begin_test_date := None; end_test_date := None |}.

Definition sound_locals : locals :=
  {| df_train := 0; df_test := 1;
     forecast_file_path := "./experimental_files/fc_nl_datPJM_YT2_CW1456.csv";
     forecast := 2; real_values := 3; forecast_dates := [24; 48]%Z;
     model := 4 |}.

Definition zero_window_locals : locals :=
  {| df_train := 0; df_test := 1;
     forecast_file_path := "./experimental_files/fc_nl_datPJM_YT2_CW0.csv";
     forecast := 2; real_values := 3; forecast_dates := [24; 48]%Z;
     model := 4 |}.

(** The call the model receives for the first test day. *)
Definition first_call (cw : Z) (answer : list (@float numpy)) : @Call numpy :=
  {| c_df := @available_window numpy (hours 0 24) (hours 24 48) 24;
     c_next_day_date := 24; c_calibration_window := cw;
     c_result := Ok answer |}.

(** The call the model receives for the second test day. *)
Definition second_call (cw : Z) (answer : list (@float numpy)) : @Call numpy :=
  {| c_df := @available_window numpy (hours 0 24) (hours 24 48) 48;
     c_next_day_date := 48; c_calibration_window := cw;
     c_result := Ok answer |}.

End Demo.

(** ** Definitions for the properties of the whole run *)

Section Sizes.
Context `{Numpy}.

(** [ndarray.size]: the number of cells of an array. *)
Definition np_size (a : ndarray) : nat :=
  match a with
  | Arr1 v => length v
  | Arr2 rows => length (concat rows)
  end.

End Sizes.

Section Progress.
Context `{Epftoolbox}.

(** The date of a progress line. *)
Definition progress_date (m : message) : option Z :=
  match m with
  | Progress date _ _ => Some date
  | _ => None
  end.

Definition is_info (r : record) : bool :=
  match r with
  | Info _ => true
  | Error _ => false
  end.

(** What a day added to the calls, the row assignments and the printed
    lines. *)
Definition day_left (w w' : world) (cs : list Call) (ws : list (nat * nat))
    (ms : list message) : Prop :=
  calls w' = calls w ++ cs /\ writes w' = writes w ++ ws /\
  stdout w' = stdout w ++ ms.

(** A state of the loop in which the model was called for the first [nc]
    test days, the rows of the first [nw] were assigned and the progress
    lines of the first [np] were printed, each once and in order of date,
    every assigned row holding the answer of the call of its day. *)
Record in_step (l : locals) (nc nw np : nat) (w : world) : Prop := {
  step_calls : map c_next_day_date (calls w) = take nc (forecast_dates l);
  step_writes : writes w = map (pair (forecast l)) (seq 0 nw);
  step_lines :
    map progress_date (stdout w) = map Some (take np (forecast_dates l));
  step_rows : forall i, i < nw ->
    exists c yp row f,
      calls w !! i = Some c /\ c_result c = Ok yp /\
      broadcast_row 24 yp = Ok row /\
      heap w !! forecast l = Some (PyDays f) /\ d_values f !! i = Some row
}.

(** The records that the days that completed hand to [logging.info], in
    order: for every such day the start of [process_date], its date, its
    progress line and the end of [process_date]. *)
Fixpoint day_records (dates : list Z) (lines : list message) : list record :=
  match dates, lines with
  | d :: dates, m :: lines =>
      Info (FuncStart "process_date") :: Info (ProcessingDate d) :: Info m
      :: Info (FuncEnd "process_date") :: day_records dates lines
  | _, _ => []
  end.

(** The records of a day that started and raised: the decorator hands no
    end of [process_date] to [logging.info]. *)
Definition day_started (date : Z) : list record :=
  [Info (FuncStart "process_date"); Info (ProcessingDate date)].

End Progress.

(** ** Further concrete instances *)

Module Scenario.

(** Two whole test days and a model that raises on the second. *)
Definition model_fails : @Epftoolbox Demo.numpy :=
  Demo.toolbox 48 (fun date =>
    if (date =? 24)%Z then Ok (replicate 24 (Some 21%Z))
    else Raise (OtherError "ConvergenceWarning")).

(** Two whole test days and a percentage metric that raises. *)
Definition metric_fails : @Epftoolbox Demo.numpy :=
  {| Model := nat;
     LEAR := fun _ => 0;
     recalibrate_and_forecast_next_day := fun m _ _ _ =>
       (S m, Ok (replicate 24 (Some 21%Z : @float Demo.numpy)));
     read_data := fun _ _ _ _ _ => Ok (Demo.hours 0 24, Demo.hours 24 48);
     MAE := Demo.mean_by (fun x y => Z.abs (x - y));
     sMAPE := fun _ _ => Raise (ValueError "metric") |}.

(** A data source that fails. *)
Definition no_data : @Epftoolbox Demo.numpy :=
  {| Model := nat;
     LEAR := fun _ => 0;
     recalibrate_and_forecast_next_day := fun m _ _ _ =>
       (S m, Ok (replicate 24 (Some 21%Z : @float Demo.numpy)));
     read_data := fun _ _ _ _ _ => Raise (OtherError "FileNotFoundError");
     MAE := Demo.mean_by (fun x y => Z.abs (x - y));
     sMAPE := Demo.mean_by (fun x y => Z.abs (x - y)) |}.

(** An empty test range. *)
Definition no_test_day : @Epftoolbox Demo.numpy :=
  Demo.toolbox 0 (fun _ => Ok (replicate 24 (Some 21%Z))).

(** One test day whose first two hours come in the wrong order. *)
Definition swapped (d : list (@Row Demo.numpy)) : list (@Row Demo.numpy) :=
  match d with
  | a :: b :: rest => b :: a :: rest
  | _ => d
  end.

Definition out_of_order : @Epftoolbox Demo.numpy :=
  {| Model := nat;
     LEAR := fun _ => 0;
     recalibrate_and_forecast_next_day := fun m _ _ _ =>
       (S m, Ok (replicate 24 (Some 21%Z : @float Demo.numpy)));
     read_data := fun _ _ _ _ _ =>
       Ok (Demo.hours 0 24, swapped (Demo.hours 24 24));
     MAE := Demo.mean_by (fun x y => Z.abs (x - y));
     sMAPE := Demo.mean_by (fun x y => Z.abs (x - y)) |}.

Definition one_day_locals : locals :=
  {| df_train := 0; df_test := 1;
     forecast_file_path := "./experimental_files/fc_nl_datPJM_YT2_CW1456.csv";
     forecast := 2; real_values := 3; forecast_dates := [25]%Z;
     model := 4 |}.

(** The call on which the model of [model_fails] raises. *)
Definition failed_call : @Call Demo.numpy :=
  {| c_df := @available_window Demo.numpy (Demo.hours 0 24) (Demo.hours 24 48) 48;
     c_next_day_date := 48; c_calibration_window := 1456;
     c_result := Raise (OtherError "ConvergenceWarning") |}.

End Scenario.
(** * Proofs *)

(** ** Monotonic indexes *)

Lemma mono_cons x idx :
  is_monotonic_increasing (x :: idx) = true ->
  is_monotonic_increasing idx = true /\ Forall (fun y => (x <= y)%Z) idx.
Proof.
  revert x. induction idx as [|y idx IH]; intros x Hm.
  - split; [done | constructor].
  - cbn [is_monotonic_increasing] in Hm.
    apply andb_true_iff in Hm as [Hxy Hrest]. apply Z.leb_le in Hxy.
    split; [exact Hrest |].
    destruct (IH y Hrest) as [_ Hall].
    constructor; [exact Hxy |].
    eapply Forall_impl; [exact Hall |]. intros z Hz. cbn in Hz. lia.
Qed.

Lemma mono_take idx n :
  is_monotonic_increasing idx = true ->
  is_monotonic_increasing (take n idx) = true.
Proof.
  revert n. induction idx as [|x idx IH]; intros n Hm.
  - by destruct n.
  - destruct n as [|n]; [done |].
    destruct (mono_cons _ _ Hm) as [Hrest Hall].
    specialize (IH n Hrest).
    destruct idx as [|y idx]; [by destruct n |].
    destruct n as [|n]; [done |].
    cbn [take is_monotonic_increasing] in *.
    apply andb_true_iff in Hm as [Hxy _]. by rewrite Hxy.
Qed.

(** On an increasing index whose first label is not below (resp. is
    above) the searched one, the insertion point is the front. *)
Lemma searchsorted_front idx label s :
  Forall (fun y => match s with Left => (label <= y)%Z | Right => (label < y)%Z end) idx ->
  searchsorted idx label s = 0.
Proof.
  destruct idx as [|y idx]; [done |].
  intros Hall. apply Forall_cons in Hall as [Hy _].
  cbn [searchsorted]. destruct s.
  - by rewrite (proj2 (Z.ltb_ge _ _) Hy).
  - rewrite (proj2 (Z.leb_gt _ _) Hy). done.
Qed.

Lemma positions_none i label idx :
  Forall (fun y => y <> label) idx -> positions_from i label idx = [].
Proof.
  revert i. induction idx as [|y idx IH]; intros i Hall; [done |].
  apply Forall_cons in Hall as [Hy Hall]. cbn [positions_from].
  rewrite (proj2 (Z.eqb_neq _ _) Hy). by apply IH.
Qed.

Lemma searchsorted_le idx label :
  searchsorted idx label Left <= searchsorted idx label Right.
Proof.
  induction idx as [|y idx IH]; [done |]. cbn [searchsorted].
  destruct (Z.ltb_spec y label), (Z.leb_spec y label); lia.
Qed.

(** On an increasing index the positions of a label are the run between
    its two insertion points. *)
Lemma positions_sorted i label idx :
  is_monotonic_increasing idx = true ->
  positions_from i label idx
  = seq (i + searchsorted idx label Left)
        (searchsorted idx label Right - searchsorted idx label Left).
Proof.
  revert i. induction idx as [|y idx IH]; intros i Hm; [done |].
  destruct (mono_cons _ _ Hm) as [Hrest Hall].
  cbn [positions_from searchsorted].
  destruct (Z.ltb_spec y label) as [Hlt | Hge].
  - rewrite (proj2 (Z.leb_le y label)) by lia.
    rewrite (proj2 (Z.eqb_neq y label)) by lia.
    rewrite IH by done. f_equal; lia.
  - destruct (Z.eqb_spec y label) as [-> | Hne].
    + rewrite Z.leb_refl.
      rewrite IH by done.
      rewrite (searchsorted_front idx label Left) by done.
      rewrite !Nat.add_0_r, !Nat.sub_0_r. reflexivity.
    + rewrite (proj2 (Z.leb_gt y label)) by lia.
      rewrite Nat.sub_0_r. cbn [seq].
      apply positions_none. eapply Forall_impl; [exact Hall |].
      intros z Hz. cbn in Hz. lia.
Qed.

Lemma last_seq p n d : List.last (seq p (S n)) d = p + n.
Proof.
  revert p. induction n as [|n IH]; intros p; [cbn; lia |].
  change (seq p (S (S n))) with (p :: seq (S p) (S n)).
  change (List.last (p :: seq (S p) (S n)) d) with (List.last (seq (S p) (S n)) d).
  rewrite IH. lia.
Qed.

Lemma get_slice_bound_sorted idx label s :
  is_monotonic_increasing idx = true ->
  get_slice_bound idx label s = Ok (searchsorted idx label s).
Proof.
  intros Hm. unfold get_slice_bound, get_loc.
  rewrite (positions_sorted 0 label idx Hm). cbn [Nat.add].
  pose proof (searchsorted_le idx label) as Hle.
  destruct (searchsorted idx label Right - searchsorted idx label Left)
    as [|n] eqn:Hn.
  - cbn [seq]. by rewrite Hm.
  - cbn [seq]. rewrite length_cons, length_seq.
    change (searchsorted idx label Left :: seq (S (searchsorted idx label Left)) n)
      with (seq (searchsorted idx label Left) (S n)).
    rewrite bool_decide_eq_true_2 by done.
    destruct s; [done |]. f_equal.
    destruct n as [|n]; [cbn [seq List.last]; lia |].
    rewrite last_seq. lia.
Qed.

Lemma slice_locs_sorted idx a b :
  is_monotonic_increasing idx = true ->
  slice_locs idx (Some a) (Some b)
  = Ok (searchsorted idx a Left, searchsorted idx b Right).
Proof.
  intros Hm. unfold slice_locs. by rewrite !get_slice_bound_sorted.
Qed.

Lemma slice_locs_upto_sorted idx b :
  is_monotonic_increasing idx = true ->
  slice_locs idx None (Some b) = Ok (0, searchsorted idx b Right).
Proof.
  intros Hm. unfold slice_locs. by rewrite !get_slice_bound_sorted.
Qed.

Lemma mono_app_le l1 l2 x y :
  is_monotonic_increasing (l1 ++ l2) = true -> x ∈ l1 -> y ∈ l2 -> (x <= y)%Z.
Proof.
  induction l1 as [|z l1 IH]; intros Hm Hx Hy.
  - by apply elem_of_nil in Hx.
  - cbn [app] in Hm. destruct (mono_cons _ _ Hm) as [Hrest Hall].
    apply elem_of_cons in Hx as [-> | Hx]; [| by apply IH].
    rewrite Forall_forall in Hall. apply Hall.
    apply elem_of_app. by right.
Qed.

Lemma step_from_subset {A} skip (l : list A) x : x ∈ step_from skip l -> x ∈ l.
Proof.
  revert skip. induction l as [|y l IH]; intros skip Hx; [done |].
  cbn [step_from] in Hx. destruct skip as [|k].
  - apply elem_of_cons in Hx as [-> | Hx]; [by left |]. right. by eapply IH.
  - right. by eapply IH.
Qed.

Lemma elem_of_map {A B} (f : A -> B) (l : list A) y :
  y ∈ map f l <-> exists x, y = f x /\ x ∈ l.
Proof.
  rewrite list_elem_of_In, in_map_iff. split.
  - intros (x & <- & Hx). exists x. by rewrite list_elem_of_In.
  - intros (x & -> & Hx). exists x. by rewrite <- list_elem_of_In.
Qed.

Lemma take_subseteq {A} k (l : list A) : take k l ⊆ l.
Proof.
  intros x Hx. apply elem_of_take in Hx as (i & Hi & _).
  by eapply list_elem_of_lookup_2.
Qed.

(** ** Label slices of observation frames *)

Section FrameLemmas.
Context `{Epftoolbox}.

Lemma filter_above (d : DataFrame) b :
  Forall (fun y => (b < y)%Z) (map ts d) ->
  filter (fun r => (ts r <= b)%Z) d = [].
Proof.
  induction d as [|r d IH]; intros Hall; [done |].
  cbn [map] in Hall. apply Forall_cons in Hall as [Hr Hall].
  rewrite filter_cons. destruct (decide (ts r <= b)%Z); [lia | by apply IH].
Qed.

Lemma Forall_above x b (idx : list Z) :
  (b < x)%Z -> Forall (fun y => (x <= y)%Z) idx -> Forall (fun y => (b < y)%Z) idx.
Proof.
  intros Hb Hall. eapply Forall_impl; [exact Hall |].
  intros y Hy. cbn in Hy. lia.
Qed.

Lemma take_searchsorted (d : DataFrame) b :
  is_monotonic_increasing (map ts d) = true ->
  take (searchsorted (map ts d) b Right) d = filter (fun r => (ts r <= b)%Z) d.
Proof.
  induction d as [|r d IH]; intros Hm; [done |].
  cbn [map] in Hm. destruct (mono_cons _ _ Hm) as [Hrest Hall].
  cbn [map searchsorted]. rewrite filter_cons.
  destruct (Z.leb_spec (ts r) b) as [Hle | Hgt].
  - destruct (decide (ts r <= b)%Z); [| lia]. cbn [take]. by rewrite IH.
  - destruct (decide (ts r <= b)%Z); [lia |]. cbn [take].
    symmetry. apply filter_above. by eapply Forall_above.
Qed.

Lemma loc_upto_sorted (d : DataFrame) b :
  is_monotonic_increasing (map ts d) = true ->
  loc_upto d b = Ok (filter (fun r => (ts r <= b)%Z) d).
Proof.
  intros Hm. unfold loc_upto. rewrite slice_locs_upto_sorted by done.
  unfold islice. rewrite Nat.sub_0_r, drop_0. by rewrite take_searchsorted.
Qed.

Lemma map_mask_above (d : DataFrame) a b v :
  Forall (fun y => (b < y)%Z) (map ts d) ->
  map (fun r => if (a <=? ts r)%Z && (ts r <=? b)%Z then set_price v r else r) d = d.
Proof.
  induction d as [|r d IH]; intros Hall; [done |].
  cbn [map] in *. apply Forall_cons in Hall as [Hr Hall].
  rewrite IH by done. rewrite (proj2 (Z.leb_gt (ts r) b)) by lia.
  by rewrite andb_false_r.
Qed.

Lemma set_price_slice_sorted (d : DataFrame) a b v :
  is_monotonic_increasing (map ts d) = true ->
  set_price_slice (searchsorted (map ts d) a Left) (searchsorted (map ts d) b Right) v d
  = map (fun r => if (a <=? ts r)%Z && (ts r <=? b)%Z then set_price v r else r) d.
Proof.
  induction d as [|r d IH]; intros Hm; [done |].
  cbn [map] in Hm. destruct (mono_cons _ _ Hm) as [Hrest Hall].
  specialize (IH Hrest).
  cbn [map searchsorted set_price_slice].
  destruct (Z.ltb_spec (ts r) a) as [Hlt | Hge].
  - rewrite (proj2 (Z.leb_gt a (ts r))) by lia. cbn [andb]. f_equal.
    destruct (Z.leb_spec (ts r) b) as [Hle | Hgt]; [exact IH |].
    cbn [pred]. rewrite <- IH. f_equal.
    symmetry. apply searchsorted_front. by eapply Forall_above.
  - rewrite (proj2 (Z.leb_le a (ts r))) by lia. cbn [andb].
    destruct (Z.leb_spec (ts r) b) as [Hle | Hgt].
    + f_equal. rewrite <- IH. f_equal.
      symmetry. apply searchsorted_front.
      eapply Forall_impl; [exact Hall |]. intros y Hy. cbn in Hy. lia.
    + f_equal. symmetry. apply map_mask_above. by eapply Forall_above.
Qed.

Lemma loc_assign_price_sorted (d : DataFrame) a b v :
  is_monotonic_increasing (map ts d) = true ->
  loc_assign_price d a b v
  = Ok (map (fun r => if (a <=? ts r)%Z && (ts r <=? b)%Z then set_price v r else r) d).
Proof.
  intros Hm. unfold loc_assign_price. rewrite slice_locs_sorted by done.
  by rewrite set_price_slice_sorted.
Qed.

(** On a chronological split the frame built by lines 96 and 97 is the
    Available Data Window of the specification. *)
Lemma window_value_sorted (train test : DataFrame) date :
  is_monotonic_increasing (map ts (train ++ test)) = true ->
  window_value train test date = Ok (available_window train test date).
Proof.
  intros Hm. unfold window_value.
  assert (Htest : is_monotonic_increasing (map ts test) = true).
  { rewrite map_app in Hm. clear -Hm.
    induction (map ts train) as [|x l IH]; [done |].
    apply IH. by destruct (mono_cons _ _ Hm). }
  rewrite loc_upto_sorted by done. cbn [mbind result_bind].
  unfold pd_concat. rewrite loc_assign_price_sorted; [done |].
  rewrite <- take_searchsorted by done.
  rewrite <- (take_app_add' train test (length train)) by done.
  rewrite <- firstn_map. by apply mono_take.
Qed.

End FrameLemmas.

(** ** Label lookup on indexes without repeated labels *)

Lemma positions_absent i label idx :
  label ∉ idx -> positions_from i label idx = [].
Proof.
  intros Hnot. apply positions_none. apply Forall_forall.
  intros y Hy ->. done.
Qed.

Lemma positions_unique i label idx k :
  NoDup idx -> idx !! k = Some label ->
  positions_from i label idx = [i + k].
Proof.
  revert i k. induction idx as [|y idx IH]; intros i k Hnd Hk; [done |].
  apply NoDup_cons in Hnd as [Hy Hnd]. cbn [positions_from].
  destruct k as [|k].
  - cbn in Hk. injection Hk as ->. rewrite Z.eqb_refl.
    rewrite positions_absent by done. by rewrite Nat.add_0_r.
  - cbn in Hk. destruct (Z.eqb_spec y label) as [-> | Hne].
    + exfalso. apply Hy. by eapply list_elem_of_lookup_2.
    + rewrite (IH (S i) k) by done. f_equal. lia.
Qed.

Lemma get_loc_unique idx label k :
  NoDup idx -> idx !! k = Some label -> get_loc idx label = [k].
Proof. intros. unfold get_loc. by erewrite positions_unique. Qed.

Lemma positions_present i label idx :
  label ∈ idx -> positions_from i label idx <> [].
Proof.
  revert i. induction idx as [|y idx IH]; intros i Hin.
  - by apply elem_of_nil in Hin.
  - cbn [positions_from]. destruct (Z.eqb_spec y label) as [-> | Hne]; [done |].
    apply elem_of_cons in Hin as [-> | Hin]; [done | by apply IH].
Qed.

Lemma slice_locs_upto_unique idx label k :
  NoDup idx -> idx !! k = Some label ->
  slice_locs idx None (Some label) = Ok (0, S k).
Proof.
  intros Hnd Hk. unfold slice_locs, get_slice_bound.
  rewrite (get_loc_unique idx label k) by done.
  by rewrite bool_decide_eq_true_2.
Qed.

(** ** The heap *)

Section Heap.
Context `{Epftoolbox}.

Lemma heap_new (h : list object) x : (h ++ [x]) !! length h = Some x.
Proof. by apply list_lookup_middle. Qed.

Lemma heap_old (h : list object) x r o :
  h !! r = Some o -> (h ++ [x]) !! r = Some o.
Proof. apply lookup_app_l_Some. Qed.

Lemma heap_set_new (h : list object) x y : <[length h := y]> (h ++ [x]) = h ++ [y].
Proof. rewrite insert_app_r_alt by lia. by rewrite Nat.sub_diag. Qed.

Lemma heap_other (h : list object) r r' o o' :
  h !! r = Some o -> r' <> r -> <[r' := o']> h !! r = Some o.
Proof. intros Hr Hne. by rewrite list_lookup_insert_ne. Qed.

Lemma heap_same (h : list object) r o o' :
  h !! r = Some o -> <[r := o']> h !! r = Some o'.
Proof. intros Hr%lookup_lt_Some. by apply list_lookup_insert_eq. Qed.

End Heap.

Create HintDb heap.
#[global] Hint Resolve heap_new heap_old heap_other heap_same : heap.

(** ** Row assignment *)

Section Rows.
Context `{Numpy}.

Lemma length_set_rows ps (row : list float) rows :
  length (set_rows ps row rows) = length rows.
Proof.
  induction ps as [|p ps IH]; [done |].
  cbn [set_rows foldr]. rewrite length_insert. exact IH.
Qed.

Lemma broadcast_row_ok n (v row : list float) :
  broadcast_row n v = Ok row -> length v = n \/ length v = 1.
Proof.
  unfold broadcast_row. destruct (Nat.eqb_spec (length v) n); [by left |].
  destruct v as [|x [|y v]]; [done | by right | done].
Qed.

Lemma broadcast_row_wrong (v : list float) :
  length v <> 24 -> length v <> 1 ->
  broadcast_row 24 v = Raise (ValueError "setitem").
Proof.
  intros H24 H1. unfold broadcast_row.
  destruct (Nat.eqb_spec (length v) 24); [done |].
  by destruct v as [|x [|y v]].
Qed.

(** A count that a 24-column row cannot take is refused, whether or not
    the label is in the index. *)
Lemma loc_assign_row_wrong (f : DayFrame) date (v : list float) :
  length (d_columns f) = 24 -> length v <> 24 -> length v <> 1 ->
  loc_assign_row f date v = Raise (ValueError "setitem").
Proof.
  intros Hc H24 H1. unfold loc_assign_row. rewrite Hc.
  destruct (get_loc (d_index f) date).
  - by rewrite (proj2 (Nat.eqb_neq _ _) H24).
  - by rewrite broadcast_row_wrong.
Qed.

Lemma loc_assign_row_ok (f f' : DayFrame) date (v : list float) ps :
  length (d_columns f) = 24 ->
  loc_assign_row f date v = Ok (f', ps) -> length v = 24 \/ length v = 1.
Proof.
  intros Hc. unfold loc_assign_row. rewrite Hc.
  destruct (get_loc (d_index f) date).
  - destruct (Nat.eqb_spec (length v) 24); [by left | done].
  - destruct (broadcast_row 24 v) eqn:Hb; [| done].
    intros _. by eapply broadcast_row_ok.
Qed.

(** Assignment at a label of the index keeps the shape of the frame. *)
Lemma loc_assign_row_present (f f' : DayFrame) date (v : list float) ps :
  date ∈ d_index f ->
  loc_assign_row f date v = Ok (f', ps) ->
  d_index f' = d_index f /\ d_columns f' = d_columns f /\
  length (d_values f') = length (d_values f) /\
  ps = get_loc (d_index f) date /\
  exists row, d_values f' = set_rows ps row (d_values f).
Proof.
  intros Hin. unfold loc_assign_row.
  pose proof (positions_present 0 date (d_index f) Hin) as Hne.
  fold (get_loc (d_index f) date) in Hne.
  destruct (get_loc (d_index f) date) as [|p ps']; [done |].
  destruct (broadcast_row _ v) as [row|]; [| done].
  cbn [mbind result_bind]. intros [= <- <-]. cbn [d_index d_columns d_values].
  rewrite length_insert, length_set_rows.
  repeat split. by exists row.
Qed.

End Rows.

(** ** The monad *)

Section MonadLemmas.
Context `{Epftoolbox}.

Lemma for_each_app {A} (l1 l2 : list A) (body : A -> M unit) w :
  for_each (l1 ++ l2) body w
  = match for_each l1 body w with
    | (Ok _, w1) => for_each l2 body w1
    | (Raise e, w1) => (Raise e, w1)
    end.
Proof.
  revert w. induction l1 as [|x l1 IH]; intros w; [done |].
  cbn [app for_each]. unfold mbind, M_bind.
  destruct (body x w) as [[[]|e] w1]; [apply IH | done].
Qed.

(** A property kept by every iteration is kept by the loop, whether the
    loop ends normally or on an exception. *)
Lemma for_each_inv {A} (I : world -> Prop) (l : list A) (body : A -> M unit) :
  (forall x w, x ∈ l -> I w -> I (body x w).2) ->
  forall w, I w -> I (for_each l body w).2.
Proof.
  induction l as [|x l IH]; intros Hbody w Hw; [done |].
  cbn [for_each]. unfold mbind, M_bind.
  pose proof (Hbody x w ltac:(left) Hw) as Hx.
  destruct (body x w) as [[[]|e] w1]; cbn [snd] in *; [| done].
  apply IH; [| done]. intros y w2 Hy. apply Hbody. by right.
Qed.

Lemma log_function_info_eq {A} name (func : M A) w :
  log_function_info name func w
  = match func (add_log (Info (FuncStart name)) w) with
    | (Ok a, w') => (Ok a, add_log (Info (FuncEnd name)) w')
    | (Raise e, w') => (Raise e, w')
    end.
Proof. reflexivity. Qed.

End MonadLemmas.

(** ** One day *)

Section Day.
Context `{Epftoolbox}.

Ltac wsimpl :=
  cbn [heap calls writes log stdout files
       add_log add_stdout add_call add_writes set_heap fst snd].

Ltac mred := cbv beta iota; wsimpl.

(** [process_date] on a heap that holds the five objects computes
    [day_outcome]. *)
Lemma process_date_eq args tr te fc rv mo date w train test f r m :
  heap w !! tr = Some (PyFrame train) ->
  heap w !! te = Some (PyFrame test) ->
  heap w !! fc = Some (PyDays f) ->
  heap w !! rv = Some (PyDays r) ->
  heap w !! mo = Some (PyModel m) ->
  fc <> rv ->
  process_date args tr te fc rv mo date w
  = day_outcome args fc mo train test f r m date w.
Proof.
  intros Htr Hte Hfc Hrv Hmo Hne.
  assert (Hfm : mo <> fc) by (intros ->; congruence).
  assert (Hrm : mo <> rv) by (intros ->; congruence).
  pose proof (lookup_lt_Some _ _ _ Hfc) as Hlt.
  unfold process_date, day_outcome, log_function_info, loc_set_price,
    call_model, loc_set_row.
  unfold mbind, mret, M_bind, M_ret, logging_info, print, lift, alloc,
    store, read_frame, read_days, read_model, note_call, note_writes.
  mred. rewrite Htr. mred. rewrite Hte. mred.
  destruct (loc_upto test (date + 23)) as [upto|e]; [| reflexivity].
  mred. rewrite heap_new. mred.
  destruct (loc_assign_price _ date (date + 23) NaN) as [win|e]; [| reflexivity].
  mred. rewrite heap_set_new, (heap_old _ _ _ _ Hmo). mred.
  rewrite heap_new. mred.
  destruct (recalibrate_and_forecast_next_day m win date _) as [m' out].
  mred. destruct out as [yp|e]; [| reflexivity].
  mred. rewrite (list_lookup_insert_ne _ mo fc) by exact Hfm.
  rewrite (heap_old _ _ _ _ Hfc). mred.
  destruct (loc_assign_row f date yp) as [[f' ps]|e]; [| reflexivity].
  mred. unfold progress_value, mbind, result_bind.
  rewrite list_lookup_insert_eq
    by (rewrite length_insert, length_app; lia).
  mred. destruct (loc_upto_values f' date) as [fv|e] eqn:Efv; [| reflexivity].
  mred. rewrite (list_lookup_insert_ne _ fc rv) by exact Hne.
  rewrite (list_lookup_insert_ne _ mo rv) by exact Hrm.
  rewrite (heap_old _ _ _ _ Hrv). mred.
  destruct (loc_upto_values r date) as [rvv|e] eqn:Erv; [| reflexivity].
  mred. destruct (MAE _ _) as [mv|e]; [| reflexivity].
  mred. rewrite list_lookup_insert_eq
    by (rewrite length_insert, length_app; lia).
  mred. rewrite Efv. mred.
  rewrite (list_lookup_insert_ne _ fc rv) by exact Hne.
  rewrite (list_lookup_insert_ne _ mo rv) by exact Hrm.
  rewrite (heap_old _ _ _ _ Hrv). mred. rewrite Erv. mred.
  destruct (sMAPE _ _) as [sv|e]; reflexivity.
Qed.


#[local] Hint Extern 2 (_ <> _) => (let E := fresh in intros E; congruence) : heap.

(** The outcomes of a day, in the order in which [process_date] can stop:
    no window, the model raised, the row was refused, the metrics raised,
    or the day completed. *)
Ltac day_cases :=
  unfold day_outcome;
  let upto := fresh "upto" in let win := fresh "win" in
  let m' := fresh "m'" in let yp := fresh "yp" in
  let f' := fresh "f'" in let ps := fresh "ps" in let msg := fresh "msg" in
  let Hup := fresh "Hup" in let Hwin := fresh "Hwin" in
  let Hcall := fresh "Hcall" in let Hrow := fresh "Hrow" in
  let Hmsg := fresh "Hmsg" in
  destruct (loc_upto _ _) as [upto|] eqn:Hup;
  [ destruct (loc_assign_price _ _ _ _) as [win|] eqn:Hwin;
    [ destruct (recalibrate_and_forecast_next_day _ _ _ _) as [m' [yp|]] eqn:Hcall;
      [ destruct (loc_assign_row _ _ _) as [[f' ps]|] eqn:Hrow;
        [ destruct (progress_value _ _ _) as [msg|] eqn:Hmsg | ]
      | ]
    | ]
  | ];
  wsimpl.

Lemma process_date_inv args l train test rv date w :
  day_inv l train test rv w -> date ∈ forecast_dates l ->
  day_inv l train test rv
    (process_date args (df_train l) (df_test l) (forecast l) (real_values l)
       (model l) date w).2.
Proof.
  intros [Htr Hte Hrv Hri (f & Hfc & Hidx & Hcol & Hlen) [m Hmo] Hne] Hdate.
  erewrite process_date_eq; [| eassumption ..].
  day_cases; (constructor; wsimpl; [eauto 6 with heap ..]).
  1,2: apply loc_assign_row_present in Hrow as (Hi & Hc & Hl & _);
    [| by rewrite Hidx]; exists f'; rewrite Hi, Hc, Hl; eauto 7 with heap.
  all: exists f; eauto 7 with heap.
Qed.


(** The model is called at most once in a day, on the frame of lines 96
    and 97; a completed day had an answer the row could take, and an
    answer of a wrong count stops the day before any row is assigned. *)
Lemma process_date_calls args l train test rv date w :
  day_inv l train test rv w ->
  let out := process_date args (df_train l) (df_test l) (forecast l)
               (real_values l) (model l) date w in
  (calls (snd out) = calls w /\
   exists e, window_value train test date = Raise e /\ fst out = Raise e) \/
  (exists c, calls (snd out) = calls w ++ [c] /\
     c_next_day_date c = date /\
     c_calibration_window c = calibration_window args /\
     window_value train test date = Ok (c_df c) /\
     (fst out = Ok () -> ~ wrong_count c) /\
     (wrong_count c ->
        fst out = Raise (ValueError "setitem") /\
        heap (snd out) !! forecast l = heap w !! forecast l /\
        writes (snd out) = writes w)).
Proof.
  intros [Htr Hte Hrv Hri (f & Hfc & Hidx & Hcol & Hlen) [m Hmo] Hne].
  erewrite process_date_eq; [| eassumption ..].
  unfold window_value. cbv zeta.
  day_cases.
  all: try (left; split; [reflexivity |]; eexists; split; [| reflexivity];
            cbn [mbind result_bind]; by rewrite ?Hwin).
  all: right; eexists; split; [reflexivity |]; cbn [mbind result_bind];
    cbn [c_df c_next_day_date c_calibration_window c_result];
    (split; [reflexivity |]); (split; [reflexivity |]); (split; [exact Hwin |]).
  all: split; [intros Hok | intros (yp' & Hres & H24 & H1)]; try done.
  all: cbn [c_result] in *.
  - intros (yp' & [= <-] & H24 & H1).
    destruct (loc_assign_row_ok _ _ _ _ _ Hcol Hrow); done.
  - injection Hres as <-. by rewrite loc_assign_row_wrong in Hrow.
  - injection Hres as <-. by rewrite loc_assign_row_wrong in Hrow.
  - injection Hres as <-. rewrite loc_assign_row_wrong in Hrow by done.
    injection Hrow as <-. split; [done |]. split; [| done].
    rewrite list_lookup_insert_ne by (intros E; congruence).
    by rewrite (heap_old _ _ _ _ Hfc).
Qed.


(** A day either assigns nothing and stops, or assigns exactly the row of
    its own date. *)
Lemma process_date_writes args l train test rv date p w :
  day_inv l train test rv w ->
  NoDup (forecast_dates l) -> forecast_dates l !! p = Some date ->
  let out := process_date args (df_train l) (df_test l) (forecast l)
               (real_values l) (model l) date w in
  (writes (snd out) = writes w /\
   heap (snd out) !! forecast l = heap w !! forecast l /\
   fst out <> Ok ()) \/
  (exists f f' row,
     heap w !! forecast l = Some (PyDays f) /\
     heap (snd out) !! forecast l = Some (PyDays f') /\
     d_values f' = <[p := row]> (d_values f) /\
     writes (snd out) = writes w ++ [(forecast l, p)]).
Proof.
  intros [Htr Hte Hrv Hri (f & Hfc & Hidx & Hcol & Hlen) [m Hmo] Hne] Hnd Hp.
  erewrite process_date_eq; [| eassumption ..].
  assert (Hin : date ∈ d_index f).
  { rewrite Hidx. by eapply list_elem_of_lookup_2. }
  assert (Hmf : model l <> forecast l) by (intros E; congruence).
  day_cases.
  1,2: right; exists f, f';
    apply loc_assign_row_present in Hrow as (_ & _ & _ & -> & row & Hv); [| done];
    rewrite Hidx, (get_loc_unique _ _ _ Hnd Hp) in *;
    exists row; split; [done |]; split; [eauto with heap |]; by split.
  all: left; split; [done |]; split; [| done].
  1,2: rewrite list_lookup_insert_ne by done.
  1,2,3: by rewrite (heap_old _ _ _ _ Hfc).
  done.
Qed.

(** A completed day printed and logged the progress line computed from
    the forecast frame as the day left it. *)
Lemma process_date_ok args l train test rv date w w' :
  day_inv l train test rv w ->
  process_date args (df_train l) (df_test l) (forecast l) (real_values l)
    (model l) date w = (Ok (), w') ->
  exists f' msg,
    heap w' !! forecast l = Some (PyDays f') /\
    progress_value f' rv date = Ok msg /\
    stdout w' = stdout w ++ [msg] /\
    log w' = log w ++ [Info (FuncStart "process_date"); Info (ProcessingDate date);
                       Info msg; Info (FuncEnd "process_date")].
Proof.
  intros [Htr Hte Hrv Hri (f & Hfc & Hidx & Hcol & Hlen) [m Hmo] Hne].
  erewrite process_date_eq; [| eassumption ..].
  day_cases; intros [= <-]. wsimpl.
  exists f', msg. split; [eauto with heap |]. split; [done |]. split; [done |].
  by rewrite <- !app_assoc.
Qed.

(** A day touches no object of the heap but the forecast frame and the
    model, and writes no file. *)
Lemma process_date_frame args l train test rv date w :
  day_inv l train test rv w ->
  let out := process_date args (df_train l) (df_test l) (forecast l)
               (real_values l) (model l) date w in
  files (snd out) = files w /\
  forall r o, heap w !! r = Some o -> r <> forecast l -> r <> model l ->
    heap (snd out) !! r = Some o.
Proof.
  intros [Htr Hte Hrv Hri (f & Hfc & Hidx & Hcol & Hlen) [m Hmo] Hne].
  erewrite process_date_eq; [| eassumption ..].
  day_cases; (split; [done |]); intros r o Hr Hrf Hrm; eauto 6 with heap.
Qed.


(** On frames that share an index without repetition, the progress line
    of the day at position [k] is computed from the first [k+1] rows of
    the two frames. *)
Lemma progress_value_prefix (f rv : DayFrame) date k msg :
  NoDup (d_index f) -> d_index rv = d_index f ->
  d_index f !! k = Some date ->
  progress_value f rv date = Ok msg ->
  exists mae smape,
    MAE (squeeze (Arr2 (take (S k) (d_values f)))) (Arr2 (take (S k) (d_values rv)))
      = Ok mae /\
    sMAPE (squeeze (Arr2 (take (S k) (d_values f)))) (Arr2 (take (S k) (d_values rv)))
      = Ok smape /\
    msg = Progress date (float_mul (np_mean smape) (float_of_int 100)) (np_mean mae).
Proof.
  intros Hnd Hri Hk. unfold progress_value, loc_upto_values.
  rewrite Hri, (slice_locs_upto_unique _ _ _ Hnd Hk).
  unfold islice. rewrite Nat.sub_0_r, !drop_0. cbn [mbind result_bind].
  destruct (MAE _ _) as [mae|]; [| done].
  destruct (sMAPE _ _) as [smape|]; [| done].
  intros [= <-]. by exists mae, smape.
Qed.

End Day.

(** ** The run *)

Section Run.
Context `{Epftoolbox}.

Ltac wsimpl :=
  cbn [heap calls writes log stdout files
       add_log add_stdout add_call add_writes set_heap fst snd].

Ltac srun :=
  repeat progress
    (cbv beta iota;
     cbn [heap calls writes log stdout files add_log add_stdout add_call
          add_writes set_heap fst snd app length lookup list_lookup]).

Ltac fail_case := repeat (split; [done |]); eauto 10.

(** What the lines before the loop leave behind. *)
Lemma main_setup_cases args :
  match main_setup args entry with
  | (Ok l, w0) =>
      exists train test rv,
        read_args args = Ok (train, test) /\
        reshape_24 (map Price test) = Ok (d_values rv) /\
        d_index rv = every_24th (map ts test) /\
        df_train l = 0 /\ df_test l = 1 /\ forecast l = 2 /\
        real_values l = 3 /\ model l = 4 /\
        forecast_dates l = every_24th (map ts test) /\
        heap w0 = [PyFrame train; PyFrame test;
                   PyDays (empty_days (every_24th (map ts test)));
                   PyDays rv; PyModel (LEAR (calibration_window args))] /\
        calls w0 = [] /\ writes w0 = [] /\ stdout w0 = [] /\ files w0 = [] /\
        log w0 = setup_log args
  | (Raise e, w0) =>
      calls w0 = [] /\ writes w0 = [] /\ stdout w0 = [] /\ files w0 = [] /\
      (read_args args = Raise e \/
       exists train test, read_args args = Ok (train, test) /\
         log w0 = setup_log args /\
         (reshape_24 (map Price test) = Raise e \/
          exists values, reshape_24 (map Price test) = Ok values /\
            days_of_values values (every_24th (map ts test)) hour_columns = Raise e))
  end.
Proof.
  unfold main_setup, setup_logging, log_system_info, load_data,
    create_forecast_file_path, create_forecast_file_name, log_function_info,
    entry, init_world.
  cbn [for_each].
  unfold mbind, mret, M_bind, M_ret, logging_info, print, lift, alloc,
    store, read_frame, read_days, read_model.
  srun.
  destruct (read_args args) as [[train test]|e]; srun; [| fail_case].
  destruct (reshape_24 (map Price test)) as [values|e] eqn:Hre; srun;
    [| fail_case].
  cbn [empty_days d_index d_columns].
  destruct (days_of_values values _ _) as [rv|e] eqn:Hrv; srun; [| fail_case].
  exists train, test, rv.
  unfold days_of_values in Hrv.
  destruct (length values =? _); [| done]. injection Hrv as <-.
  cbn [d_values d_index df_train df_test forecast real_values model forecast_dates].
  repeat (split; [done |]). done.
Qed.


Lemma lookup_map_const {A B} (c : B) (l : list A) i :
  i < length l -> map (fun _ => c) l !! i = Some c.
Proof.
  revert i. induction l as [|x l IH]; intros i Hi; cbn in *; [lia |].
  destruct i as [|i]; [done |]. apply IH. lia.
Qed.

(** When the lines before the loop succeed, the loop starts in a state
    where the local variables name the objects it expects, no model call
    and no row assignment has been made, and no file written. *)
Lemma main_setup_ok args l :
  main_locals args = Ok l ->
  exists train test rv,
    read_args args = Ok (train, test) /\
    reshape_24 (map Price test) = Ok (d_values rv) /\
    forecast_dates l = every_24th (map ts test) /\
    day_inv l train test rv (main_start args) /\
    unwritten_from l 0 (main_start args) /\
    calls (main_start args) = [] /\ writes (main_start args) = [] /\
    stdout (main_start args) = [] /\ files (main_start args) = [] /\
    log (main_start args) = setup_log args.
Proof.
  unfold main_locals, main_start. pose proof (main_setup_cases args) as Hs.
  destruct (main_setup args entry) as [[l'|e] w0]; [| done].
  cbn [fst snd]. intros [= ->].
  destruct Hs as (train & test & rv & Hread & Hre & Hri & Htr & Hte & Hfc & Hrv
                  & Hmo & Hdates & Hheap & Hcalls & Hwr & Hout & Hfiles & Hlog).
  exists train, test, rv. repeat (split; [done |]).
  split; [| split; [| done]].
  - constructor; rewrite ?Hheap, ?Htr, ?Hte, ?Hfc, ?Hrv, ?Hmo; try done.
    + congruence.
    + eexists. split; [reflexivity |].
      cbn [empty_days d_index d_columns d_values].
      rewrite length_map. by rewrite Hdates.
    + by eexists.
  - eexists. rewrite Hheap, Hfc. split; [reflexivity |].
    intros i _ Hi. cbn [empty_days d_values]. apply lookup_map_const.
    by rewrite <- Hdates.
Qed.

Lemma main_body_eq args :
  main_body args entry
  = match main_setup args entry with
    | (Ok l, w0) =>
        match main_loop args l (forecast_dates l) w0 with
        | (Ok _, w1) => (Ok (), add_log (Info Completed) w1)
        | (Raise e, w1) => (Raise e, w1)
        end
    | (Raise e, w0) => (Raise e, w0)
    end.
Proof.
  unfold main_body, mbind, M_bind, logging_info.
  destruct (main_setup args entry) as [[l|e] w0]; [| done].
  by destruct (main_loop args l (forecast_dates l) w0) as [[[]|e] w1].
Qed.

Lemma main_upto_eq args k :
  main_upto args k entry
  = match main_setup args entry with
    | (Ok l, w0) => main_loop args l (take k (forecast_dates l)) w0
    | (Raise e, w0) => (Raise e, w0)
    end.
Proof.
  unfold main_upto, mbind, M_bind.
  by destruct (main_setup args entry) as [[l|e] w0].
Qed.

(** [main] returns normally whatever its [try] block did; an exception
    of the block is printed and logged by [handle_error]. *)
Lemma main_eq args :
  main args init_world
  = match main_body args entry with
    | (Ok _, w1) => (Ok (), add_log (Info (FuncEnd "main")) w1)
    | (Raise e, w1) =>
        (Ok (),
         add_log (Info (FuncEnd "main"))
           (add_log (Info (FuncEnd "handle_error"))
              (add_log (Error (Traceback e))
                 (add_log (Error (ErrorOccurred e))
                    (add_stdout (ErrorOccurred e)
                       (add_log (Info (FuncStart "handle_error")) w1))))))
    end.
Proof.
  unfold main, try_except, handle_error, log_function_info.
  unfold mbind, mret, M_bind, M_ret, logging_info, logging_error, print.
  fold entry. by destruct (main_body args entry) as [[[]|e] w1].
Qed.

(** The loop keeps the invariant of its days. *)
Lemma main_loop_inv args l train test rv dates w :
  dates ⊆ forecast_dates l ->
  day_inv l train test rv w ->
  day_inv l train test rv (main_loop args l dates w).2.
Proof.
  intros Hsub. unfold main_loop. apply for_each_inv.
  intros d w' Hd Hw'. apply process_date_inv; [done | by apply Hsub].
Qed.


(** What [main] leaves behind, the log and the console apart, is what its
    [try] block left behind. *)
Lemma main_final args :
  let w := (main args init_world).2 in
  let wb := (main_body args entry).2 in
  heap w = heap wb /\ calls w = calls wb /\ writes w = writes wb /\
  files w = files wb.
Proof.
  rewrite main_eq. by destruct (main_body args entry) as [[[]|e] w1].
Qed.

Lemma main_body_ok args l :
  main_locals args = Ok l ->
  let wb := (main_body args entry).2 in
  let out := main_loop args l (forecast_dates l) (main_start args) in
  (main_body args entry).1 = out.1 /\
  heap wb = heap out.2 /\ calls wb = calls out.2 /\ writes wb = writes out.2 /\
  files wb = files out.2 /\ stdout wb = stdout out.2.
Proof.
  unfold main_locals, main_start. rewrite main_body_eq.
  destruct (main_setup args entry) as [[l'|e] w0]; [| done].
  cbn [fst snd]. intros [= ->].
  by destruct (main_loop args l (forecast_dates l) w0) as [[[]|e] w1].
Qed.

Lemma main_body_fail args e :
  main_locals args = Raise e ->
  main_body args entry = (Raise e, main_start args).
Proof.
  unfold main_locals, main_start. rewrite main_body_eq.
  destruct (main_setup args entry) as [[l'|e'] w0]; [done |].
  cbn [fst snd]. by intros [= ->].
Qed.

Lemma main_upto_ok args l k :
  main_locals args = Ok l ->
  main_upto args k entry
  = main_loop args l (take k (forecast_dates l)) (main_start args).
Proof.
  unfold main_locals, main_start. rewrite main_upto_eq.
  destruct (main_setup args entry) as [[l'|e] w0]; [| done].
  cbn [fst snd]. by intros [= ->].
Qed.

(** Every model call of the loop is made for one of the dates of the
    loop, with the calibration window of the arguments, on the frame of
    lines 96 and 97. *)
Lemma main_loop_calls args l train test rv dates w :
  let P := fun c =>
    c_next_day_date c ∈ forecast_dates l /\
    c_calibration_window c = calibration_window args /\
    window_value train test (c_next_day_date c) = Ok (c_df c) in
  dates ⊆ forecast_dates l ->
  day_inv l train test rv w ->
  Forall P (calls w) ->
  Forall P (calls (main_loop args l dates w).2).
Proof.
  intros P Hsub Hinv Hcalls.
  cut (day_inv l train test rv (main_loop args l dates w).2 /\
       Forall P (calls (main_loop args l dates w).2)); [by intros [] |].
  unfold main_loop.
  apply (for_each_inv (fun w => day_inv l train test rv w /\ Forall P (calls w)));
    [| done].
  intros d w' Hd [Hw' Hc'].
  split; [apply process_date_inv; [done | by apply Hsub] |].
  destruct (process_date_calls args l train test rv d w' Hw')
    as [[-> _] | (c & -> & Hdate & Hcw & Hwin & _)]; [done |].
  apply Forall_app. split; [done |]. apply Forall_singleton.
  unfold P. rewrite Hdate. split; [by apply Hsub | done].
Qed.

Lemma main_calls args train test c :
  read_args args = Ok (train, test) ->
  c ∈ calls (main args init_world).2 ->
  c_next_day_date c ∈ every_24th (map ts test) /\
  c_calibration_window c = calibration_window args /\
  window_value train test (c_next_day_date c) = Ok (c_df c).
Proof.
  intros Hread. destruct (main_final args) as (_ & -> & _).
  destruct (main_locals args) as [l|e] eqn:Hl.
  - destruct (main_body_ok args l Hl) as (_ & _ & -> & _).
    destruct (main_setup_ok args l Hl)
      as (train' & test' & rv & Hread' & _ & Hdates & Hinv & _ & Hcalls & _).
    rewrite Hread in Hread'. injection Hread' as <- <-.
    pose proof (main_loop_calls args l train test rv (forecast_dates l)
                  (main_start args) ltac:(done) Hinv) as Hall.
    rewrite Hcalls in Hall. specialize (Hall ltac:(constructor)).
    rewrite Forall_forall in Hall. intros Hc. rewrite <- Hdates.
    by apply Hall.
  - rewrite (main_body_fail args e Hl). cbn [snd].
    pose proof (main_setup_cases args) as Hs. unfold main_start.
    unfold main_locals in Hl.
    destruct (main_setup args entry) as [[l'|e'] w0]; [done |].
    destruct Hs as (Hc & _). cbn [snd]. rewrite Hc. by intros ?%elem_of_nil.
Qed.


(** The loop writes no file and leaves alone every object but the
    forecast frame and the model. *)
Lemma main_loop_frame args l train test rv dates w :
  dates ⊆ forecast_dates l ->
  day_inv l train test rv w ->
  let w' := (main_loop args l dates w).2 in
  files w' = files w /\
  forall r o, heap w !! r = Some o -> r <> forecast l -> r <> model l ->
    heap w' !! r = Some o.
Proof.
  intros Hsub Hinv.
  pose (I := fun w' : world =>
    day_inv l train test rv w' /\ files w' = files w /\
    forall r o, heap w !! r = Some o -> r <> forecast l -> r <> model l ->
      heap w' !! r = Some o).
  cut (I (main_loop args l dates w).2); [by intros (_ & ? & ?) |].
  unfold main_loop. apply (for_each_inv I); [| by split].
  intros d w1 Hd (Hw1 & Hf1 & Hh1).
  destruct (process_date_frame args l train test rv d w1 Hw1) as [Hf2 Hh2].
  split; [apply process_date_inv; [done | by apply Hsub] |].
  split; [congruence |]. intros r o Hr Hrf Hrm. apply Hh2; auto.
Qed.

(** The model calls made before the loop are the first calls after it. *)
Lemma main_loop_calls_prefix args l train test rv dates w :
  dates ⊆ forecast_dates l ->
  day_inv l train test rv w ->
  calls w `prefix_of` calls (main_loop args l dates w).2.
Proof.
  intros Hsub Hinv.
  pose (I := fun w' : world =>
    day_inv l train test rv w' /\ calls w `prefix_of` calls w').
  cut (I (main_loop args l dates w).2); [by intros [] |].
  unfold main_loop. apply (for_each_inv I); [| by split].
  intros d w1 Hd (Hw1 & Hp1).
  split; [apply process_date_inv; [done | by apply Hsub] |].
  destruct (process_date_calls args l train test rv d w1 Hw1)
    as [[-> _] | (c & -> & _)]; [done |].
  by apply prefix_app_r.
Qed.


Lemma main_loop_cons args l d dates w :
  main_loop args l (d :: dates) w
  = match process_date args (df_train l) (df_test l) (forecast l)
            (real_values l) (model l) d w with
    | (Ok _, w1) => main_loop args l dates w1
    | (Raise e, w1) => (Raise e, w1)
    end.
Proof. reflexivity. Qed.

(** Coverage of the loop. When the dates carry no repetition and the rows
    assigned so far are those of the dates already visited, in order,
    then after any number of further iterations the rows assigned are
    still those of a prefix of the dates, in order, each once, and the
    rows after that prefix are as created. *)
Lemma main_loop_writes args l train test rv rest :
  forall pre w k,
  forecast_dates l = pre ++ rest ->
  NoDup (forecast_dates l) ->
  day_inv l train test rv w ->
  writes w = map (pair (forecast l)) (seq 0 (length pre)) ->
  unwritten_from l (length pre) w ->
  let out := main_loop args l (take k rest) w in
  exists j, j <= k /\ j <= length rest /\
    writes out.2 = map (pair (forecast l)) (seq 0 (length pre + j)) /\
    unwritten_from l (length pre + j) out.2 /\
    (out.1 = Ok () -> j = min k (length rest)).
Proof.
  induction rest as [|d rest IH]; intros pre w k Hdates Hnd Hinv Hwr Hun out.
  - exists 0. subst out. rewrite take_nil, Nat.add_0_r. cbn. split_and!; auto; lia.
  - destruct k as [|k].
    { exists 0. subst out. rewrite Nat.add_0_r. cbn. split_and!; auto; lia. }
    subst out. cbn [take]. rewrite main_loop_cons.
    assert (Hp : forecast_dates l !! length pre = Some d).
    { rewrite Hdates. by apply list_lookup_middle. }
    pose proof (process_date_writes args l train test rv d (length pre) w
                  Hinv Hnd Hp) as Hday.
    pose proof (process_date_inv args l train test rv d w Hinv
                  ltac:(by eapply list_elem_of_lookup_2)) as Hinv1.
    cbv zeta in Hday.
    destruct (process_date _ _ _ _ _ _ _ _) as [r1 w1]. cbn [fst snd] in *.
    destruct Hday as [(Hw1 & Hh1 & Hr1) | (f & f' & row & Hf & Hf' & Hv & Hw1)].
    + (* the day stopped before assigning its row *)
      destruct r1 as [[]|e]; [done |].
      exists 0. rewrite Nat.add_0_r. cbn [fst snd].
      split_and!; [lia | lia | congruence | | done].
      destruct Hun as (f0 & Hf0 & Hrows). exists f0. by rewrite Hh1.
    + (* the day assigned its row *)
      assert (Hw1' : writes w1
                     = map (pair (forecast l)) (seq 0 (length (pre ++ [d])))).
      { rewrite Hw1, Hwr, length_app. cbn [length].
        rewrite seq_app, map_app. by rewrite Nat.add_0_l. }
      assert (Hun1 : unwritten_from l (length (pre ++ [d])) w1).
      { destruct Hun as (f0 & Hf0 & Hrows). exists f'. split; [done |].
        rewrite Hf in Hf0. injection Hf0 as <-.
        intros i Hi Hlen. rewrite length_app in Hi. cbn [length] in Hi.
        rewrite Hv, list_lookup_insert_ne by lia. apply Hrows; [lia | done]. }
      destruct r1 as [[]|e].
      * destruct (IH (pre ++ [d]) w1 k) as (j & Hjk & Hjl & Hwj & Hunj & Hok);
          [by rewrite <- app_assoc | done..|].
        rewrite length_app in *. cbn [length] in *.
        exists (S j). rewrite <- Nat.add_assoc in *. cbn [Nat.add] in *.
        split_and!; [lia | lia | done | done |].
        intros Hr. specialize (Hok Hr). lia.
      * exists 1. cbn [fst snd]. rewrite length_app in *. cbn [length] in *.
        split_and!; [lia | lia | done | done | done].
Qed.

(** An answer of a wrong count is the last call of the loop: the days
    before it completed, the loop stops on the refused assignment, and the
    forecast frame and the assignments are those of the days before. *)
Lemma main_loop_wrong_count args l train test rv dates :
  forall w k c,
  dates ⊆ forecast_dates l ->
  day_inv l train test rv w ->
  calls (main_loop args l dates w).2 !! (length (calls w) + k) = Some c ->
  wrong_count c ->
  let out := main_loop args l dates w in
  let outk := main_loop args l (take k dates) w in
  outk.1 = Ok () /\
  out.1 = Raise (ValueError "setitem") /\
  length (calls out.2) = length (calls w) + S k /\
  heap out.2 !! forecast l = heap outk.2 !! forecast l /\
  writes out.2 = writes outk.2.
Proof.
  induction dates as [|d dates IH]; intros w k c Hsub Hinv Hc Hwrong.
  - cbn in Hc. apply lookup_lt_Some in Hc. lia.
  - assert (Hsub' : dates ⊆ forecast_dates l).
    { intros x Hx. apply Hsub. by right. }
    pose proof (process_date_calls args l train test rv d w Hinv) as Hday.
    pose proof (process_date_inv args l train test rv d w Hinv
                  ltac:(apply Hsub; left)) as Hinv1.
    pose proof (main_loop_calls_prefix args l train test rv dates) as Hpre.
    cbv zeta in Hday. revert Hc. cbv zeta.
    destruct k as [|k]; cbn [take]; rewrite !main_loop_cons.
    all: destruct (process_date _ _ _ _ _ _ _ _) as [r1 w1] eqn:Hpd;
      cbn [fst snd] in *.
    all: destruct Hday as [(Hc1 & e & _ & ->) |
                           (c1 & Hc1 & _ & _ & _ & Hok & Hbad)].
    + (* no call on the first day: the loop has no call to show *)
      cbn [snd]. rewrite Hc1. intros Hc%lookup_lt_Some. lia.
    + destruct r1 as [[]|e]; cbn [fst snd].
      * intros Hc. exfalso. apply Hok; [done |].
        specialize (Hpre w1 Hsub' Hinv1).
        eapply prefix_lookup_Some in Hpre as Hc';
          [| rewrite Hc1; by apply list_lookup_middle].
        rewrite Nat.add_0_r in Hc. congruence.
      * rewrite Hc1, Nat.add_0_r. rewrite list_lookup_middle by done.
        intros [= <-]. destruct (Hbad Hwrong) as ([= ->] & Hh & Hw).
        rewrite length_app. by cbn.
    + cbn [snd]. rewrite Hc1. intros Hc%lookup_lt_Some. lia.
    + destruct r1 as [[]|e]; cbn [fst snd].
      * intros Hc.
        destruct (IH w1 k c Hsub' Hinv1) as (H1 & H2 & H3 & H4 & H5);
          [| done |].
        { rewrite Hc1, length_app. cbn [length].
          by replace (length (calls w) + 1 + k) with (length (calls w) + S k) by lia. }
        rewrite Hc1, length_app in H3. cbn [length] in H3.
        split_and!; try done. lia.
      * rewrite Hc1. intros Hc%lookup_lt_Some. rewrite length_app in Hc.
        cbn [length] in Hc. lia.
Qed.

End Run.

(** * The claims *)

Section Claims.
Context `{Epftoolbox}.

(** C1. Causal validity. On a chronological train/test split, every
    frame handed to the model is made for a test day, is the
    concatenation of the train frame with the test rows up to the last
    hour of that day in which the prices of the day's own hours are NaN,
    and holds no price other than NaN at or after the first hour of the
    day. *)
Theorem causal_validity args (train test : DataFrame) c :
  read_args args = Ok (train, test) ->
  is_monotonic_increasing (map ts (train ++ test)) = true ->
  c ∈ calls (main args init_world).2 ->
  c_next_day_date c ∈ every_24th (map ts test) /\
  c_df c = available_window train test (c_next_day_date c) /\
  forall r, r ∈ c_df c -> (c_next_day_date c <= ts r)%Z -> Price r = NaN.
Proof.
  intros Hread Hm Hc.
  destruct (main_calls args train test c Hread Hc) as (Hday & _ & Hwin).
  rewrite window_value_sorted in Hwin by done. injection Hwin as Hwin.
  split; [done |]. split; [done |].
  intros r Hr Hts. rewrite <- Hwin in Hr. unfold available_window in Hr.
  apply elem_of_map in Hr as (r0 & -> & Hr0).
  unfold in_day in *. destruct (Z.leb_spec (c_next_day_date c) (ts r0)) as [Hlo | Hlo].
  - destruct (Z.leb_spec (ts r0) (c_next_day_date c + 23)) as [Hhi | Hhi];
      [done |]. exfalso. cbn [andb] in Hts.
    apply elem_of_app in Hr0 as [Hr0 | Hr0].
    + assert ((ts r0 <= c_next_day_date c)%Z); [| lia].
      rewrite map_app in Hm. eapply mono_app_le; [exact Hm | |].
      * apply elem_of_map. by exists r0.
      * by eapply step_from_subset.
    + apply list_elem_of_filter in Hr0 as [Hle _]. lia.
  - cbn [andb] in Hts. lia.
Qed.

(** C7. Only the price is masked. On a chronological split, the frame
    handed to the model has the timestamps and the exogenous columns of
    the concatenation, every test row of the day is in it with its
    covariates and a NaN price, and every row outside the day's hours is a
    row of the inputs as it was. *)
Theorem covariates_visible args (train test : DataFrame) c :
  read_args args = Ok (train, test) ->
  is_monotonic_increasing (map ts (train ++ test)) = true ->
  c ∈ calls (main args init_world).2 ->
  let D := c_next_day_date c in
  let concat := train ++ filter (fun r => (ts r <= D + 23)%Z) test in
  map ts (c_df c) = map ts concat /\
  map Exog (c_df c) = map Exog concat /\
  (forall r, r ∈ test -> in_day D r = true ->
     exists r', r' ∈ c_df c /\ ts r' = ts r /\ Exog r' = Exog r /\ Price r' = NaN) /\
  (forall r, r ∈ c_df c -> in_day D r = false -> r ∈ train ++ test).
Proof.
  intros Hread Hm Hc D concat.
  destruct (main_calls args train test c Hread Hc) as (Hday & _ & Hwin).
  rewrite window_value_sorted in Hwin by done. injection Hwin as Hwin.
  rewrite <- Hwin. unfold available_window. fold D. fold concat.
  split; [| split; [| split]].
  - rewrite map_map. apply map_ext. intros r. by destruct (in_day D r).
  - rewrite map_map. apply map_ext. intros r. by destruct (in_day D r).
  - intros r Hr Hin. exists (set_price NaN r). split; [| done].
    apply elem_of_map. exists r. rewrite Hin. split; [done |].
    apply elem_of_app. right. apply list_elem_of_filter. split; [| done].
    unfold in_day in Hin. apply andb_true_iff in Hin as [_ Hhi].
    by apply Z.leb_le.
  - intros r Hr Hout. apply elem_of_map in Hr as (r0 & -> & Hr0).
    destruct (in_day D r0) eqn:Hin0.
    + unfold in_day in *. cbn [set_price ts] in Hout. congruence.
    + apply elem_of_app in Hr0 as [Hr0 | Hr0]; apply elem_of_app; [by left |].
      right. by apply list_elem_of_filter in Hr0 as [_ ?].
Qed.


(** C10. The inputs are left alone. After any number of iterations of
    the loop, and at the end of [main], the objects named [df_train] and
    [df_test] hold the frames that [read_data] returned: the masking of
    each day went to the frame allocated for that day. *)
Theorem inputs_unchanged args l (train test : DataFrame) :
  main_locals args = Ok l ->
  read_args args = Ok (train, test) ->
  (forall k,
     heap (main_upto args k entry).2 !! df_train l = Some (PyFrame train) /\
     heap (main_upto args k entry).2 !! df_test l = Some (PyFrame test)) /\
  heap (main args init_world).2 !! df_train l = Some (PyFrame train) /\
  heap (main args init_world).2 !! df_test l = Some (PyFrame test).
Proof.
  intros Hl Hread.
  destruct (main_setup_ok args l Hl)
    as (train' & test' & rv & Hread' & _ & _ & Hinv & _).
  rewrite Hread in Hread'. injection Hread' as <- <-.
  assert (Hloop : forall dates, dates ⊆ forecast_dates l ->
    heap (main_loop args l dates (main_start args)).2 !! df_train l
      = Some (PyFrame train) /\
    heap (main_loop args l dates (main_start args)).2 !! df_test l
      = Some (PyFrame test)).
  { intros dates Hsub.
    destruct (main_loop_inv args l train test rv dates _ Hsub Hinv); done. }
  split.
  - intros k. rewrite (main_upto_ok args l k Hl). apply Hloop.
    apply take_subseteq.
  - destruct (main_final args) as (-> & _).
    destruct (main_body_ok args l Hl) as (_ & -> & _). by apply Hloop.
Qed.

(** C8 (what the code does). [main] writes no file: the forecast frame
    is not persisted, on any input. *)
Theorem forecast_not_persisted args :
  files (main args init_world).2 = [].
Proof.
  destruct (main_final args) as (_ & _ & _ & ->).
  destruct (main_locals args) as [l|e] eqn:Hl.
  - destruct (main_body_ok args l Hl) as (_ & _ & _ & _ & -> & _).
    destruct (main_setup_ok args l Hl)
      as (train & test & rv & _ & _ & _ & Hinv & _ & _ & _ & _ & Hfiles & _).
    destruct (main_loop_frame args l train test rv (forecast_dates l)
                (main_start args) ltac:(done) Hinv) as [-> _].
    exact Hfiles.
  - rewrite (main_body_fail args e Hl). cbn [snd].
    pose proof (main_setup_cases args) as Hs.
    unfold main_start, main_locals in *.
    destruct (main_setup args entry) as [[l'|e'] w0]; [done |].
    by destruct Hs as (_ & _ & _ & Hf & _).
Qed.

(** C9 (amended). An exception raised in the [try] block of [main] is
    printed and logged by [handle_error], message then traceback, and is
    not propagated: [main] returns normally. *)
Theorem errors_logged_not_propagated args e :
  (main_body args entry).1 = Raise e ->
  (main args init_world).1 = Ok () /\
  log (main args init_world).2
  = log (main_body args entry).2
    ++ [Info (FuncStart "handle_error"); Error (ErrorOccurred e);
        Error (Traceback e); Info (FuncEnd "handle_error");
        Info (FuncEnd "main")] /\
  stdout (main args init_world).2
  = stdout (main_body args entry).2 ++ [ErrorOccurred e].
Proof.
  rewrite main_eq. destruct (main_body args entry) as [[[]|e'] w1]; [done |].
  cbn [fst snd]. intros [= ->]. split; [done |].
  cbn [log stdout add_log add_stdout]. by rewrite <- !app_assoc.
Qed.

(** C4 (amended). A test range whose number of rows is not a multiple of
    24 stops the run before the loop: [reshape(-1, 24)] raises a
    [ValueError] (the code defines no alignment error of its own), no
    iteration is ever entered, no model call and no row assignment is
    made, and the [try] block has handed to [logging] the records of the
    lines before the loop only. [main] catches the exception, prints it,
    hands it to [logging.error] and returns normally. *)
Theorem missing_hour_before_loop args (train test : DataFrame) :
  read_args args = Ok (train, test) ->
  length test mod 24 <> 0 ->
  main_locals args = Raise (ValueError "reshape") /\
  (main_body args entry).1 = Raise (ValueError "reshape") /\
  log (main_body args entry).2 = setup_log args /\
  (forall k, main_upto args k entry = main_body args entry) /\
  calls (main args init_world).2 = [] /\
  writes (main args init_world).2 = [] /\
  (main args init_world).1 = Ok () /\
  stdout (main args init_world).2 = [ErrorOccurred (ValueError "reshape")] /\
  Error (ErrorOccurred (ValueError "reshape")) ∈ log (main args init_world).2.
Proof.
  intros Hread Hmod.
  assert (Hre : reshape_24 (map Price test) = Raise (ValueError "reshape")).
  { unfold reshape_24. rewrite length_map.
    by rewrite (proj2 (Nat.eqb_neq _ _) Hmod). }
  assert (Hset : exists w0,
            main_setup args entry = (Raise (ValueError "reshape"), w0) /\
            calls w0 = [] /\ writes w0 = [] /\ stdout w0 = [] /\
            log w0 = setup_log args).
  { pose proof (main_setup_cases args) as Hs.
    destruct (main_setup args entry) as [[l|e] w0].
    - destruct Hs as (? & ? & rv & Hread' & Hre' & _). congruence.
    - destruct Hs as (Hc & Hw & Ho & _ & [Hread' | Hs]); [congruence |].
      destruct Hs as (train' & test' & Hread' & Hlog & Hs).
      rewrite Hread in Hread'. injection Hread' as <- <-.
      destruct Hs as [Hre' | (values & Hre' & _)]; [| congruence].
      rewrite Hre in Hre'. injection Hre' as <-. by exists w0. }
  destruct Hset as (w0 & Hset & Hc & Hw & Ho & Hlog).
  assert (Hbody : main_body args entry = (Raise (ValueError "reshape"), w0)).
  { by rewrite main_body_eq, Hset. }
  assert (Hup : forall k, main_upto args k entry = main_body args entry).
  { intros k. by rewrite main_upto_eq, Hset, Hbody. }
  unfold main_locals. rewrite main_eq, Hbody, Hset.
  cbn [fst snd calls writes stdout log add_log add_stdout].
  rewrite Hc, Hw, Ho, Hlog.
  repeat (split; [first [done | intros k; by rewrite Hup, Hbody] |]).
  rewrite !elem_of_app, !elem_of_cons. auto 10.
Qed.

(** C3 (amended). A calibration window of 0 is not validated: on a
    chronological split with at least one test day, the model is invoked
    for the first test day with calibration window 0, on that day's
    window. *)
Theorem zero_window_reaches_model args l (train test : DataFrame) date rest :
  calibration_window args = 0%Z ->
  main_locals args = Ok l ->
  forecast_dates l = date :: rest ->
  read_args args = Ok (train, test) ->
  is_monotonic_increasing (map ts (train ++ test)) = true ->
  exists c,
    calls (main args init_world).2 !! 0 = Some c /\
    c_next_day_date c = date /\
    c_calibration_window c = 0%Z /\
    c_df c = available_window train test date.
Proof.
  intros Hcw Hl Hdates Hread Hm.
  destruct (main_final args) as (_ & -> & _).
  destruct (main_body_ok args l Hl) as (_ & _ & -> & _).
  destruct (main_setup_ok args l Hl)
    as (train' & test' & rv & Hread' & _ & _ & Hinv & _ & Hcalls & _).
  rewrite Hread in Hread'. injection Hread' as <- <-.
  rewrite Hdates. unfold main_loop. cbn [for_each]. unfold mbind, M_bind.
  pose proof (process_date_calls args l train test rv date _ Hinv) as Hday.
  pose proof (process_date_inv args l train test rv date _ Hinv
                ltac:(rewrite Hdates; left)) as Hinv1.
  cbv zeta in Hday. rewrite window_value_sorted in Hday by done.
  destruct Hday as [(_ & e & [=] & _) | (c & Hc & Hd & Hcw' & [= Hwin] & _)].
  rewrite Hcalls in Hc. cbn [app] in Hc.
  exists c. rewrite <- Hcw, <- Hwin. repeat (split; [| done]).
  destruct (process_date _ _ _ _ _ _ _ _) as [[[]|e] w1]; cbn [snd] in *.
  - apply (prefix_lookup_Some (calls w1)); [by rewrite Hc |].
    apply (main_loop_calls_prefix args l train test rv rest); [| done].
    rewrite Hdates. intros d Hd'. by right.
  - by rewrite Hc.
Qed.


(** C6. Monotonic coverage, write once. When the test days carry no
    repeated date, after any number of iterations of the loop, completed
    or stopped by an exception, the rows assigned in the forecast frame
    are those of a prefix of the test days, each assigned once and in
    order, and every later row is as created; when the iterations all
    completed the prefix is the days visited. *)
Theorem monotonic_coverage args l k :
  main_locals args = Ok l ->
  NoDup (forecast_dates l) ->
  exists j, j <= k /\ j <= length (forecast_dates l) /\
    writes (main_upto args k entry).2 = map (pair (forecast l)) (seq 0 j) /\
    unwritten_from l j (main_upto args k entry).2 /\
    ((main_upto args k entry).1 = Ok () -> j = min k (length (forecast_dates l))).
Proof.
  intros Hl Hnd. rewrite (main_upto_ok args l k Hl).
  destruct (main_setup_ok args l Hl)
    as (train & test & rv & _ & _ & _ & Hinv & Hun & _ & Hwr & _).
  by apply (main_loop_writes args l train test rv (forecast_dates l) []).
Qed.

(** C5. Running metrics. When the first [k+1] test days completed, the
    progress line printed and logged last is that of day [k], and its MAE
    and sMAPE are the metrics of the first [k+1] rows of the forecast
    frame against the first [k+1] rows of the real values, the sMAPE
    multiplied by 100. *)
Theorem running_metrics args l k date w :
  main_locals args = Ok l ->
  NoDup (forecast_dates l) ->
  forecast_dates l !! k = Some date ->
  main_upto args (S k) entry = (Ok (), w) ->
  exists (train test : DataFrame) f rv mae smape,
    read_args args = Ok (train, test) /\
    reshape_24 (map Price test) = Ok (d_values rv) /\
    heap w !! forecast l = Some (PyDays f) /\
    heap w !! real_values l = Some (PyDays rv) /\
    MAE (squeeze (Arr2 (take (S k) (d_values f)))) (Arr2 (take (S k) (d_values rv)))
      = Ok mae /\
    sMAPE (squeeze (Arr2 (take (S k) (d_values f)))) (Arr2 (take (S k) (d_values rv)))
      = Ok smape /\
    let line := Progress date (float_mul (np_mean smape) (float_of_int 100))
                  (np_mean mae) in
    last (stdout w) = Some line /\
    exists before,
      log w = before ++ [Info line; Info (FuncEnd "process_date")].
Proof.
  intros Hl Hnd Hk. rewrite (main_upto_ok args l (S k) Hl).
  destruct (main_setup_ok args l Hl)
    as (train & test & rv & Hread & Hre & _ & Hinv & _).
  rewrite (take_S_r _ _ _ Hk). unfold main_loop. rewrite for_each_app.
  pose proof (main_loop_inv args l train test rv (take k (forecast_dates l))
                (main_start args) (take_subseteq _ _) Hinv) as Hinvk.
  unfold main_loop in Hinvk.
  destruct (for_each (take k (forecast_dates l)) _ _) as [[[]|e] wk]; [| done].
  cbn [snd for_each] in *. unfold mbind, M_bind, mret, M_ret.
  destruct (process_date _ _ _ _ _ _ _ wk) as [[[]|e] w'] eqn:Hday; [| done].
  intros [= <-].
  pose proof (process_date_inv args l train test rv date wk Hinvk
                ltac:(by eapply list_elem_of_lookup_2)) as Hinv'.
  rewrite Hday in Hinv'. cbn [snd] in Hinv'.
  destruct (process_date_ok args l train test rv date wk w' Hinvk Hday)
    as (f' & msg & Hf' & Hmsg & Hout & Hlog).
  destruct Hinv' as [_ _ Hrv' Hri' (f0 & Hf0 & Hidx & _) _ _].
  rewrite Hf' in Hf0. injection Hf0 as <-.
  destruct (progress_value_prefix f' rv date k msg) as (mae & smape & Hm & Hs & ->);
    [by rewrite Hidx | congruence | by rewrite Hidx | done |].
  exists train, test, f', rv, mae, smape.
  repeat (split; [done |]). cbv zeta. split.
  - rewrite Hout. apply last_snoc.
  - rewrite Hlog. eexists (_ ++ [_; _]). by rewrite <- app_assoc.
Qed.

(** C2 (amended). When the answer of the model at call [k] has a count
    that a row of 24 cells cannot take (neither 24 values nor one), the
    days before it completed, the assignment of the row raises and ends
    the loop, no later call is made, the forecast frame and the rows
    assigned are those left by the days before, and [main] logs the error
    and returns normally. *)
Theorem wrong_count_aborts args l k c :
  main_locals args = Ok l ->
  calls (main args init_world).2 !! k = Some c ->
  wrong_count c ->
  (main_upto args k entry).1 = Ok () /\
  (main_body args entry).1 = Raise (ValueError "setitem") /\
  (main args init_world).1 = Ok () /\
  length (calls (main args init_world).2) = S k /\
  heap (main args init_world).2 !! forecast l
    = heap (main_upto args k entry).2 !! forecast l /\
  writes (main args init_world).2 = writes (main_upto args k entry).2 /\
  Error (ErrorOccurred (ValueError "setitem")) ∈ log (main args init_world).2.
Proof.
  intros Hl Hc Hwrong.
  destruct (main_final args) as (Hh & Hcalls & Hw & _).
  rewrite Hh, Hcalls, Hw in *. clear Hh Hcalls Hw.
  destruct (main_body_ok args l Hl) as (Hr & Hh & Hcalls & Hw & _).
  rewrite Hh, Hcalls, Hw, Hr in *. clear Hh Hcalls Hw.
  destruct (main_setup_ok args l Hl)
    as (train & test & rv & _ & _ & _ & Hinv & _ & Hc0 & _).
  rewrite (main_upto_ok args l k Hl).
  destruct (main_loop_wrong_count args l train test rv (forecast_dates l)
              (main_start args) k c ltac:(done) Hinv)
    as (H1 & H2 & H3 & H4 & H5); [by rewrite Hc0 | done |].
  rewrite Hc0 in H3. rewrite H2 in Hr.
  repeat (split; [done |]).
  rewrite main_eq. destruct (main_body args entry) as [[[]|e] wb]; [done |].
  cbn [fst snd] in *. injection Hr as ->. split; [done |].
  cbn [log add_log]. rewrite !elem_of_app, !list_elem_of_singleton. auto 10.
Qed.

End Claims.

(** * The claims on the concrete instance *)

(** The first call of a sound run receives the window of the first test
    day, in which no price of that day is visible. *)
Lemma causal_validity_witness :
  @read_args _ Demo.sound default_args = Ok (Demo.hours 0 24, Demo.hours 24 48) /\
  is_monotonic_increasing (map ts (Demo.hours 0 24 ++ Demo.hours 24 48)) = true /\
  Demo.first_call 1456 (replicate 24 (Some 21%Z))
    ∈ calls (@main _ Demo.sound default_args init_world).2 /\
  forall r, r ∈ c_df (Demo.first_call 1456 (replicate 24 (Some 21%Z))) ->
    (24 <= ts r)%Z -> Price r = None.
Proof.
  assert (Hin : Demo.first_call 1456 (replicate 24 (Some 21%Z))
                  ∈ calls (@main _ Demo.sound default_args init_world).2).
  { apply (list_elem_of_lookup_2 _ 0). vm_compute. reflexivity. }
  split; [reflexivity |]. split; [reflexivity |]. split; [exact Hin |].
  apply (@causal_validity _ Demo.sound default_args
           (Demo.hours 0 24) (Demo.hours 24 48) _ eq_refl eq_refl Hin).
Defined.

Lemma covariates_visible_witness :
  @read_args _ Demo.sound default_args = Ok (Demo.hours 0 24, Demo.hours 24 48) /\
  is_monotonic_increasing (map ts (Demo.hours 0 24 ++ Demo.hours 24 48)) = true /\
  Demo.first_call 1456 (replicate 24 (Some 21%Z))
    ∈ calls (@main _ Demo.sound default_args init_world).2 /\
  map Exog (c_df (Demo.first_call 1456 (replicate 24 (Some 21%Z))))
  = map Exog (Demo.hours 0 24
              ++ filter (fun r => (ts r <= 24 + 23)%Z) (Demo.hours 24 48)).
Proof.
  assert (Hin : Demo.first_call 1456 (replicate 24 (Some 21%Z))
                  ∈ calls (@main _ Demo.sound default_args init_world).2).
  { apply (list_elem_of_lookup_2 _ 0). vm_compute. reflexivity. }
  split; [reflexivity |]. split; [reflexivity |]. split; [exact Hin |].
  apply (@covariates_visible _ Demo.sound default_args
           (Demo.hours 0 24) (Demo.hours 24 48) _ eq_refl eq_refl Hin).
Defined.

Lemma inputs_unchanged_witness :
  @main_locals _ Demo.sound default_args = Ok Demo.sound_locals /\
  @read_args _ Demo.sound default_args = Ok (Demo.hours 0 24, Demo.hours 24 48) /\
  heap (@main _ Demo.sound default_args init_world).2 !! 0
    = Some (PyFrame (Demo.hours 0 24)) /\
  heap (@main _ Demo.sound default_args init_world).2 !! 1
    = Some (PyFrame (Demo.hours 24 48)).
Proof.
  split; [reflexivity |]. split; [reflexivity |].
  apply (@inputs_unchanged _ Demo.sound default_args Demo.sound_locals
           (Demo.hours 0 24) (Demo.hours 24 48) eq_refl eq_refl).
Defined.

Lemma errors_logged_not_propagated_witness :
  (@main_body _ Demo.missing_hour default_args entry).1
    = Raise (ValueError "reshape") /\
  (@main _ Demo.missing_hour default_args init_world).1 = Ok ().
Proof.
  split; [reflexivity |].
  apply (@errors_logged_not_propagated _ Demo.missing_hour default_args
           (ValueError "reshape") eq_refl).
Defined.

Lemma missing_hour_before_loop_witness :
  @read_args _ Demo.missing_hour default_args
    = Ok (Demo.hours 0 24, Demo.hours 24 47) /\
  length (Demo.hours 24 47) mod 24 <> 0 /\
  (@main_body _ Demo.missing_hour default_args entry).1
    = Raise (ValueError "reshape") /\
  calls (@main _ Demo.missing_hour default_args init_world).2 = [] /\
  (@main _ Demo.missing_hour default_args init_world).1 = Ok () /\
  stdout (@main _ Demo.missing_hour default_args init_world).2
    = [ErrorOccurred (ValueError "reshape")].
Proof.
  assert (Hmod : length (Demo.hours 24 47) mod 24 <> 0).
  { vm_compute. discriminate. }
  split; [reflexivity |]. split; [exact Hmod |].
  destruct (@missing_hour_before_loop _ Demo.missing_hour default_args
              (Demo.hours 0 24) (Demo.hours 24 47) eq_refl Hmod)
    as (_ & Hbody & _ & _ & Hcalls & _ & Hmain & Hout & _).
  split; [exact Hbody |]. split; [exact Hcalls |]. split; [exact Hmain |].
  exact Hout.
Defined.

Lemma zero_window_reaches_model_witness :
  calibration_window Demo.zero_window = 0%Z /\
  @main_locals _ Demo.sound Demo.zero_window = Ok Demo.zero_window_locals /\
  is_monotonic_increasing (map ts (Demo.hours 0 24 ++ Demo.hours 24 48)) = true /\
  exists c,
    calls (@main _ Demo.sound Demo.zero_window init_world).2 !! 0 = Some c /\
    c_next_day_date c = 24%Z /\ c_calibration_window c = 0%Z /\
    c_df c = available_window (Demo.hours 0 24) (Demo.hours 24 48) 24.
Proof.
  split; [reflexivity |]. split; [reflexivity |]. split; [reflexivity |].
  apply (@zero_window_reaches_model _ Demo.sound Demo.zero_window
           Demo.zero_window_locals (Demo.hours 0 24) (Demo.hours 24 48)
           24%Z [48%Z] eq_refl eq_refl eq_refl eq_refl eq_refl).
Defined.

Lemma monotonic_coverage_witness :
  @main_locals _ Demo.sound default_args = Ok Demo.sound_locals /\
  NoDup (forecast_dates Demo.sound_locals) /\
  exists j, j <= 1 /\ j <= 2 /\
    writes (@main_upto _ Demo.sound default_args 1 entry).2
      = map (pair 2) (seq 0 j) /\
    unwritten_from Demo.sound_locals j
      (@main_upto _ Demo.sound default_args 1 entry).2 /\
    ((@main_upto _ Demo.sound default_args 1 entry).1 = Ok () -> j = 1).
Proof.
  assert (Hnd : NoDup (forecast_dates Demo.sound_locals)).
  { apply (bool_decide_unpack (NoDup _)). vm_compute. exact I. }
  split; [reflexivity |]. split; [exact Hnd |].
  apply (@monotonic_coverage _ Demo.sound default_args Demo.sound_locals 1
           eq_refl Hnd).
Defined.

Lemma running_metrics_witness :
  @main_locals _ Demo.sound default_args = Ok Demo.sound_locals /\
  NoDup (forecast_dates Demo.sound_locals) /\
  forecast_dates Demo.sound_locals !! 0 = Some 24%Z /\
  (@main_upto _ Demo.sound default_args 1 entry).1 = Ok () /\
  exists f rv mae smape,
    heap (@main_upto _ Demo.sound default_args 1 entry).2 !! 2 = Some (PyDays f) /\
    heap (@main_upto _ Demo.sound default_args 1 entry).2 !! 3 = Some (PyDays rv) /\
    @MAE _ Demo.sound (squeeze (Arr2 (take 1 (d_values f)))) (Arr2 (take 1 (d_values rv)))
      = Ok mae /\
    @sMAPE _ Demo.sound (squeeze (Arr2 (take 1 (d_values f)))) (Arr2 (take 1 (d_values rv)))
      = Ok smape /\
    last (stdout (@main_upto _ Demo.sound default_args 1 entry).2)
      = Some (Progress 24 (@float_mul Demo.numpy (@np_mean Demo.numpy smape)
                             (@float_of_int Demo.numpy 100))
                (@np_mean Demo.numpy mae)).
Proof.
  assert (Hnd : NoDup (forecast_dates Demo.sound_locals)).
  { apply (bool_decide_unpack (NoDup _)). vm_compute. exact I. }
  assert (Hrun : @main_upto _ Demo.sound default_args 1 entry
                 = (Ok (), (@main_upto _ Demo.sound default_args 1 entry).2)).
  { vm_compute. reflexivity. }
  split; [reflexivity |]. split; [exact Hnd |]. split; [reflexivity |].
  split; [reflexivity |].
  destruct (@running_metrics _ Demo.sound default_args Demo.sound_locals 0 24%Z
              _ eq_refl Hnd eq_refl Hrun)
    as (train & test & f & rv & mae & smape & _ & _ & Hf & Hrv & Hm & Hs & Hlast & _).
  exists f, rv, mae, smape. repeat (split; [assumption |]). exact Hlast.
Defined.

Lemma wrong_count_aborts_witness :
  @main_locals _ Demo.short_second default_args = Ok Demo.sound_locals /\
  calls (@main _ Demo.short_second default_args init_world).2 !! 1
    = Some (Demo.second_call 1456 (replicate 23 (Some 21%Z))) /\
  wrong_count (Demo.second_call 1456 (replicate 23 (Some 21%Z))) /\
  (@main_body _ Demo.short_second default_args entry).1
    = Raise (ValueError "setitem") /\
  (@main _ Demo.short_second default_args init_world).1 = Ok () /\
  writes (@main _ Demo.short_second default_args init_world).2
    = writes (@main_upto _ Demo.short_second default_args 1 entry).2.
Proof.
  assert (Hcall : calls (@main _ Demo.short_second default_args init_world).2 !! 1
                  = Some (Demo.second_call 1456 (replicate 23 (Some 21%Z)))).
  { vm_compute. reflexivity. }
  assert (Hwrong : wrong_count (Demo.second_call 1456 (replicate 23 (Some 21%Z)))).
  { exists (replicate 23 (Some 21%Z)). split; [reflexivity |].
    split; vm_compute; discriminate. }
  split; [reflexivity |]. split; [exact Hcall |]. split; [exact Hwrong |].
  destruct (@wrong_count_aborts _ Demo.short_second default_args
              Demo.sound_locals 1 _ eq_refl Hcall Hwrong)
    as (_ & Hbody & Hmain & _ & _ & Hw & _).
  split; [exact Hbody |]. split; [exact Hmain |]. exact Hw.
Defined.

(** ** Where the code departs from the specification *)

(** C2 (as stated) fails: the model answers 23 values for the first test
    day, and [main] returns normally; no exception reaches its caller. *)
Lemma short_answer_is_swallowed :
  calls (@main _ Demo.short_answer default_args init_world).2
    = [Demo.first_call 1456 (replicate 23 (Some 21%Z))] /\
  length (replicate 23 (Some 21%Z)) <> 24 /\
  (@main_body _ Demo.short_answer default_args entry).1
    = Raise (ValueError "setitem") /\
  (@main _ Demo.short_answer default_args init_world).1 = Ok () /\
  ~ exists e, (@main _ Demo.short_answer default_args init_world).1 = Raise e.
Proof.
  split; [vm_compute; reflexivity |]. split; [vm_compute; discriminate |].
  split; [reflexivity |]. split; [reflexivity |].
  intros [e He]. vm_compute in He. discriminate.
Qed.

(** C4 (as stated) fails. A test range of 47 rows does stop the run
    before the loop, but on numpy's [ValueError], which [main] catches:
    [main] returns normally and no exception reaches its caller. And a
    test range that lacks hour 47 while it holds 48 rows is accepted: the
    run completes, the model being called for a second day that starts
    at hour 49. *)
Lemma missing_hour_not_reported :
  length (Demo.hours 24 47) mod 24 <> 0 /\
  (@main_body _ Demo.missing_hour default_args entry).1
    = Raise (ValueError "reshape") /\
  (@main _ Demo.missing_hour default_args init_world).1 = Ok () /\
  ~ (exists e, (@main _ Demo.missing_hour default_args init_world).1 = Raise e) /\
  @read_args _ Demo.skipped_hour default_args
    = Ok (Demo.hours 0 24, Demo.hours 24 23 ++ Demo.hours 48 25) /\
  (47%Z ∉ map ts (Demo.hours 24 23 ++ Demo.hours 48 25)) /\
  length (Demo.hours 24 23 ++ Demo.hours 48 25) = 48 /\
  (@main_body _ Demo.skipped_hour default_args entry).1 = Ok () /\
  map c_next_day_date
    (calls (@main _ Demo.skipped_hour default_args init_world).2)
    = [24; 49]%Z.
Proof.
  split; [vm_compute; discriminate |]. split; [reflexivity |].
  split; [reflexivity |].
  split; [intros [e He]; vm_compute in He; discriminate |].
  split; [reflexivity |].
  split; [apply (bool_decide_unpack (47%Z ∉ _)); vm_compute; exact I |].
  repeat split; vm_compute; reflexivity.
Qed.

(** C3 (as stated) fails: with a calibration window of 0 no validation
    error is raised; the model is invoked for both test days with
    calibration window 0 and the run completes. *)
Lemma zero_window_not_rejected :
  calibration_window Demo.zero_window = 0%Z /\
  map c_calibration_window
    (calls (@main _ Demo.sound Demo.zero_window init_world).2) = [0; 0]%Z /\
  map c_next_day_date
    (calls (@main _ Demo.sound Demo.zero_window init_world).2) = [24; 48]%Z /\
  (@main_body _ Demo.sound Demo.zero_window entry).1 = Ok ().
Proof. repeat split; vm_compute; reflexivity. Qed.

(** C9 (as stated) fails: the [try] block raises on a test range that
    lacks an hour, and [main] terminates normally. *)
Lemma error_then_normal_return :
  (@main_body _ Demo.missing_hour default_args entry).1
    = Raise (ValueError "reshape") /\
  (@main _ Demo.missing_hour default_args init_world).1 = Ok () /\
  ~ exists e, (@main _ Demo.missing_hour default_args init_world).1 = Raise e.
Proof.
  split; [reflexivity |]. split; [reflexivity |].
  intros [e He]. vm_compute in He. discriminate.
Qed.

(** C8 on a run that completes: the path of the forecast file is
    computed, both rows of the forecast frame are assigned, the run
    completes, and no file has been written. *)
Lemma sound_run_writes_no_file :
  @main_locals _ Demo.sound default_args = Ok Demo.sound_locals /\
  forecast_file_path Demo.sound_locals
    = "./experimental_files/fc_nl_datPJM_YT2_CW1456.csv"%string /\
  (@main_body _ Demo.sound default_args entry).1 = Ok () /\
  writes (@main _ Demo.sound default_args init_world).2 = [(2, 0); (2, 1)] /\
  files (@main _ Demo.sound default_args init_world).2 = [].
Proof. repeat split; vm_compute; reflexivity. Qed.

(** * Further properties of the run *)

(** ** [index[::24]] and [reshape(-1, 24)] *)

Lemma length_step_from {A} (l : list A) s :
  s < 24 -> length (step_from s l) = (length l + 23 - s) / 24.
Proof.
  revert s. induction l as [|x l IH]; intros s Hs.
  - cbn [step_from length]. symmetry. apply Nat.div_small. lia.
  - cbn [step_from length]. destruct s as [|s].
    + cbn [length]. rewrite IH by lia.
      replace (S (length l) + 23 - 0) with (length l + 23 - 23 + 1 * 24) by lia.
      by rewrite Nat.div_add, Nat.add_1_r by lia.
    + by rewrite IH by lia.
Qed.

Lemma lookup_step_from {A} (l : list A) s k :
  step_from s l !! k = l !! (s + 24 * k).
Proof.
  revert s k. induction l as [|x l IH]; intros s k; [done |].
  cbn [step_from]. destruct s as [|s].
  - destruct k as [|k]; [done |].
    cbn [lookup list_lookup]. rewrite IH.
    replace (0 + 24 * S k) with (S (23 + 24 * k)) by lia. done.
  - rewrite IH. done.
Qed.

Lemma length_every_24th {A} (l : list A) :
  length l mod 24 = 0 -> length (every_24th l) = length l / 24.
Proof.
  intros Hmod. unfold every_24th. rewrite length_step_from by lia.
  rewrite Nat.sub_0_r.
  rewrite (Nat.div_mod_eq (length l) 24) at 1. rewrite Hmod, Nat.add_0_r.
  rewrite Nat.mul_comm, Nat.div_add_l by lia.
  rewrite (Nat.div_small 23) by lia. lia.
Qed.

Lemma lookup_map_seq {B} (f : nat -> B) n k :
  k < n -> map f (seq 0 n) !! k = Some (f k).
Proof.
  intros Hk.
  revert f k Hk. induction n as [|n IH]; intros f k Hk; [lia |].
  rewrite seq_S, map_app. cbn [map Nat.add].
  destruct (decide (k < n)) as [Hlt | Hge].
  - rewrite lookup_app_l by (rewrite length_map, length_seq; lia). by apply IH.
  - assert (k = n) as -> by lia.
    rewrite lookup_app_r by (rewrite length_map, length_seq; lia).
    rewrite length_map, length_seq, Nat.sub_diag. done.
Qed.

(** [reshape(-1, 24)] succeeds on whole days only, and then cuts its
    argument into consecutive rows of 24 values. *)
Lemma reshape_24_rows {A} (l : list A) v :
  reshape_24 l = Ok v ->
  length l mod 24 = 0 /\ length v = length l / 24 /\
  forall k, k < length l / 24 ->
    v !! k = Some (islice (24 * k) (24 * k + 24) l) /\
    length (islice (24 * k) (24 * k + 24) l) = 24.
Proof.
  unfold reshape_24. destruct (Nat.eqb_spec (length l mod 24) 0) as [Hmod|]; [| done].
  intros [= <-]. split; [done |]. split; [by rewrite length_map, length_seq |].
  intros k Hk. rewrite lookup_map_seq by done. unfold islice.
  replace (24 * k + 24 - 24 * k) with 24 by lia. split; [done |].
  rewrite length_take, length_drop.
  pose proof (Nat.div_mod_eq (length l) 24). nia.
Qed.

Lemma reshape_24_whole {A} (l : list A) :
  length l mod 24 = 0 -> exists v, reshape_24 l = Ok v.
Proof.
  intros Hmod. unfold reshape_24. rewrite Hmod. by eexists.
Qed.

(** ** Shapes of rows and arrays *)

Section Shapes.
Context `{Numpy}.

Lemma broadcast_row_length n (v row : list float) :
  broadcast_row n v = Ok row -> length row = n.
Proof.
  unfold broadcast_row. destruct (Nat.eqb_spec (length v) n) as [<- | _];
    [by intros [= <-] |].
  destruct v as [|x [|y v]]; [done | | done]. intros [= <-].
  apply length_replicate.
Qed.

Lemma length_concat_rows n (rows : list (list float)) :
  Forall (fun r => length r = n) rows -> length (concat rows) = n * length rows.
Proof.
  induction 1 as [|r rows Hr _ IH]; cbn [concat length]; [lia |].
  rewrite length_app, IH, Hr. lia.
Qed.

(** [squeeze] keeps the number of cells. *)
Lemma np_size_squeeze n (rows : list (list float)) :
  Forall (fun r => length r = n) rows ->
  np_size (squeeze (Arr2 rows)) = n * length rows.
Proof.
  intros Hrows. destruct rows as [|r [|r' rows]]; cbn [squeeze np_size].
  - cbn. lia.
  - inversion Hrows; subst. cbn. lia.
  - by apply length_concat_rows.
Qed.

End Shapes.

(** ** The ways a day can end *)

Section DayOutcome.
Context `{Epftoolbox}.

Ltac wsimpl :=
  cbn [heap calls writes log stdout files
       add_log add_stdout add_call add_writes set_heap fst snd].

(** Assignment of a row at a label that the index carries once. *)
Lemma loc_assign_row_unique (f : DayFrame) date p (v : list float) :
  NoDup (d_index f) -> d_index f !! p = Some date ->
  loc_assign_row f date v
  = match broadcast_row (length (d_columns f)) v with
    | Ok row => Ok ({| d_index := d_index f; d_columns := d_columns f;
                       d_values := <[p := row]> (d_values f) |}, [p])
    | Raise e => Raise e
    end.
Proof.
  intros Hnd Hp. unfold loc_assign_row.
  rewrite (get_loc_unique _ _ _ Hnd Hp). cbn [mbind result_bind].
  by destruct (broadcast_row _ v).
Qed.

(** A day ends in one of five ways: the window could not be built; the
    model raised; its answer was refused by the row; the metrics raised
    after the row was assigned; or the day completed. The call, the row
    assignment and the printed line come in that order, each at most
    once. *)
Lemma process_date_outcome args l train test rv date p w f :
  day_inv l train test rv w ->
  NoDup (forecast_dates l) -> forecast_dates l !! p = Some date ->
  heap w !! forecast l = Some (PyDays f) ->
  let out := process_date args (df_train l) (df_test l) (forecast l)
               (real_values l) (model l) date w in
  (exists e, window_value train test date = Raise e /\ fst out = Raise e /\
     day_left w (snd out) [] [] [] /\
     heap (snd out) !! forecast l = Some (PyDays f)) \/
  (exists win m c,
     window_value train test date = Ok win /\
     heap w !! model l = Some (PyModel m) /\
     c = {| c_df := win; c_next_day_date := date;
            c_calibration_window := calibration_window args;
            c_result :=
              snd (recalibrate_and_forecast_next_day m win date
                     (calibration_window args)) |} /\
     ((exists e, c_result c = Raise e /\ fst out = Raise e /\
         day_left w (snd out) [c] [] [] /\
         heap (snd out) !! forecast l = Some (PyDays f)) \/
      (exists yp e, c_result c = Ok yp /\ broadcast_row 24 yp = Raise e /\
         fst out = Raise e /\ day_left w (snd out) [c] [] [] /\
         heap (snd out) !! forecast l = Some (PyDays f)) \/
      (exists yp row f',
         c_result c = Ok yp /\ broadcast_row 24 yp = Ok row /\
         f' = {| d_index := d_index f; d_columns := d_columns f;
                 d_values := <[p := row]> (d_values f) |} /\
         heap (snd out) !! forecast l = Some (PyDays f') /\
         ((exists e, progress_value f' rv date = Raise e /\ fst out = Raise e /\
             day_left w (snd out) [c] [(forecast l, p)] []) \/
          (exists msg, progress_value f' rv date = Ok msg /\ fst out = Ok () /\
             day_left w (snd out) [c] [(forecast l, p)] [msg]))))).
Proof.
  intros [Htr Hte Hrv Hri (f0 & Hfc & Hidx & Hcol & Hlen) [m Hmo] Hne] Hnd Hp Hf.
  rewrite Hf in Hfc. injection Hfc as <-.
  assert (Hmf : model l <> forecast l) by (intros E; congruence).
  erewrite process_date_eq; [| eassumption ..].
  unfold day_outcome, window_value, day_left. cbv zeta.
  destruct (loc_upto test (date + 23)) as [upto|e]; cbn [mbind result_bind].
  2:{ left. exists e. wsimpl. rewrite !app_nil_r. by repeat split. }
  destruct (loc_assign_price _ _ _ _) as [win|e].
  2:{ left. exists e. wsimpl. rewrite !app_nil_r.
      repeat (split; [done |]). by apply heap_old. }
  right. exists win, m. eexists. split; [done |]. split; [done |].
  split; [reflexivity |]. cbn [c_result].
  destruct (recalibrate_and_forecast_next_day m win date _) as [m' [yp|e]];
    cbn [snd fst].
  2:{ left. exists e. wsimpl. rewrite !app_nil_r.
      repeat (split; [done |]). apply heap_other; [by apply heap_old | done]. }
  right. rewrite (loc_assign_row_unique f date p) by (by rewrite ?Hidx).
  rewrite Hcol. destruct (broadcast_row 24 yp) as [row|e] eqn:Hb.
  2:{ left. exists yp, e. wsimpl. rewrite !app_nil_r.
      repeat (split; [done |]). apply heap_other; [by apply heap_old | done]. }
  right. eexists yp, row, _. split; [done |]. split; [done |].
  split; [reflexivity |].
  destruct (progress_value _ rv date) as [msg|e] eqn:Hmsg; wsimpl.
  - split; [eapply heap_same, heap_other; [by apply heap_old | done] |].
    right. by exists msg.
  - split; [eapply heap_same, heap_other; [by apply heap_old | done] |].
    left. exists e. by rewrite !app_nil_r.
Qed.

(** When no label is repeated, the two frames have as many rows, of 24
    cells each, and the metrics accept arrays of the same size, the
    progress line of a day of the index can be computed. *)
Lemma progress_value_total (f rv : DayFrame) date k :
  NoDup (d_index f) -> d_index rv = d_index f ->
  d_index f !! k = Some date ->
  length (d_values rv) = length (d_values f) ->
  Forall (fun r => length r = 24) (d_values f) ->
  Forall (fun r => length r = 24) (d_values rv) ->
  (forall a b, np_size a = np_size b -> exists v, MAE a b = Ok v) ->
  (forall a b, np_size a = np_size b -> exists v, sMAPE a b = Ok v) ->
  exists msg, progress_value f rv date = Ok msg.
Proof.
  intros Hnd Hri Hk Hlen Hf Hrv Hmae Hsmape.
  unfold progress_value, loc_upto_values.
  rewrite Hri, (slice_locs_upto_unique _ _ _ Hnd Hk).
  cbn [mbind result_bind].
  assert (Hsize : np_size (squeeze (Arr2 (islice 0 (S k) (d_values f))))
                  = np_size (Arr2 (islice 0 (S k) (d_values rv)))).
  { rewrite (np_size_squeeze 24) by (by apply Forall_take, Forall_drop).
    cbn [np_size].
    rewrite (length_concat_rows 24) by (by apply Forall_take, Forall_drop).
    unfold islice. rewrite !length_take, !length_drop. lia. }
  destruct (Hmae _ _ Hsize) as [mv ->]. destruct (Hsmape _ _ Hsize) as [sv ->].
  by eexists.
Qed.

(** A day hands records to [logging.info] only. *)
Lemma process_date_log args l train test rv date w :
  day_inv l train test rv w ->
  Forall (fun r => is_info r = true) (log w) ->
  Forall (fun r => is_info r = true)
    (log (process_date args (df_train l) (df_test l) (forecast l)
            (real_values l) (model l) date w).2).
Proof.
  intros [Htr Hte Hrv Hri (f & Hfc & _) [m Hmo] Hne] Hlog.
  erewrite process_date_eq; [| eassumption ..]. unfold day_outcome.
  destruct (loc_upto _ _); [| wsimpl; by rewrite !Forall_app, !Forall_singleton].
  destruct (loc_assign_price _ _ _ _);
    [| wsimpl; by rewrite !Forall_app, !Forall_singleton].
  destruct (recalibrate_and_forecast_next_day _ _ _ _) as [m' [yp|]];
    [| wsimpl; by rewrite !Forall_app, !Forall_singleton].
  destruct (loc_assign_row _ _ _) as [[f' ps]|];
    [| wsimpl; by rewrite !Forall_app, !Forall_singleton].
  destruct (progress_value _ _ _);
    wsimpl; by rewrite !Forall_app, !Forall_singleton.
Qed.

End DayOutcome.

(** ** The loop, day after day *)

Section Lockstep.
Context `{Epftoolbox}.

Lemma progress_value_date (f rv : DayFrame) date msg :
  progress_value f rv date = Ok msg -> progress_date msg = Some date.
Proof.
  unfold progress_value.
  destruct (loc_upto_values f date); cbn [mbind result_bind]; [| done].
  destruct (loc_upto_values rv date); cbn [mbind result_bind]; [| done].
  destruct (MAE _ _); cbn [mbind result_bind]; [| done].
  destruct (sMAPE _ _); cbn [mbind result_bind]; [| done].
  by intros [= <-].
Qed.

Lemma in_step_calls_length l nc nw np w :
  in_step l nc nw np w -> nc <= length (forecast_dates l) ->
  length (calls w) = nc.
Proof.
  intros [Hc _ _ _] Hle. apply (f_equal length) in Hc.
  rewrite length_map, length_take in Hc. lia.
Qed.

(** A day that stopped before calling the model. *)
Lemma in_step_same l p w w1 f :
  in_step l p p p w ->
  day_left w w1 [] [] [] ->
  heap w !! forecast l = Some (PyDays f) ->
  heap w1 !! forecast l = Some (PyDays f) ->
  in_step l p p p w1.
Proof.
  intros [Hc Hw Ho Hr] (Hc1 & Hw1 & Ho1) Hf Hf1.
  rewrite app_nil_r in Hc1, Hw1, Ho1.
  constructor; rewrite ?Hc1, ?Hw1, ?Ho1; try done.
  intros i Hi. destruct (Hr i Hi) as (c & yp & row & f0 & ? & ? & ? & Hf0 & ?).
  rewrite Hf in Hf0. injection Hf0 as <-. by exists c, yp, row, f.
Qed.

(** A day that called the model and stopped before assigning its row. *)
Lemma in_step_call l p w w1 c d f :
  in_step l p p p w ->
  forecast_dates l !! p = Some d -> c_next_day_date c = d ->
  day_left w w1 [c] [] [] ->
  heap w !! forecast l = Some (PyDays f) ->
  heap w1 !! forecast l = Some (PyDays f) ->
  in_step l (S p) p p w1.
Proof.
  intros [Hc Hw Ho Hr] Hp Hd (Hc1 & Hw1 & Ho1) Hf Hf1.
  rewrite app_nil_r in Hw1, Ho1.
  constructor; rewrite ?Hc1, ?Hw1, ?Ho1; try done.
  - rewrite map_app, Hc, (take_S_r _ _ _ Hp). cbn [map]. by rewrite Hd.
  - intros i Hi. destruct (Hr i Hi) as (c0 & yp & row & f0 & Hci & ? & ? & Hf0 & ?).
    rewrite Hf in Hf0. injection Hf0 as <-. exists c0, yp, row, f.
    split; [by apply lookup_app_l_Some | done].
Qed.

(** A day that assigned its row, with or without printing its line. *)
Lemma in_step_row l p np w w1 c d f yp row ms :
  in_step l p p p w ->
  forecast_dates l !! p = Some d -> c_next_day_date c = d ->
  c_result c = Ok yp -> broadcast_row 24 yp = Ok row ->
  day_left w w1 [c] [(forecast l, p)] ms ->
  map progress_date (stdout w ++ ms) = map Some (take np (forecast_dates l)) ->
  heap w !! forecast l = Some (PyDays f) ->
  p < length (d_values f) ->
  heap w1 !! forecast l
    = Some (PyDays {| d_index := d_index f; d_columns := d_columns f;
                      d_values := <[p := row]> (d_values f) |}) ->
  in_step l (S p) (S p) np w1.
Proof.
  intros Hstep Hp Hd Hres Hb (Hc1 & Hw1 & Ho1) Hout Hf Hlt Hf1.
  pose proof (in_step_calls_length _ _ _ _ _ Hstep
                (Nat.lt_le_incl _ _ (lookup_lt_Some _ _ _ Hp))) as Hlen.
  destruct Hstep as [Hc Hw Ho Hr].
  constructor; rewrite ?Hc1, ?Hw1, ?Ho1; try done.
  - rewrite map_app, Hc, (take_S_r _ _ _ Hp). cbn [map]. by rewrite Hd.
  - rewrite Hw, seq_S, map_app. done.
  - intros i Hi. destruct (decide (i = p)) as [-> | Hne].
    + exists c, yp, row. eexists. split; [| split; [done | split; [done |]]].
      * rewrite <- Hlen. by apply list_lookup_middle.
      * split; [exact Hf1 |]. cbn [d_values]. by apply list_lookup_insert_eq.
    + destruct (Hr i ltac:(lia)) as (c0 & yp0 & row0 & f0 & Hci & ? & ? & Hf0 & ?).
      rewrite Hf in Hf0. injection Hf0 as <-. exists c0, yp0, row0. eexists.
      split; [by apply lookup_app_l_Some |]. split; [done |]. split; [done |].
      split; [exact Hf1 |]. cbn [d_values]. by rewrite list_lookup_insert_ne.
Qed.

(** The loop in lockstep. From a state in which the days before have all
    completed, after any number of further iterations the calls, the row
    assignments and the printed lines are those of three prefixes of the
    test days that differ by at most one day, the day on which the loop
    stopped; when the iterations completed the three prefixes are the days
    visited. *)
Lemma main_loop_lockstep args l train test rv rest :
  forall pre w k,
  forecast_dates l = pre ++ rest ->
  NoDup (forecast_dates l) ->
  day_inv l train test rv w ->
  in_step l (length pre) (length pre) (length pre) w ->
  let out := main_loop args l (take k rest) w in
  exists nc nw np,
    in_step l nc nw np out.2 /\
    np <= nw /\ nw <= nc /\ nc <= S np /\
    length pre <= np /\ nc <= length pre + k /\
    nc <= length (forecast_dates l) /\
    (out.1 = Ok () ->
       np = length pre + min k (length rest) /\ nw = np /\ nc = np) /\
    (out.1 <> Ok () -> np < length pre + min k (length rest)).
Proof.
  induction rest as [|d rest IH]; intros pre w k Hdates Hnd Hinv Hstep out.
  - exists (length pre), (length pre), (length pre). subst out.
    rewrite take_nil. cbn [main_loop for_each mret M_ret fst snd].
    rewrite Hdates, length_app, Nat.min_0_r. split_and!; auto; try lia. done.
  - destruct k as [|k].
    { exists (length pre), (length pre), (length pre). subst out.
      cbn [take main_loop for_each mret M_ret fst snd].
      rewrite Hdates, length_app. split_and!; auto; try lia. done. }
    subst out. cbn [take]. rewrite main_loop_cons.
    assert (Hp : forecast_dates l !! length pre = Some d).
    { rewrite Hdates. by apply list_lookup_middle. }
    assert (Hn : length (forecast_dates l) = length pre + S (length rest)).
    { rewrite Hdates, length_app. done. }
    destruct (inv_forecast _ _ _ _ _ Hinv) as (f & Hf & Hidx & Hcol & Hlen).
    pose proof (process_date_outcome args l train test rv d (length pre) w f
                  Hinv Hnd Hp Hf) as Hday.
    pose proof (process_date_inv args l train test rv d w Hinv
                  ltac:(by eapply list_elem_of_lookup_2)) as Hinv1.
    cbv zeta in Hday.
    destruct (process_date _ _ _ _ _ _ _ _) as [r1 w1].
    cbn [fst snd length] in *.
    destruct Hday as [(e & _ & -> & Hleft & Hf1) |
      (win & m & c & _ & _ & Hc & [(e & Hres & -> & Hleft & Hf1) |
        [(yp & e & Hres & Hb & -> & Hleft & Hf1) |
         (yp & row & f' & Hres & Hb & -> & Hf1 &
            [(e & _ & -> & Hleft) | (msg & Hmsg & -> & Hleft)])]])].
    + exists (length pre), (length pre), (length pre). cbn [fst snd].
      split; [by eapply in_step_same |]. split_and!; try lia; done.
    + exists (S (length pre)), (length pre), (length pre). cbn [fst snd].
      split; [eapply in_step_call; eauto; by rewrite Hc |].
      split_and!; try lia; done.
    + exists (S (length pre)), (length pre), (length pre). cbn [fst snd].
      split; [eapply in_step_call; eauto; by rewrite Hc |].
      split_and!; try lia; done.
    + exists (S (length pre)), (S (length pre)), (length pre). cbn [fst snd].
      split.
      { eapply in_step_row; eauto; [by rewrite Hc | | lia].
        rewrite app_nil_r. apply Hstep. }
      split_and!; try lia; done.
    + assert (Hstep1 : in_step l (length (pre ++ [d])) (length (pre ++ [d]))
                         (length (pre ++ [d])) w1).
      { rewrite length_app. cbn [length]. rewrite Nat.add_1_r.
        eapply in_step_row; eauto; [by rewrite Hc | | lia].
        rewrite map_app, (step_lines _ _ _ _ _ Hstep), (take_S_r _ _ _ Hp),
          map_app.
        cbn [map]. by rewrite (progress_value_date _ _ _ _ Hmsg). }
      destruct (IH (pre ++ [d]) w1 k)
        as (nc & nw & np & Hs & H1 & H2 & H3 & H4 & H5 & H6 & H7 & H8);
        [by rewrite <- app_assoc | done..|].
      rewrite length_app in *. cbn [length] in *.
      exists nc, nw, np. split; [done |]. split_and!; try lia.
      * intros Hr. specialize (H7 Hr). lia.
      * intros Hr. specialize (H8 Hr). lia.
Qed.

End Lockstep.

(** ** A model that raises, collaborators that never fail *)

Section Collaborators.
Context `{Epftoolbox}.

Ltac wsimpl :=
  cbn [heap calls writes log stdout files
       add_log add_stdout add_call add_writes set_heap fst snd].

(** A day that completed had an answer from the model; an exception of
    the model ends the day at once, with no row assigned and no line
    printed. *)
Lemma process_date_call_raised args l train test rv date w :
  day_inv l train test rv w ->
  let out := process_date args (df_train l) (df_test l) (forecast l)
               (real_values l) (model l) date w in
  (calls (snd out) = calls w /\ exists e, fst out = Raise e) \/
  (exists c, calls (snd out) = calls w ++ [c] /\
     (fst out = Ok () -> exists yp, c_result c = Ok yp) /\
     (forall e, c_result c = Raise e ->
        fst out = Raise e /\
        heap (snd out) !! forecast l = heap w !! forecast l /\
        writes (snd out) = writes w /\ stdout (snd out) = stdout w)).
Proof.
  intros [Htr Hte Hrv Hri (f & Hfc & Hidx & Hcol & Hlen) [m Hmo] Hne].
  assert (Hmf : model l <> forecast l) by (intros E; congruence).
  erewrite process_date_eq; [| eassumption ..]. unfold day_outcome.
  destruct (loc_upto _ _); [| left; wsimpl; eauto].
  destruct (loc_assign_price _ _ _ _); [| left; wsimpl; eauto].
  destruct (recalibrate_and_forecast_next_day _ _ _ _) as [m' [yp|e]].
  - right. destruct (loc_assign_row _ _ _) as [[f' ps]|];
      [destruct (progress_value _ _ _) |]; wsimpl;
      (eexists; split; [reflexivity |]; cbn [c_result]; split; [eauto | done]).
  - right. wsimpl. eexists. split; [reflexivity |]. cbn [c_result].
    split; [done |]. intros e' [= <-]. split; [done |]. split; [| done].
    rewrite list_lookup_insert_ne by done. by rewrite (heap_old _ _ _ _ Hfc).
Qed.

(** The call on which the model raised is the last call of the loop: the
    days before it completed, the loop stops on the exception of the
    model, and the forecast frame, the assignments and the printed lines
    are those of the days before. *)
Lemma main_loop_model_raised args l train test rv dates :
  forall w k c e,
  dates ⊆ forecast_dates l ->
  day_inv l train test rv w ->
  calls (main_loop args l dates w).2 !! (length (calls w) + k) = Some c ->
  c_result c = Raise e ->
  let out := main_loop args l dates w in
  let outk := main_loop args l (take k dates) w in
  outk.1 = Ok () /\
  out.1 = Raise e /\
  length (calls out.2) = length (calls w) + S k /\
  heap out.2 !! forecast l = heap outk.2 !! forecast l /\
  writes out.2 = writes outk.2 /\
  stdout out.2 = stdout outk.2.
Proof.
  induction dates as [|d dates IH]; intros w k c e Hsub Hinv Hc Hres.
  - cbn in Hc. apply lookup_lt_Some in Hc. lia.
  - assert (Hsub' : dates ⊆ forecast_dates l).
    { intros x Hx. apply Hsub. by right. }
    pose proof (process_date_call_raised args l train test rv d w Hinv) as Hday.
    pose proof (process_date_inv args l train test rv d w Hinv
                  ltac:(apply Hsub; left)) as Hinv1.
    pose proof (main_loop_calls_prefix args l train test rv dates) as Hpre.
    cbv zeta in Hday. revert Hc. cbv zeta.
    destruct k as [|k]; cbn [take]; rewrite !main_loop_cons.
    all: destruct (process_date _ _ _ _ _ _ _ _) as [r1 w1] eqn:Hpd;
      cbn [fst snd] in *.
    all: destruct Hday as [(Hc1 & e1 & ->) | (c1 & Hc1 & Hok & Hbad)].
    + cbn [snd]. rewrite Hc1. intros Hc%lookup_lt_Some. lia.
    + destruct r1 as [[]|e1]; cbn [fst snd].
      * intros Hc. exfalso. destruct (Hok eq_refl) as [yp Hyp].
        specialize (Hpre w1 Hsub' Hinv1).
        eapply prefix_lookup_Some in Hpre as Hc';
          [| rewrite Hc1; by apply list_lookup_middle].
        rewrite Nat.add_0_r in Hc. congruence.
      * rewrite Hc1, Nat.add_0_r. rewrite list_lookup_middle by done.
        intros [= <-]. destruct (Hbad e Hres) as ([= ->] & Hh & Hw & Ho).
        rewrite length_app. by cbn.
    + cbn [snd]. rewrite Hc1. intros Hc%lookup_lt_Some. lia.
    + destruct r1 as [[]|e1]; cbn [fst snd].
      * intros Hc.
        destruct (IH w1 k c e Hsub' Hinv1) as (H1 & H2 & H3 & H4 & H5 & H6);
          [| done |].
        { rewrite Hc1, length_app. cbn [length].
          by replace (length (calls w) + 1 + k)
               with (length (calls w) + S k) by lia. }
        rewrite Hc1, length_app in H3. cbn [length] in H3.
        split_and!; try done. lia.
      * rewrite Hc1. intros Hc%lookup_lt_Some. rewrite length_app in Hc.
        cbn [length] in Hc. lia.
Qed.

(** With a chronological split, dates without repetition, real values
    of 24 cells a day, a model that always answers 24 values and metrics
    that accept arrays of the same size, every iteration of the loop
    completes. *)
Lemma main_loop_completes args l train test rv rest :
  is_monotonic_increasing (map ts (train ++ test)) = true ->
  NoDup (forecast_dates l) ->
  length (d_values rv) = length (forecast_dates l) ->
  Forall (fun r => length r = 24) (d_values rv) ->
  (forall m d date cw, exists yp,
     snd (recalibrate_and_forecast_next_day m d date cw) = Ok yp /\
     length yp = 24) ->
  (forall a b, np_size a = np_size b -> exists v, MAE a b = Ok v) ->
  (forall a b, np_size a = np_size b -> exists v, sMAPE a b = Ok v) ->
  forall pre w,
  forecast_dates l = pre ++ rest ->
  day_inv l train test rv w ->
  (forall f, heap w !! forecast l = Some (PyDays f) ->
     Forall (fun r => length r = 24) (d_values f)) ->
  (main_loop args l rest w).1 = Ok ().
Proof.
  intros Hm Hnd Hrvlen Hrv Hmodel Hmae Hsmape.
  induction rest as [|d rest IH]; intros pre w Hdates Hinv Hrows; [done |].
  rewrite main_loop_cons.
  assert (Hp : forecast_dates l !! length pre = Some d).
  { rewrite Hdates. by apply list_lookup_middle. }
  destruct (inv_forecast _ _ _ _ _ Hinv) as (f & Hf & Hidx & Hcol & Hlen).
  pose proof (process_date_outcome args l train test rv d (length pre) w f
                Hinv Hnd Hp Hf) as Hday.
  pose proof (process_date_inv args l train test rv d w Hinv
                ltac:(by eapply list_elem_of_lookup_2)) as Hinv1.
  cbv zeta in Hday. rewrite window_value_sorted in Hday by done.
  destruct (process_date _ _ _ _ _ _ _ _) as [r1 w1]. cbn [fst snd] in *.
  destruct Hday as [(e & [=] & _) |
    (win & m & c & _ & _ & Hc & Hcases)].
  destruct (Hmodel m win d (calibration_window args)) as (yp & Hyp & H24).
  assert (Hres : c_result c = Ok yp) by (by rewrite Hc).
  assert (Hb : broadcast_row 24 yp = Ok yp).
  { unfold broadcast_row. by rewrite H24. }
  destruct Hcases as [(e & Hres' & _) |
    [(yp' & e & Hres' & Hb' & _) |
     (yp' & row & f' & Hres' & Hb' & -> & Hf1 &
        [(e & Hmsg & _) | (msg & _ & -> & _)])]].
  - congruence.
  - rewrite Hres in Hres'. injection Hres' as <-. congruence.
  - exfalso.
    destruct (progress_value_total
                {| d_index := d_index f; d_columns := d_columns f;
                   d_values := <[length pre := row]> (d_values f) |}
                rv d (length pre)) as [msg Hmsg'];
      cbn [d_index d_values]; rewrite ?Hidx, ?length_insert; try done.
    + apply (inv_real_index _ _ _ _ _ Hinv).
    + congruence.
    + apply Forall_insert; [by apply Hrows |].
      by apply (broadcast_row_length 24 yp').
    + congruence.
  - apply (IH (pre ++ [d])); [by rewrite <- app_assoc | done |].
    intros f1 Hf1'. rewrite Hf1 in Hf1'. injection Hf1' as <-.
    cbn [d_values]. apply Forall_insert; [by apply Hrows |].
    by apply (broadcast_row_length 24 yp').
Qed.

End Collaborators.

(** ** The lines before the loop *)

Section Setup.
Context `{Epftoolbox}.

Ltac srun :=
  repeat progress
    (cbv beta iota;
     cbn [heap calls writes log stdout files add_log add_stdout add_call
          add_writes set_heap fst snd app length lookup list_lookup]).

Ltac setup_unfold :=
  unfold main_setup, setup_logging, log_system_info, load_data,
    create_forecast_file_path, create_forecast_file_name, log_function_info,
    entry, init_world;
  cbn [for_each];
  unfold mbind, mret, M_bind, M_ret, logging_info, print, lift, alloc,
    store, read_frame, read_days, read_model;
  srun.

Lemma lookup_map {A B} (f : A -> B) (l : list A) i :
  map f l !! i = f <$> l !! i.
Proof.
  revert i. induction l as [|x l IH]; intros [|i]; cbn; auto.
Qed.

Lemma islice_map {A B} (f : A -> B) (l : list A) lo hi :
  islice lo hi (map f l) = map f (islice lo hi l).
Proof. unfold islice. by rewrite skipn_map, firstn_map. Qed.

(** When the data source fails, [load_data] lets its exception through:
    nothing is allocated and the records handed to [logging] stop at the
    start of [load_data]. *)
Lemma main_setup_no_data args e :
  read_args args = Raise e ->
  exists w0, main_setup args entry = (Raise e, w0) /\
    heap w0 = [] /\ calls w0 = [] /\ writes w0 = [] /\ stdout w0 = [] /\
    files w0 = [] /\ log w0 = take 16 (setup_log args).
Proof.
  intros Hread. setup_unfold. rewrite Hread. srun.
  eexists. split; [reflexivity |]. by repeat split.
Qed.

(** The lines before the loop hand records to [logging.info] only. *)
Lemma main_setup_log args :
  Forall (fun r => is_info r = true) (log (main_setup args entry).2).
Proof.
  setup_unfold.
  destruct (read_args args) as [[train test]|e]; srun;
    [| by repeat constructor].
  destruct (reshape_24 (map Price test)) as [values|e]; srun;
    [| by repeat constructor].
  cbn [empty_days d_index d_columns].
  destruct (days_of_values values _ _) as [rv|e]; srun; by repeat constructor.
Qed.

(** When the data source succeeds on a whole number of test days, the
    lines before the loop succeed. *)
Lemma main_setup_whole_days args (train test : DataFrame) :
  read_args args = Ok (train, test) ->
  length test mod 24 = 0 ->
  exists l, main_locals args = Ok l.
Proof.
  intros Hread Hmod. unfold main_locals.
  pose proof (main_setup_cases args) as Hs.
  destruct (main_setup args entry) as [[l|e] w0]; [by exists l |].
  exfalso. destruct Hs as (_ & _ & _ & _ & [Hread' | Hs]); [congruence |].
  destruct Hs as (train' & test' & Hread' & _ & Hs).
  rewrite Hread in Hread'. injection Hread' as <- <-.
  destruct (reshape_24_whole (map Price test)) as [v Hv];
    [by rewrite length_map |].
  destruct Hs as [Hre | (values & Hre & Hdays)]; [congruence |].
  rewrite Hv in Hre. injection Hre as <-.
  destruct (reshape_24_rows _ _ Hv) as (_ & Hlen & _).
  unfold days_of_values in Hdays.
  rewrite Hlen, length_every_24th, !length_map, Nat.eqb_refl in Hdays;
    [done | by rewrite length_map].
Qed.

End Setup.

(** ** Further theorems *)

Section Further.
Context `{Epftoolbox}.

Lemma main_start_in_step args l :
  main_locals args = Ok l -> in_step l 0 0 0 (main_start args).
Proof.
  intros Hl.
  destruct (main_setup_ok args l Hl)
    as (train & test & rv & _ & _ & _ & _ & _ & Hc & Hw & Ho & _).
  constructor; rewrite ?Hc, ?Hw, ?Ho; try done. intros i Hi. lia.
Qed.

(** X1. Lockstep and order. When the test days carry no repeated date,
    after any number of iterations of the loop the model has been called
    once for each day of a prefix of the test days, in order; the rows
    assigned and the progress lines printed are those of two prefixes
    too; the three prefixes differ by at most one day, the day on which
    the loop stopped, and are the days visited when every iteration
    completed. *)
Theorem calls_rows_lines_in_lockstep args l k :
  main_locals args = Ok l ->
  NoDup (forecast_dates l) ->
  exists nc nw np,
    map c_next_day_date (calls (main_upto args k entry).2)
      = take nc (forecast_dates l) /\
    writes (main_upto args k entry).2 = map (pair (forecast l)) (seq 0 nw) /\
    map progress_date (stdout (main_upto args k entry).2)
      = map Some (take np (forecast_dates l)) /\
    np <= nw /\ nw <= nc /\ nc <= S np /\ nc <= k /\
    nc <= length (forecast_dates l) /\
    ((main_upto args k entry).1 = Ok () ->
       np = min k (length (forecast_dates l)) /\ nw = np /\ nc = np) /\
    ((main_upto args k entry).1 <> Ok () ->
       np < min k (length (forecast_dates l))).
Proof.
  intros Hl Hnd. rewrite (main_upto_ok args l k Hl).
  destruct (main_setup_ok args l Hl)
    as (train & test & rv & _ & _ & _ & Hinv & _).
  destruct (main_loop_lockstep args l train test rv (forecast_dates l) []
              (main_start args) k eq_refl Hnd Hinv
              (main_start_in_step args l Hl))
    as (nc & nw & np & [Hc Hw Ho _] & H1 & H2 & H3 & H4 & H5 & H6 & H7 & H8).
  cbn [length Nat.add] in *. exists nc, nw, np. by split_and!.
Qed.

(** X2. The forecast frame holds the answers of the model. When the test
    days carry no repeated date, after any number of iterations every
    row that was assigned, say row [i], holds the answer the model gave
    at its [i]-th call, which is its call for the [i]-th test day; an
    answer of 24 values is stored as it is. *)
Theorem rows_hold_answers args l k i :
  main_locals args = Ok l ->
  NoDup (forecast_dates l) ->
  (forecast l, i) ∈ writes (main_upto args k entry).2 ->
  exists c yp row f,
    calls (main_upto args k entry).2 !! i = Some c /\
    forecast_dates l !! i = Some (c_next_day_date c) /\
    c_result c = Ok yp /\
    broadcast_row 24 yp = Ok row /\
    (length yp = 24 -> row = yp) /\
    heap (main_upto args k entry).2 !! forecast l = Some (PyDays f) /\
    d_values f !! i = Some row.
Proof.
  intros Hl Hnd. rewrite (main_upto_ok args l k Hl).
  destruct (main_setup_ok args l Hl)
    as (train & test & rv & _ & _ & _ & Hinv & _).
  destruct (main_loop_lockstep args l train test rv (forecast_dates l) []
              (main_start args) k eq_refl Hnd Hinv
              (main_start_in_step args l Hl))
    as (nc & nw & np & [Hc Hw Ho Hr] & H1 & H2 & _).
  rewrite Hw. intros Hi. apply elem_of_map in Hi as (j & [= <-] & Hj).
  apply elem_of_seq in Hj.
  destruct (Hr i ltac:(lia)) as (c & yp & row & f & Hci & Hres & Hb & Hf & Hrow).
  exists c, yp, row, f. split; [done |]. split.
  { apply (f_equal (fun x => x !! i)) in Hc.
    rewrite lookup_map, Hci in Hc. cbn in Hc.
    rewrite lookup_take_lt in Hc by lia. done. }
  split; [done |]. split; [done |]. split; [| done].
  intros H24. unfold broadcast_row in Hb. rewrite H24 in Hb. cbn in Hb.
  congruence.
Qed.

End Further.

(** ** The records of the days *)

Section Records.
Context `{Epftoolbox}.

Ltac wsimpl :=
  cbn [heap calls writes log stdout files
       add_log add_stdout add_call add_writes set_heap fst snd].

Lemma day_records_take dates (lines : list message) k :
  length lines <= k ->
  day_records (take k dates) lines = day_records dates lines.
Proof.
  revert lines k. induction dates as [|d dates IH]; intros lines k Hk.
  - by rewrite take_nil.
  - destruct lines as [|m lines]; [by destruct k |].
    destruct k as [|k]; cbn [length] in Hk; [lia |].
    cbn [take day_records]. by rewrite IH by lia.
Qed.

(** A day that raised handed its start and its date to [logging.info];
    a day that completed handed its progress line and the end of
    [process_date] as well, and printed the line. *)
Lemma process_date_records args l train test rv date w :
  day_inv l train test rv w ->
  let out := process_date args (df_train l) (df_test l) (forecast l)
               (real_values l) (model l) date w in
  (exists e, out.1 = Raise e /\ stdout out.2 = stdout w /\
     log out.2 = log w ++ day_started date) \/
  (exists msg, out.1 = Ok () /\ stdout out.2 = stdout w ++ [msg] /\
     log out.2 = log w ++ day_records [date] [msg]).
Proof.
  intros [Htr Hte Hrv Hri (f & Hfc & _) [m Hmo] Hne].
  erewrite process_date_eq; [| eassumption ..].
  unfold day_outcome, day_started. cbv zeta.
  destruct (loc_upto _ _);
    [| left; wsimpl; eexists; by rewrite <- !app_assoc].
  destruct (loc_assign_price _ _ _ _);
    [| left; wsimpl; eexists; by rewrite <- !app_assoc].
  destruct (recalibrate_and_forecast_next_day _ _ _ _) as [m' [yp|]];
    [| left; wsimpl; eexists; by rewrite <- !app_assoc].
  destruct (loc_assign_row _ _ _) as [[f' ps]|];
    [| left; wsimpl; eexists; by rewrite <- !app_assoc].
  destruct (progress_value _ _ _) as [msg|];
    [| left; wsimpl; eexists; by rewrite <- !app_assoc].
  right. wsimpl. exists msg. by rewrite <- !app_assoc.
Qed.

(** The records the loop hands to [logging]: those of the days that
    completed, one group for each printed line, then the two records of
    the day that raised, if one did. *)
Lemma main_loop_records args l train test rv dates :
  forall w, dates ⊆ forecast_dates l -> day_inv l train test rv w ->
  let out := main_loop args l dates w in
  exists lines,
    stdout out.2 = stdout w ++ lines /\
    length lines <= length dates /\
    (out.1 = Ok () ->
       length lines = length dates /\
       log out.2 = log w ++ day_records dates lines) /\
    (forall e, out.1 = Raise e ->
       exists d, dates !! length lines = Some d /\
         log out.2 = log w ++ day_records dates lines ++ day_started d).
Proof.
  induction dates as [|d dates IH]; intros w Hsub Hinv.
  - exists []. cbn. rewrite !app_nil_r. by split_and!.
  - assert (Hsub' : dates ⊆ forecast_dates l).
    { intros x Hx. apply Hsub. by right. }
    pose proof (process_date_records args l train test rv d w Hinv) as Hday.
    pose proof (process_date_inv args l train test rv d w Hinv
                  ltac:(apply Hsub; left)) as Hinv1.
    cbv zeta in *. rewrite main_loop_cons.
    destruct (process_date _ _ _ _ _ _ _ _) as [r1 w1]. cbn [fst snd] in *.
    destruct Hday as [(e & -> & Ho & Hl) | (msg & -> & Ho & Hl)].
    + exists []. cbn [fst snd length]. rewrite app_nil_r.
      split; [done |]. split; [lia |]. split; [done |].
      intros e' _. exists d. split; [done |]. by rewrite Hl.
    + destruct (IH w1 Hsub' Hinv1) as (lines & Ho1 & Hlen & Hok & Hbad).
      exists (msg :: lines). cbn [length].
      split; [by rewrite Ho1, Ho, <- app_assoc |]. split; [lia |]. split.
      * intros Hr. destruct (Hok Hr) as [-> ->]. split; [done |].
        by rewrite Hl, <- app_assoc.
      * intros e Hr. destruct (Hbad e Hr) as (d' & Hd' & ->).
        exists d'. split; [done |]. by rewrite Hl, <- app_assoc.
Qed.

(** The loop hands records to [logging.info] only. *)
Lemma main_loop_log_info args l train test rv dates w :
  dates ⊆ forecast_dates l ->
  day_inv l train test rv w ->
  Forall (fun r => is_info r = true) (log w) ->
  Forall (fun r => is_info r = true) (log (main_loop args l dates w).2).
Proof.
  intros Hsub Hinv Hlog.
  cut (day_inv l train test rv (main_loop args l dates w).2 /\
       Forall (fun r => is_info r = true) (log (main_loop args l dates w).2)).
  { by intros [_ ?]. }
  unfold main_loop.
  apply (for_each_inv
           (fun w => day_inv l train test rv w /\
                     Forall (fun r => is_info r = true) (log w))); [| done].
  intros d w' Hd [Hinv' Hlog']. split.
  - apply process_date_inv; [done | by apply Hsub].
  - by apply (process_date_log args l train test rv).
Qed.

(** The [try] block of [main] hands records to [logging.info] only. *)
Lemma main_body_log_info args :
  Forall (fun r => is_info r = true) (log (main_body args entry).2).
Proof.
  pose proof (main_setup_log args) as Hlog.
  destruct (main_locals args) as [l|e] eqn:Hl.
  - destruct (main_setup_ok args l Hl)
      as (train & test & rv & _ & _ & _ & Hinv & _).
    pose proof (main_loop_log_info args l train test rv (forecast_dates l)
                  (main_start args) ltac:(done) Hinv Hlog) as Hloop.
    rewrite main_body_eq. unfold main_locals, main_start in *.
    destruct (main_setup args entry) as [[l'|e] w0]; [| done].
    cbn [fst snd] in *. injection Hl as ->.
    destruct (main_loop args l (forecast_dates l) w0) as [[[]|e] w1];
      cbn [snd] in *; [| done].
    cbn [log add_log]. by rewrite Forall_app, Forall_singleton.
  - by rewrite (main_body_fail args e Hl).
Qed.

(** What [main] leaves behind when the loop completed. *)
Lemma main_ok_world args l :
  main_locals args = Ok l ->
  let out := main_loop args l (forecast_dates l) (main_start args) in
  out.1 = Ok () ->
  (main_body args entry).1 = Ok () /\
  heap (main args init_world).2 = heap out.2 /\
  calls (main args init_world).2 = calls out.2 /\
  writes (main args init_world).2 = writes out.2 /\
  stdout (main args init_world).2 = stdout out.2 /\
  log (main args init_world).2
  = log out.2 ++ [Info Completed; Info (FuncEnd "main")].
Proof.
  unfold main_locals, main_start. rewrite main_eq, main_body_eq.
  destruct (main_setup args entry) as [[l'|e] w0]; [| done].
  cbn [fst snd]. intros [= ->].
  destruct (main_loop args l (forecast_dates l) w0) as [[[]|e] w1]; [| done].
  intros _. cbn [fst snd heap calls writes stdout log add_log].
  by rewrite <- !app_assoc.
Qed.

(** What [main] leaves behind when the loop raised. *)
Lemma main_raise_world args l e :
  main_locals args = Ok l ->
  let out := main_loop args l (forecast_dates l) (main_start args) in
  out.1 = Raise e ->
  (main_body args entry).1 = Raise e /\
  (main args init_world).1 = Ok () /\
  heap (main args init_world).2 = heap out.2 /\
  calls (main args init_world).2 = calls out.2 /\
  writes (main args init_world).2 = writes out.2 /\
  stdout (main args init_world).2 = stdout out.2 ++ [ErrorOccurred e] /\
  log (main args init_world).2
  = log out.2
    ++ [Info (FuncStart "handle_error"); Error (ErrorOccurred e);
        Error (Traceback e); Info (FuncEnd "handle_error");
        Info (FuncEnd "main")].
Proof.
  unfold main_locals, main_start. rewrite main_eq, main_body_eq.
  destruct (main_setup args entry) as [[l'|e'] w0]; [| done].
  cbn [fst snd]. intros [= ->].
  destruct (main_loop args l (forecast_dates l) w0) as [[[]|e'] w1]; [done |].
  cbn [fst snd]. intros [= ->].
  cbn [fst snd heap calls writes stdout log add_log add_stdout].
  by rewrite <- !app_assoc.
Qed.

(** An exception ends the loop: the days after it are not visited. *)
Lemma main_loop_stops args l dates k w e w' :
  main_loop args l (take k dates) w = (Raise e, w') ->
  main_loop args l dates w = (Raise e, w').
Proof.
  intros Hk. rewrite <- (take_drop k dates). unfold main_loop in *.
  by rewrite for_each_app, Hk.
Qed.

(** A day whose window cannot be built raises before the model is
    called. *)
Lemma process_date_window_raised args l train test rv date w e :
  day_inv l train test rv w ->
  window_value train test date = Raise e ->
  let out := process_date args (df_train l) (df_test l) (forecast l)
               (real_values l) (model l) date w in
  out.1 = Raise e /\ calls out.2 = calls w /\ writes out.2 = writes w /\
  stdout out.2 = stdout w /\
  heap out.2 !! forecast l = heap w !! forecast l.
Proof.
  intros [Htr Hte Hrv Hri (f & Hfc & _) [m Hmo] Hne] Hwin.
  erewrite process_date_eq; [| eassumption ..].
  unfold day_outcome, window_value in *. cbv zeta.
  destruct (loc_upto _ _); cbn [mbind result_bind] in Hwin.
  2:{ injection Hwin as ->. by wsimpl. }
  destruct (loc_assign_price _ _ _ _); [done |].
  injection Hwin as ->. wsimpl. repeat (split; [done |]).
  by rewrite (heap_old _ _ _ _ Hfc).
Qed.

End Records.

(** ** Further theorems: how a run ends *)

Section Outcomes.
Context `{Epftoolbox}.

(** X3. A run that completes. When the test range is a whole number of
    days, the split is chronological, the test days carry no repeated
    date, the model always answers 24 values and the metrics accept
    arrays of the same size, the [try] block of [main] completes: the
    model is called once for each test day, in order, as many rows are
    assigned and lines printed as there are test days, and the records
    handed to [logging] (all of them to [logging.info]; which of them
    the logger emits is not stated) are those of the lines before the
    loop, four for each day, the completion message and the end of
    [main]. *)
Theorem run_completes args (train test : DataFrame) :
  read_args args = Ok (train, test) ->
  length test mod 24 = 0 ->
  is_monotonic_increasing (map ts (train ++ test)) = true ->
  NoDup (every_24th (map ts test)) ->
  (forall m d date cw, exists yp,
     (recalibrate_and_forecast_next_day m d date cw).2 = Ok yp /\
     length yp = 24) ->
  (forall a b, np_size a = np_size b -> exists v, MAE a b = Ok v) ->
  (forall a b, np_size a = np_size b -> exists v, sMAPE a b = Ok v) ->
  (main_body args entry).1 = Ok () /\
  map c_next_day_date (calls (main args init_world).2)
    = every_24th (map ts test) /\
  length (writes (main args init_world).2) = length test / 24 /\
  length (stdout (main args init_world).2) = length test / 24 /\
  log (main args init_world).2
  = setup_log args
    ++ day_records (every_24th (map ts test)) (stdout (main args init_world).2)
    ++ [Info Completed; Info (FuncEnd "main")].
Proof.
  intros Hread Hmod Hmono Hnd Hmodel Hmae Hsmape.
  destruct (main_setup_whole_days args train test Hread Hmod) as [l Hl].
  destruct (main_setup_ok args l Hl)
    as (train' & test' & rv & Hread' & Hre & Hdates & Hinv & Hun & Hc0 & Hw0
        & Ho0 & _ & Hlog0).
  rewrite Hread in Hread'. injection Hread' as <- <-.
  destruct (reshape_24_rows _ _ Hre) as (_ & Hlenrv & Hrows).
  rewrite length_map in Hlenrv, Hrows.
  assert (Hn : length (forecast_dates l) = length test / 24).
  { rewrite Hdates, length_every_24th, length_map; [done |].
    by rewrite length_map. }
  rewrite <- Hdates in *.
  assert (Hrv24 : Forall (fun r => length r = 24) (d_values rv)).
  { apply Forall_lookup. intros i r Hi.
    destruct (Hrows i) as [Hr H24]; [apply lookup_lt_Some in Hi; lia |].
    rewrite Hr in Hi. by injection Hi as <-. }
  assert (Hok : (main_loop args l (forecast_dates l) (main_start args)).1
                = Ok ()).
  { apply (main_loop_completes args l train test rv (forecast_dates l) Hmono
             Hnd ltac:(lia) Hrv24 Hmodel Hmae Hsmape [] (main_start args)
             eq_refl Hinv).
    intros f Hf. destruct Hun as (f0 & Hf0 & Hnan).
    rewrite Hf in Hf0. injection Hf0 as <-.
    destruct (inv_forecast _ _ _ _ _ Hinv) as (f1 & Hf1 & _ & _ & Hlen).
    rewrite Hf in Hf1. injection Hf1 as <-.
    apply Forall_lookup. intros i r Hi.
    rewrite Hnan in Hi; [| lia | apply lookup_lt_Some in Hi; lia].
    by injection Hi as <-. }
  destruct (main_ok_world args l Hl Hok) as (Hbody & _ & Hc & Hw & Ho & Hlog).
  rewrite Hc, Hw, Ho, Hlog.
  pose proof (main_loop_lockstep args l train test rv (forecast_dates l) []
                (main_start args) (length (forecast_dates l)) eq_refl Hnd Hinv
                (main_start_in_step args l Hl)) as Hstep.
  rewrite firstn_all in Hstep. cbv zeta in Hstep.
  destruct Hstep as (nc & nw & np & [Hsc Hsw Hso _] & _ & _ & _ & _ & _ & _
                     & Heq & _).
  destruct (Heq Hok) as (Hnp & -> & ->). cbn [length Nat.add] in Hnp.
  rewrite Nat.min_id in Hnp. subst np.
  destruct (main_loop_records args l train test rv (forecast_dates l)
              (main_start args) ltac:(done) Hinv)
    as (lines & Hlines & _ & Hlok & _).
  destruct (Hlok Hok) as [Hll Hlg].
  rewrite Ho0 in Hlines. cbn [app] in Hlines.
  split; [done |]. split; [by rewrite Hsc, firstn_all |].
  split; [rewrite Hsw, length_map, length_seq; lia |].
  split; [rewrite Hlines, Hll; lia |].
  by rewrite Hlg, Hlog0, Hlines, <- app_assoc.
Qed.

(** X4. An exception of the model ends the run. When the model raised at
    its call [k], the days before it completed, the [try] block of
    [main] raises that exception and no later call is made; the forecast
    frame and the rows assigned are those left by the days before, the
    error message is the only line printed after theirs, and [main] logs
    the error and returns normally. *)
Theorem model_exception_aborts args l k c e :
  main_locals args = Ok l ->
  calls (main args init_world).2 !! k = Some c ->
  c_result c = Raise e ->
  (main_upto args k entry).1 = Ok () /\
  (main_body args entry).1 = Raise e /\
  (main args init_world).1 = Ok () /\
  length (calls (main args init_world).2) = S k /\
  heap (main args init_world).2 !! forecast l
    = heap (main_upto args k entry).2 !! forecast l /\
  writes (main args init_world).2 = writes (main_upto args k entry).2 /\
  stdout (main args init_world).2
    = stdout (main_upto args k entry).2 ++ [ErrorOccurred e] /\
  Error (ErrorOccurred e) ∈ log (main args init_world).2.
Proof.
  intros Hl Hc Hres.
  destruct (main_final args) as (_ & Hcalls & _).
  destruct (main_body_ok args l Hl) as (_ & _ & Hcalls' & _).
  rewrite Hcalls, Hcalls' in Hc.
  destruct (main_setup_ok args l Hl)
    as (train & test & rv & _ & _ & _ & Hinv & _ & Hc0 & _).
  rewrite (main_upto_ok args l k Hl).
  destruct (main_loop_model_raised args l train test rv (forecast_dates l)
              (main_start args) k c e ltac:(done) Hinv)
    as (H1 & H2 & H3 & H4 & H5 & H6); [by rewrite Hc0 | done |].
  rewrite Hc0 in H3.
  destruct (main_raise_world args l e Hl H2)
    as (Hb & Hm & Hh & Hcs & Hw & Ho & Hlog).
  rewrite Hh, Hcs, Hw, Ho, Hlog, H4, H5, H6.
  repeat (split; [done |]).
  rewrite !elem_of_app, !elem_of_cons. auto 10.
Qed.

(** X5. A failure of the metrics leaves the row assigned. When day [k]
    raised after its row was assigned, the row holds the answer of the
    model, which was the last call made; the exception is that of the
    progress line computed on the frame with the row, and nothing was
    printed for the day: the assignment of line 103 is not undone. *)
Theorem metric_failure_keeps_row args l k date e w :
  main_locals args = Ok l ->
  NoDup (forecast_dates l) ->
  forecast_dates l !! k = Some date ->
  (main_upto args k entry).1 = Ok () ->
  main_upto args (S k) entry = (Raise e, w) ->
  (forecast l, k) ∈ writes w ->
  exists c yp row f rv,
    last (calls w) = Some c /\ c_next_day_date c = date /\
    c_result c = Ok yp /\ broadcast_row 24 yp = Ok row /\
    heap w !! forecast l = Some (PyDays f) /\ d_values f !! k = Some row /\
    heap w !! real_values l = Some (PyDays rv) /\
    progress_value f rv date = Raise e /\
    stdout w = stdout (main_upto args k entry).2.
Proof.
  intros Hl Hnd Hk. rewrite !(main_upto_ok args l _ Hl).
  destruct (main_setup_ok args l Hl)
    as (train & test & rv & _ & _ & _ & Hinv & _).
  pose proof (main_loop_lockstep args l train test rv (forecast_dates l) []
                (main_start args) k eq_refl Hnd Hinv
                (main_start_in_step args l Hl)) as Hstep.
  pose proof (main_loop_inv args l train test rv (take k (forecast_dates l))
                (main_start args) (take_subseteq _ _) Hinv) as Hinvk.
  pose proof (lookup_lt_Some _ _ _ Hk) as Hlt.
  rewrite (take_S_r _ _ _ Hk). unfold main_loop in *. rewrite for_each_app.
  cbv zeta in Hstep.
  destruct (for_each (take k (forecast_dates l)) _ _) as [r wk].
  cbn [fst snd] in *. intros ->.
  destruct Hstep as (nc & nw & np & [_ Hsw _ _] & _ & _ & _ & _ & _ & _
                     & Heq & _).
  destruct (Heq eq_refl) as (Hnp & -> & ->). cbn [length Nat.add] in Hnp.
  assert (np = k) as -> by lia.
  destruct (inv_forecast _ _ _ _ _ Hinvk) as (f & Hf & Hidx & Hcol & Hlen).
  pose proof (process_date_outcome args l train test rv date k wk f
                Hinvk Hnd Hk Hf) as Hday.
  pose proof (process_date_inv args l train test rv date wk Hinvk
                ltac:(by eapply list_elem_of_lookup_2)) as Hinv1.
  cbv zeta in Hday. cbn [for_each]. unfold mbind, M_bind, mret, M_ret.
  destruct (process_date _ _ _ _ _ _ _ wk) as [r1 w1]. cbn [fst snd] in *.
  assert (Hfresh : (forecast l, k) ∉ writes wk).
  { rewrite Hsw. intros Hin. apply elem_of_map in Hin as (j & [= <-] & Hj).
    apply elem_of_seq in Hj. lia. }
  destruct Hday as [(e0 & _ & -> & (_ & Hw1 & _) & _) |
    (win & m & c & _ & _ & Hc & [(e0 & _ & -> & (_ & Hw1 & _) & _) |
      [(yp & e0 & _ & _ & -> & (_ & Hw1 & _) & _) |
       (yp & row & f' & Hres & Hb & -> & Hf1 &
          [(e0 & Hmsg & -> & (Hc1 & Hw1 & Ho1)) | (msg & _ & -> & _)])]])].
  - intros [= -> ->]. rewrite Hw1, app_nil_r. done.
  - intros [= -> ->]. rewrite Hw1, app_nil_r. done.
  - intros [= -> ->]. rewrite Hw1, app_nil_r. done.
  - intros [= -> ->] _. exists c, yp, row. eexists. exists rv.
    split; [rewrite Hc1; apply last_snoc |]. split; [by rewrite Hc |].
    split; [done |]. split; [done |]. split; [exact Hf1 |].
    split; [cbn [d_values]; apply list_lookup_insert_eq; lia |].
    split; [apply (inv_real _ _ _ _ _ Hinv1) |]. split; [done |].
    by rewrite Ho1, app_nil_r.
  - done.
Qed.

(** X6. A day whose window cannot be built ends the run before the model
    is called. When the days before day [k] completed and the window of
    day [k] raises (a label that [.loc] cannot place in the index), the
    [try] block of [main] raises that exception; no call, row assignment
    or progress line is added to those of the days before. *)
Theorem window_failure_before_model args l (train test : DataFrame) k date e :
  main_locals args = Ok l ->
  read_args args = Ok (train, test) ->
  forecast_dates l !! k = Some date ->
  (main_upto args k entry).1 = Ok () ->
  window_value train test date = Raise e ->
  (main_upto args (S k) entry).1 = Raise e /\
  (main_body args entry).1 = Raise e /\
  calls (main args init_world).2 = calls (main_upto args k entry).2 /\
  writes (main args init_world).2 = writes (main_upto args k entry).2 /\
  heap (main args init_world).2 !! forecast l
    = heap (main_upto args k entry).2 !! forecast l /\
  stdout (main args init_world).2
    = stdout (main_upto args k entry).2 ++ [ErrorOccurred e].
Proof.
  intros Hl Hread Hk. rewrite !(main_upto_ok args l _ Hl).
  destruct (main_setup_ok args l Hl)
    as (train' & test' & rv & Hread' & _ & _ & Hinv & _).
  rewrite Hread in Hread'. injection Hread' as <- <-.
  pose proof (main_loop_inv args l train test rv (take k (forecast_dates l))
                (main_start args) (take_subseteq _ _) Hinv) as Hinvk.
  intros Hok Hwin.
  pose proof (process_date_window_raised args l train test rv date
                (main_loop args l (take k (forecast_dates l))
                   (main_start args)).2 e Hinvk Hwin) as Hday.
  cbv zeta in Hday.
  assert (Hrun : exists w',
             main_loop args l (take (S k) (forecast_dates l)) (main_start args)
             = (Raise e, w') /\
             calls w' = calls (main_loop args l (take k (forecast_dates l))
                                 (main_start args)).2 /\
             writes w' = writes (main_loop args l (take k (forecast_dates l))
                                   (main_start args)).2 /\
             stdout w' = stdout (main_loop args l (take k (forecast_dates l))
                                   (main_start args)).2 /\
             heap w' !! forecast l
             = heap (main_loop args l (take k (forecast_dates l))
                       (main_start args)).2 !! forecast l).
  { rewrite (take_S_r _ _ _ Hk). unfold main_loop in *. rewrite for_each_app.
    destruct (for_each (take k (forecast_dates l)) _ _) as [r wk].
    cbn [fst snd] in *. subst r.
    cbn [for_each]. unfold mbind, M_bind, mret, M_ret.
    destruct (process_date _ _ _ _ _ _ _ wk) as [r1 w1]. cbn [fst snd] in *.
    destruct Hday as (-> & Hday). by exists w1. }
  destruct Hrun as (w' & Hrun & Hc & Hw & Ho & Hh).
  pose proof (main_loop_stops args l (forecast_dates l) (S k)
                (main_start args) e w' Hrun) as Hall.
  destruct (main_raise_world args l e Hl ltac:(by rewrite Hall))
    as (Hb & _ & Hh' & Hc' & Hw' & Ho' & _).
  rewrite Hh', Hc', Hw', Ho', Hall, Hrun. cbn [fst snd].
  rewrite Hc, Hw, Ho, Hh. done.
Qed.

(** X7. A failure of the data source. When [read_data] raises, the
    exception leaves [load_data] and the [try] block of [main]: no object
    has been created, no model call made; [handle_error] prints the
    error and [main] returns normally. The records handed to [logging]
    (which of them the logger emits is not stated) are the 16 handed to
    [logging.info] up to the start of [load_data], whose end the
    decorator does not submit, then the start of [handle_error], the
    message and the traceback handed to [logging.error], and the ends of
    [handle_error] and [main]. *)
Theorem data_source_failure args e :
  read_args args = Raise e ->
  main_locals args = Raise e /\
  (main_body args entry).1 = Raise e /\
  (main args init_world).1 = Ok () /\
  heap (main args init_world).2 = [] /\
  calls (main args init_world).2 = [] /\
  stdout (main args init_world).2 = [ErrorOccurred e] /\
  log (main args init_world).2
  = take 16 (setup_log args)
    ++ [Info (FuncStart "handle_error"); Error (ErrorOccurred e);
        Error (Traceback e); Info (FuncEnd "handle_error");
        Info (FuncEnd "main")] /\
  Info (FuncStart "load_data") ∈ log (main args init_world).2 /\
  Info (FuncEnd "load_data") ∉ log (main args init_world).2.
Proof.
  intros Hread.
  destruct (main_setup_no_data args e Hread)
    as (w0 & Hs & Hh & Hc & Hw & Ho & Hf & Hlog).
  assert (Hl : main_locals args = Raise e).
  { unfold main_locals. by rewrite Hs. }
  assert (Hw0 : main_start args = w0).
  { unfold main_start. by rewrite Hs. }
  rewrite main_eq, (main_body_fail args e Hl), Hw0.
  cbn [fst snd heap calls stdout log add_log add_stdout].
  rewrite Hh, Hc, Ho, Hlog. repeat (split; [done |]).
  cbn [setup_log take app]. split.
  - rewrite !elem_of_cons. auto 30.
  - rewrite !not_elem_of_cons. split_and!; try done. apply not_elem_of_nil.
Qed.

(** X8. An empty test range. When [read_data] returns no test row, the
    loop has no day to visit: the model is never called, no row is
    assigned, nothing is printed, and the run completes; the records
    handed to [logging.info] (which of them the logger emits is not
    stated) are those of the lines before the loop, the completion
    message and the end of [main]. *)
Theorem empty_test_range args (train : DataFrame) :
  read_args args = Ok (train, []) ->
  (main_body args entry).1 = Ok () /\
  calls (main args init_world).2 = [] /\
  writes (main args init_world).2 = [] /\
  stdout (main args init_world).2 = [] /\
  log (main args init_world).2
  = setup_log args ++ [Info Completed; Info (FuncEnd "main")].
Proof.
  intros Hread.
  destruct (main_setup_whole_days args train [] Hread eq_refl) as [l Hl].
  destruct (main_setup_ok args l Hl)
    as (train' & test' & rv & Hread' & _ & Hdates & _ & _ & Hc0 & Hw0 & Ho0
        & _ & Hlog0).
  rewrite Hread in Hread'. injection Hread' as <- <-.
  cbn in Hdates.
  assert (Hloop : main_loop args l (forecast_dates l) (main_start args)
                  = (Ok (), main_start args)) by (by rewrite Hdates).
  destruct (main_ok_world args l Hl ltac:(by rewrite Hloop))
    as (Hb & _ & Hc & Hw & Ho & Hlog).
  rewrite Hc, Hw, Ho, Hlog, Hloop. cbn [snd]. by rewrite Hc0, Hw0, Ho0, Hlog0.
Qed.

(** X9. The real values are those of the test frame, day by day, at any
    point of the loop: row [i] of [real_values] holds the prices of the
    test rows [24 i] to [24 i + 23], whatever their timestamps, and the
    loop never writes to it. *)
Theorem real_values_by_position args l (train test : DataFrame) k i :
  main_locals args = Ok l ->
  read_args args = Ok (train, test) ->
  i < length test / 24 ->
  exists rv,
    heap (main_upto args k entry).2 !! real_values l = Some (PyDays rv) /\
    heap (main args init_world).2 !! real_values l = Some (PyDays rv) /\
    d_index rv = forecast_dates l /\
    length (d_values rv) = length test / 24 /\
    d_values rv !! i = Some (map Price (islice (24 * i) (24 * i + 24) test)).
Proof.
  intros Hl Hread Hi. rewrite (main_upto_ok args l k Hl).
  destruct (main_final args) as (-> & _).
  destruct (main_body_ok args l Hl) as (_ & -> & _).
  destruct (main_setup_ok args l Hl)
    as (train' & test' & rv & Hread' & Hre & _ & Hinv & _).
  rewrite Hread in Hread'. injection Hread' as <- <-.
  destruct (reshape_24_rows _ _ Hre) as (_ & Hlen & Hrows).
  rewrite length_map in Hlen, Hrows. destruct (Hrows i Hi) as [Hrow _].
  exists rv.
  split; [apply (main_loop_inv args l train test rv _ _
                   (take_subseteq _ _) Hinv) |].
  split; [apply (main_loop_inv args l train test rv (forecast_dates l) _
                   ltac:(done) Hinv) |].
  split; [apply (inv_real_index _ _ _ _ _ Hinv) |]. split; [done |].
  by rewrite Hrow, islice_map.
Qed.

(** X10. The test days are counted by position. The lines before the
    loop succeed on the frames returned by [read_data] exactly when the
    test frame holds a whole number of days; the date of day [k] is then
    the timestamp of row [24 k] of the test frame, and there are as many
    days as 24-row blocks. *)
Theorem test_days_by_position args (train test : DataFrame) :
  read_args args = Ok (train, test) ->
  ((exists l, main_locals args = Ok l) <-> length test mod 24 = 0) /\
  forall l, main_locals args = Ok l ->
    length (forecast_dates l) = length test / 24 /\
    forall k, forecast_dates l !! k = ts <$> test !! (24 * k).
Proof.
  intros Hread.
  assert (Hback : forall l, main_locals args = Ok l ->
            length test mod 24 = 0 /\
            forecast_dates l = every_24th (map ts test)).
  { intros l Hl.
    destruct (main_setup_ok args l Hl)
      as (train' & test' & rv & Hread' & Hre & Hdates & _).
    rewrite Hread in Hread'. injection Hread' as <- <-.
    destruct (reshape_24_rows _ _ Hre) as (Hmod & _).
    by rewrite length_map in Hmod. }
  split.
  - split; [intros [l Hl]; by destruct (Hback l Hl) |].
    by apply main_setup_whole_days with train.
  - intros l Hl. destruct (Hback l Hl) as [Hmod ->]. split.
    + rewrite length_every_24th, length_map; [done | by rewrite length_map].
    + intros k. unfold every_24th. by rewrite lookup_step_from, lookup_map.
Qed.

(** X11. Error records. [main] never raises, and the records it hands to
    [logging.error] are exactly the two of [handle_error], present when
    and only when its [try] block raised: the message and the
    traceback, in that order. *)
Theorem error_records_only_on_failure args :
  (main args init_world).1 = Ok () /\
  List.filter (fun r => negb (is_info r)) (log (main args init_world).2)
  = match (main_body args entry).1 with
    | Ok _ => []
    | Raise e => [Error (ErrorOccurred e); Error (Traceback e)]
    end.
Proof.
  assert (Hnone : forall rs : list record,
            Forall (fun r => is_info r = true) rs ->
            List.filter (fun r => negb (is_info r)) rs = []).
  { induction 1 as [|r rs Hr _ IH]; [done |]. cbn. by rewrite Hr. }
  pose proof (main_body_log_info args) as Hlog. rewrite main_eq.
  destruct (main_body args entry) as [[[]|e] w1]; cbn [fst snd] in *.
  - split; [done |]. cbn [log add_log]. rewrite List.filter_app, Hnone by done.
    done.
  - split; [done |]. cbn [log add_log add_stdout].
    rewrite !List.filter_app, Hnone by done. done.
Qed.

(** X12. The calls of [logging.info] follow the days. After any number
    of iterations the records handed to [logging.info] (which of them
    the logger emits is not stated) are those of the lines before the
    loop, then four for each printed progress line (the start of
    [process_date], the date, the line, the end of [process_date]), then,
    when the loop raised, the start and the date of the day that raised,
    whose end the decorator does not submit. *)
Theorem log_follows_days args l k :
  main_locals args = Ok l ->
  length (stdout (main_upto args k entry).2) <= k /\
  ((main_upto args k entry).1 = Ok () ->
     log (main_upto args k entry).2
     = setup_log args
       ++ day_records (forecast_dates l) (stdout (main_upto args k entry).2)) /\
  (forall e, (main_upto args k entry).1 = Raise e ->
     exists d,
       forecast_dates l !! length (stdout (main_upto args k entry).2) = Some d /\
       log (main_upto args k entry).2
       = setup_log args
         ++ day_records (forecast_dates l) (stdout (main_upto args k entry).2)
         ++ day_started d).
Proof.
  intros Hl. rewrite (main_upto_ok args l k Hl).
  destruct (main_setup_ok args l Hl)
    as (train & test & rv & _ & _ & _ & Hinv & _ & _ & _ & Ho0 & _ & Hlog0).
  destruct (main_loop_records args l train test rv (take k (forecast_dates l))
              (main_start args) (take_subseteq _ _) Hinv)
    as (lines & Hlines & Hlen & Hok & Hbad).
  rewrite Ho0 in Hlines. cbn [app] in Hlines. rewrite Hlines, Hlog0 in *.
  assert (Hk : length lines <= k).
  { rewrite length_take in Hlen. lia. }
  rewrite (day_records_take _ _ _ Hk) in Hok, Hbad.
  split; [done |]. split.
  - intros Hr. by destruct (Hok Hr) as [_ ->].
  - intros e Hr. destruct (Hbad e Hr) as (d & Hd & ->). exists d.
    split; [| done]. rewrite lookup_take_Some in Hd. by destruct Hd.
Qed.

End Outcomes.

(** ** The name of the forecast file *)

Section FileName.
Context `{Epftoolbox}.

Lemma string_app_length (s1 s2 : string) :
  String.length (s1 ++ s2) = String.length s1 + String.length s2.
Proof.
  induction s1 as [|a s1 IH]; [done |].
  change (S (String.length (s1 ++ s2))
          = S (String.length s1 + String.length s2)).
  by rewrite IH.
Qed.

Lemma string_app_inv_tail (a b s : string) :
  (a ++ s = b ++ s)%string -> a = b.
Proof.
  revert b. induction a as [|c a IH]; intros [|c' b] Heq.
  - done.
  - apply (f_equal String.length) in Heq.
    rewrite !string_app_length in Heq. cbn [String.length] in Heq. lia.
  - apply (f_equal String.length) in Heq.
    rewrite !string_app_length in Heq. cbn [String.length] in Heq. lia.
  - change (String c (a ++ s) = String c' (b ++ s))%string in Heq.
    injection Heq as -> Heq. f_equal. by apply IH.
Qed.

(** The decimal text of an integer reads back as the integer. *)
Lemma str_int_read z :
  Z.of_int <$> NilZero.int_of_string (str_int z) = Some z.
Proof.
  unfold str_int. rewrite <- (DecimalZ.of_to z) at 2.
  destruct (Z.to_int z) as [d|d]; destruct d;
    first [ by rewrite NilZero.isi_posnil
          | by rewrite NilZero.isi_negnil
          | by rewrite NilZero.isi ].
Qed.

Lemma str_int_inj z1 z2 : str_int z1 = str_int z2 -> z1 = z2.
Proof.
  intros Heq. pose proof (str_int_read z1) as H1. rewrite Heq, str_int_read in H1.
  congruence.
Qed.

(** X13. The path of the forecast file tells the calibration windows
    apart: for one dataset and one number of test years, two runs that
    compute the same path have the same calibration window. *)
Theorem file_path_tells_window a1 a2 (w1 w2 : world) p :
  dataset a1 = dataset a2 ->
  years_test a1 = years_test a2 ->
  (create_forecast_file_path a1 w1).1 = Ok p ->
  (create_forecast_file_path a2 w2).1 = Ok p ->
  calibration_window a1 = calibration_window a2.
Proof.
  intros Hd Hy.
  unfold create_forecast_file_path, create_forecast_file_name,
    log_function_info, mbind, mret, M_bind, M_ret, logging_info.
  cbn [fst snd]. rewrite Hd, Hy. intros [= <-] [= Heq].
  do 5 apply (inj (String.append _)) in Heq.
  symmetry. by apply str_int_inj, string_app_inv_tail with ".csv"%string.
Qed.

End FileName.

(** * The further theorems on concrete instances *)

(** The metrics of the concrete instance accept arrays of the same
    size. *)
Lemma mean_by_accepts f (a b : @ndarray Demo.numpy) :
  np_size a = np_size b -> exists v, Demo.mean_by f a b = Ok v.
Proof.
  intros Hs. unfold Demo.mean_by.
  assert (Hc : length (Demo.cells a) = length (Demo.cells b)).
  { by destruct a, b. }
  rewrite Hc, Nat.eqb_refl. by eexists.
Qed.

Lemma calls_rows_lines_in_lockstep_witness :
  @main_locals _ Demo.sound default_args = Ok Demo.sound_locals /\
  NoDup (forecast_dates Demo.sound_locals) /\
  exists nc nw np,
    map c_next_day_date (calls (@main_upto _ Demo.sound default_args 1 entry).2)
      = take nc [24; 48]%Z /\
    writes (@main_upto _ Demo.sound default_args 1 entry).2
      = map (pair 2) (seq 0 nw) /\
    map progress_date (stdout (@main_upto _ Demo.sound default_args 1 entry).2)
      = map Some (take np [24; 48]%Z) /\
    np <= nw /\ nw <= nc /\ nc <= S np /\ nc <= 1.
Proof.
  assert (Hnd : NoDup (forecast_dates Demo.sound_locals)).
  { apply (bool_decide_unpack (NoDup _)). vm_compute. exact I. }
  split; [reflexivity |]. split; [exact Hnd |].
  destruct (@calls_rows_lines_in_lockstep _ Demo.sound default_args
              Demo.sound_locals 1 eq_refl Hnd)
    as (nc & nw & np & H1 & H2 & H3 & H4 & H5 & H6 & H7 & _).
  exists nc, nw, np. repeat (split; [assumption |]). exact H7.
Defined.

Lemma rows_hold_answers_witness :
  @main_locals _ Demo.sound default_args = Ok Demo.sound_locals /\
  NoDup (forecast_dates Demo.sound_locals) /\
  (2, 1) ∈ writes (@main_upto _ Demo.sound default_args 2 entry).2 /\
  exists c yp f,
    calls (@main_upto _ Demo.sound default_args 2 entry).2 !! 1 = Some c /\
    c_next_day_date c = 48%Z /\ c_result c = Ok yp /\
    heap (@main_upto _ Demo.sound default_args 2 entry).2 !! 2
      = Some (PyDays f) /\
    (length yp = 24 -> d_values f !! 1 = Some yp).
Proof.
  assert (Hnd : NoDup (forecast_dates Demo.sound_locals)).
  { apply (bool_decide_unpack (NoDup _)). vm_compute. exact I. }
  assert (Hin : (2, 1) ∈ writes (@main_upto _ Demo.sound default_args 2 entry).2).
  { apply (list_elem_of_lookup_2 _ 1). vm_compute. reflexivity. }
  split; [reflexivity |]. split; [exact Hnd |]. split; [exact Hin |].
  destruct (@rows_hold_answers _ Demo.sound default_args Demo.sound_locals 2 1
              eq_refl Hnd Hin)
    as (c & yp & row & f & Hc & Hd & Hres & _ & Hrow & Hf & Hv).
  exists c, yp, f. split; [exact Hc |].
  split; [symmetry; exact (Some_inj _ _ Hd) |].
  split; [exact Hres |]. split; [exact Hf |].
  intros H24. rewrite <- (Hrow H24). exact Hv.
Defined.

Lemma run_completes_witness :
  @read_args _ Demo.sound default_args = Ok (Demo.hours 0 24, Demo.hours 24 48) /\
  length (Demo.hours 24 48) mod 24 = 0 /\
  is_monotonic_increasing (map ts (Demo.hours 0 24 ++ Demo.hours 24 48)) = true /\
  NoDup (every_24th (map ts (Demo.hours 24 48))) /\
  (@main_body _ Demo.sound default_args entry).1 = Ok () /\
  map c_next_day_date (calls (@main _ Demo.sound default_args init_world).2)
    = every_24th (map ts (Demo.hours 24 48)) /\
  length (stdout (@main _ Demo.sound default_args init_world).2) = 48 / 24.
Proof.
  assert (Hnd : NoDup (every_24th (map ts (Demo.hours 24 48)))).
  { apply (bool_decide_unpack (NoDup _)). vm_compute. exact I. }
  split; [reflexivity |]. split; [reflexivity |]. split; [reflexivity |].
  split; [exact Hnd |].
  destruct (@run_completes _ Demo.sound default_args
              (Demo.hours 0 24) (Demo.hours 24 48) eq_refl eq_refl eq_refl Hnd)
    as (Hb & Hc & _ & Ho & _).
  - intros m d date cw. eexists. split; reflexivity.
  - apply mean_by_accepts.
  - apply mean_by_accepts.
  - split; [exact Hb |]. split; [exact Hc |]. exact Ho.
Defined.

Lemma model_exception_aborts_witness :
  @main_locals _ Scenario.model_fails default_args = Ok Demo.sound_locals /\
  calls (@main _ Scenario.model_fails default_args init_world).2 !! 1
    = Some Scenario.failed_call /\
  c_result Scenario.failed_call = Raise (OtherError "ConvergenceWarning") /\
  (@main_upto _ Scenario.model_fails default_args 1 entry).1 = Ok () /\
  (@main_body _ Scenario.model_fails default_args entry).1
    = Raise (OtherError "ConvergenceWarning") /\
  (@main _ Scenario.model_fails default_args init_world).1 = Ok () /\
  length (calls (@main _ Scenario.model_fails default_args init_world).2) = 2.
Proof.
  assert (Hcall : calls (@main _ Scenario.model_fails default_args init_world).2 !! 1
                  = Some Scenario.failed_call).
  { vm_compute. reflexivity. }
  split; [reflexivity |]. split; [exact Hcall |]. split; [reflexivity |].
  destruct (@model_exception_aborts _ Scenario.model_fails default_args
              Demo.sound_locals 1 _ _ eq_refl Hcall eq_refl)
    as (H1 & H2 & H3 & H4 & _).
  split; [exact H1 |]. split; [exact H2 |]. split; [exact H3 |]. exact H4.
Defined.

Lemma metric_failure_keeps_row_witness :
  @main_locals _ Scenario.metric_fails default_args = Ok Demo.sound_locals /\
  NoDup (forecast_dates Demo.sound_locals) /\
  (@main_upto _ Scenario.metric_fails default_args 0 entry).1 = Ok () /\
  (@main_upto _ Scenario.metric_fails default_args 1 entry).1
    = Raise (ValueError "metric") /\
  (2, 0) ∈ writes (@main_upto _ Scenario.metric_fails default_args 1 entry).2 /\
  exists c yp row f,
    last (calls (@main_upto _ Scenario.metric_fails default_args 1 entry).2)
      = Some c /\
    c_result c = Ok yp /\ @broadcast_row Demo.numpy 24 yp = Ok row /\
    heap (@main_upto _ Scenario.metric_fails default_args 1 entry).2 !! 2
      = Some (PyDays f) /\
    d_values f !! 0 = Some row /\
    stdout (@main_upto _ Scenario.metric_fails default_args 1 entry).2
      = stdout (@main_upto _ Scenario.metric_fails default_args 0 entry).2.
Proof.
  assert (Hnd : NoDup (forecast_dates Demo.sound_locals)).
  { apply (bool_decide_unpack (NoDup _)). vm_compute. exact I. }
  assert (Hrun : @main_upto _ Scenario.metric_fails default_args 1 entry
                 = (Raise (ValueError "metric"),
                    (@main_upto _ Scenario.metric_fails default_args 1 entry).2)).
  { vm_compute. reflexivity. }
  assert (Hin : (2, 0) ∈ writes (@main_upto _ Scenario.metric_fails
                                    default_args 1 entry).2).
  { apply (list_elem_of_lookup_2 _ 0). vm_compute. reflexivity. }
  split; [reflexivity |]. split; [exact Hnd |]. split; [reflexivity |].
  split; [reflexivity |]. split; [exact Hin |].
  destruct (@metric_failure_keeps_row _ Scenario.metric_fails default_args
              Demo.sound_locals 0 24%Z _ _ eq_refl Hnd eq_refl eq_refl Hrun Hin)
    as (c & yp & row & f & rv & Hc & _ & Hres & Hb & Hf & Hrow & _ & _ & Ho).
  exists c, yp, row, f. repeat (split; [assumption |]). exact Ho.
Defined.

Lemma window_failure_before_model_witness :
  @main_locals _ Scenario.out_of_order default_args = Ok Scenario.one_day_locals /\
  @read_args _ Scenario.out_of_order default_args
    = Ok (Demo.hours 0 24, Scenario.swapped (Demo.hours 24 24)) /\
  forecast_dates Scenario.one_day_locals !! 0 = Some 25%Z /\
  (@main_upto _ Scenario.out_of_order default_args 0 entry).1 = Ok () /\
  @window_value Demo.numpy (Demo.hours 0 24) (Scenario.swapped (Demo.hours 24 24)) 25
    = Raise (KeyError 48) /\
  (@main_body _ Scenario.out_of_order default_args entry).1
    = Raise (KeyError 48) /\
  calls (@main _ Scenario.out_of_order default_args init_world).2
    = calls (@main_upto _ Scenario.out_of_order default_args 0 entry).2.
Proof.
  assert (Hwin : @window_value Demo.numpy (Demo.hours 0 24)
                   (Scenario.swapped (Demo.hours 24 24)) 25
                 = Raise (KeyError 48)).
  { vm_compute. reflexivity. }
  split; [reflexivity |]. split; [reflexivity |]. split; [reflexivity |].
  split; [reflexivity |]. split; [exact Hwin |].
  destruct (@window_failure_before_model _ Scenario.out_of_order default_args
              Scenario.one_day_locals (Demo.hours 0 24)
              (Scenario.swapped (Demo.hours 24 24)) 0 25%Z (KeyError 48)
              eq_refl eq_refl eq_refl eq_refl Hwin)
    as (_ & Hb & Hc & _).
  split; [exact Hb |]. exact Hc.
Defined.

Lemma data_source_failure_witness :
  @read_args _ Scenario.no_data default_args
    = Raise (OtherError "FileNotFoundError") /\
  (@main_body _ Scenario.no_data default_args entry).1
    = Raise (OtherError "FileNotFoundError") /\
  (@main _ Scenario.no_data default_args init_world).1 = Ok () /\
  heap (@main _ Scenario.no_data default_args init_world).2 = [] /\
  stdout (@main _ Scenario.no_data default_args init_world).2
    = [ErrorOccurred (OtherError "FileNotFoundError")].
Proof.
  split; [reflexivity |].
  destruct (@data_source_failure _ Scenario.no_data default_args
              (OtherError "FileNotFoundError") eq_refl)
    as (_ & Hb & Hm & Hh & _ & Ho & _).
  split; [exact Hb |]. split; [exact Hm |]. split; [exact Hh |]. exact Ho.
Defined.

Lemma empty_test_range_witness :
  @read_args _ Scenario.no_test_day default_args = Ok (Demo.hours 0 24, []) /\
  (@main_body _ Scenario.no_test_day default_args entry).1 = Ok () /\
  calls (@main _ Scenario.no_test_day default_args init_world).2 = [].
Proof.
  split; [reflexivity |].
  destruct (@empty_test_range _ Scenario.no_test_day default_args
              (Demo.hours 0 24) eq_refl)
    as (Hb & Hc & _).
  split; [exact Hb |]. exact Hc.
Defined.

Lemma real_values_by_position_witness :
  @main_locals _ Demo.sound default_args = Ok Demo.sound_locals /\
  @read_args _ Demo.sound default_args = Ok (Demo.hours 0 24, Demo.hours 24 48) /\
  1 < length (Demo.hours 24 48) / 24 /\
  exists rv,
    heap (@main_upto _ Demo.sound default_args 1 entry).2 !! 3 = Some (PyDays rv) /\
    heap (@main _ Demo.sound default_args init_world).2 !! 3 = Some (PyDays rv) /\
    d_values rv !! 1 = Some (map Price (islice 24 48 (Demo.hours 24 48))).
Proof.
  assert (Hi : 1 < length (Demo.hours 24 48) / 24).
  { vm_compute. lia. }
  split; [reflexivity |]. split; [reflexivity |]. split; [exact Hi |].
  destruct (@real_values_by_position _ Demo.sound default_args Demo.sound_locals
              (Demo.hours 0 24) (Demo.hours 24 48) 1 1 eq_refl eq_refl Hi)
    as (rv & H1 & H2 & _ & _ & H3).
  exists rv. split; [exact H1 |]. split; [exact H2 |]. exact H3.
Defined.

Lemma test_days_by_position_witness :
  @read_args _ Demo.sound default_args = Ok (Demo.hours 0 24, Demo.hours 24 48) /\
  ((exists l, @main_locals _ Demo.sound default_args = Ok l)
   <-> length (Demo.hours 24 48) mod 24 = 0) /\
  length (forecast_dates Demo.sound_locals) = length (Demo.hours 24 48) / 24.
Proof.
  split; [reflexivity |].
  destruct (@test_days_by_position _ Demo.sound default_args
              (Demo.hours 0 24) (Demo.hours 24 48) eq_refl)
    as (Hiff & Hall).
  split; [exact Hiff |]. exact (proj1 (Hall Demo.sound_locals eq_refl)).
Defined.

Lemma log_follows_days_witness :
  @main_locals _ Scenario.model_fails default_args = Ok Demo.sound_locals /\
  (@main_upto _ Scenario.model_fails default_args 2 entry).1
    = Raise (OtherError "ConvergenceWarning") /\
  exists d,
    log (@main_upto _ Scenario.model_fails default_args 2 entry).2
    = setup_log default_args
      ++ day_records [24; 48]%Z
           (stdout (@main_upto _ Scenario.model_fails default_args 2 entry).2)
      ++ day_started d.
Proof.
  split; [reflexivity |]. split; [reflexivity |].
  destruct (@log_follows_days _ Scenario.model_fails default_args
              Demo.sound_locals 2 eq_refl)
    as (_ & _ & Hbad).
  destruct (Hbad (OtherError "ConvergenceWarning") eq_refl) as (d & _ & Hlog).
  exists d. exact Hlog.
Defined.

Lemma file_path_tells_window_witness :
  dataset default_args = dataset default_args /\
  years_test default_args = years_test default_args /\
  (@create_forecast_file_path _ Demo.sound default_args init_world).1
    = Ok "./experimental_files/fc_nl_datPJM_YT2_CW1456.csv"%string /\
  calibration_window default_args = calibration_window default_args.
Proof.
  split; [reflexivity |]. split; [reflexivity |]. split; [reflexivity |].
  apply (@file_path_tells_window _ Demo.sound default_args default_args
           init_world init_world
           "./experimental_files/fc_nl_datPJM_YT2_CW1456.csv"%string
           eq_refl eq_refl eq_refl eq_refl).
Defined.
